(** * DenseNet3D: graph construction and training loop of [models/dense_net_3d.py]

    A shallow embedding of the class [DenseNet3D].  The TensorFlow graph is
    represented by the nodes the constructor emits (a tree that follows the
    [with tf.variable_scope] / [with tf.name_scope] nesting) together with the
    static shapes of the tensors; the training loop is a state-and-exception
    monad over the session, the data provider, the checkpoint directory and
    the console.  Python [float]s are IEEE 754 binary64 values, taken from the
    executable specification of the standard library ([SpecFloat]).  Kernels
    and dropout nodes fail to be created as they do in TensorFlow; a string
    tested with [is] is an object, a literal of the program text or a
    string built at run time; the durations that the loop reports are read
    from the runtime, and turning them into a [timedelta] can fail. *)

From Stdlib Require Import ZArith List String Ascii Bool Lia.
From Stdlib Require Import SpecFloat DecimalString DecimalZ DecimalPos DecimalFacts.
Import ListNotations.
Local Open Scope string_scope.
Local Open Scope list_scope.
Local Open Scope Z_scope.
#[local] Set Warnings "-register-all".

(* ================================================================== *)
(** * Part I.  Definitions *)
(* ================================================================== *)

(** ** Python values used by the class *)

Module Py.

(** Exceptions that the modelled code can raise. *)
Inductive exn : Type :=
| ZeroDivisionError
| ValueError
| TypeError
| AttributeError
| OverflowError
| IndexError
| NotFoundError.

Inductive result (A : Type) : Type :=
| Ok (a : A)
| Raise (e : exn).
Arguments Ok {A} a.
Arguments Raise {A} e.


(** [a // b] on integers: floor division, [ZeroDivisionError] for [b = 0]. *)
Definition floordiv (a b : Z) : result Z :=
  if b =? 0 then Raise ZeroDivisionError else Ok (a / b).

(** [range(a, b)]: empty when [b <= a]. *)
Definition range (a b : Z) : list Z :=
  map (fun i => a + Z.of_nat i) (seq 0 (Z.to_nat (b - a))).

(** *** Floats (binary64) *)

Definition float := spec_float.
Definition prec64 : Z := 53.
Definition emax64 : Z := 1024.

Definition is_nan (x : float) : bool :=
  match x with S754_nan => true | _ => false end.

Definition is_finite (x : float) : bool :=
  match x with S754_zero _ | S754_finite _ _ _ => true | _ => false end.

(** [float(n)] for an integer [n], as done implicitly by [int * float] and
    [float / int]: the nearest double, [OverflowError] beyond the range. *)
Definition float_of_int (n : Z) : result float :=
  match binary_normalize prec64 emax64 n 0 false with
  | S754_infinity _ => Raise OverflowError
  | x => Ok x
  end.

(** [x / n] with [x] a float and [n] an integer. *)
Definition truediv_int (x : float) (n : Z) : result float :=
  match float_of_int n with
  | Raise e => Raise e
  | Ok y => match y with
            | S754_zero _ => Raise ZeroDivisionError
            | _ => Ok (SFdiv prec64 emax64 x y)
            end
  end.

(** [n * x] with [n] an integer and [x] a float. *)
Definition mul_int_float (n : Z) (x : float) : result float :=
  match float_of_int n with
  | Raise e => Raise e
  | Ok y => Ok (SFmul prec64 emax64 y x)
  end.

(** Magnitude of a finite float, rounded towards zero. *)
Definition trunc_magnitude (m : positive) (e : Z) : Z :=
  match e with
  | Z0 => Zpos m
  | Zpos p => Zpos m * 2 ^ Zpos p
  | Zneg p => Zpos m / 2 ^ Zpos p
  end.

(** [int(x)] for a float: truncation towards zero; infinities and NaN
    raise. *)
Definition int_of_float (x : float) : result Z :=
  match x with
  | S754_zero _ => Ok 0
  | S754_infinity _ => Raise OverflowError
  | S754_nan => Raise ValueError
  | S754_finite s m e =>
      Ok (if s then - trunc_magnitude m e else trunc_magnitude m e)
  end.

(** [math.floor(x)]: the greatest integer below [x]; same exceptions as
    [int(x)]. *)
Definition floor_of_float (x : float) : result Z :=
  match x with
  | S754_zero _ => Ok 0
  | S754_infinity _ => Raise OverflowError
  | S754_nan => Raise ValueError
  | S754_finite s m e =>
      let n := if s then Zneg m else Zpos m in
      Ok (match e with
          | Z0 => n
          | Zpos p => n * 2 ^ Zpos p
          | Zneg p => n / 2 ^ Zpos p
          end)
  end.

(** A float that is zero or positive, with exponent at most [emax] and
    magnitude below [2 ^ mag]. *)
Definition nonneg_below (x : float) (emax mag : Z) : Prop :=
  match x with
  | S754_zero s => s = false
  | S754_finite s m e =>
      s = false /\ e <= emax /\ Zpos (digits2_pos m) + e <= mag
  | _ => False
  end.

(** [x < y], [x <= y] on floats. *)
Definition ltb (x y : float) : bool := SFltb x y.
Definition leb (x y : float) : bool := SFleb x y.

Definition float_zero : float := S754_zero false.
Definition float_one : float := S754_finite false 4503599627370496 (-52).

(** *** Durations *)

(** [timedelta(seconds=x)] for a float [x], as the training loop uses it:
    the duration is built to be printed.  It raises [OverflowError] when the
    number of days, [floor(x / 86400)], lies outside
    [-999999999 .. 999999999] or [x] is infinite, and [ValueError] for a
    NaN.  (The rounding to microseconds cannot move a double across these
    bounds.) *)
Definition timedelta_of_float (x : float) : result unit :=
  match x with
  | S754_zero _ => Ok tt
  | S754_nan => Raise ValueError
  | S754_infinity _ => Raise OverflowError
  | S754_finite s m e =>
      let num := (if s then Zneg m else Zpos m) * 2 ^ Z.max 0 e in
      let den := 2 ^ Z.max 0 (- e) in
      if (-86399999913600 * den <=? num) && (num <? 86400000000000 * den)
      then Ok tt
      else Raise OverflowError
  end.

(** [timedelta(seconds=n)] for an integer [n]. *)
Definition timedelta_of_int (n : Z) : result unit :=
  if (-86399999913600 <=? n) && (n <? 86400000000000) then Ok tt
  else Raise OverflowError.

(** *** Strings *)

(** A reference to a string object.  [x is y] compares references, not
    contents: the string literals of the program text are interned, one
    object per content, and a string built at run time is an object of its
    own, even when its content is that of a literal. *)
Inductive str_obj : Type :=
| Interned (s : string)
| Built (s : string).

Definition content (x : str_obj) : string :=
  match x with Interned s | Built s => s end.

(** [x is 'lit'] for a literal ['lit'] of the program text. *)
Definition is_literal (x : str_obj) (lit : string) : bool :=
  match x with
  | Interned s => String.eqb s lit
  | Built _ => false
  end.

(** [s.split(sep)] for a one-character separator. *)
Fixpoint split (sep : ascii) (s : string) : list string :=
  match s with
  | EmptyString => [EmptyString]
  | String c r =>
      if Ascii.eqb c sep then EmptyString :: split sep r
      else match split sep r with
           | h :: t => String c h :: t
           | [] => [String c EmptyString]
           end
  end.

(** [c in s] for a character [c]. *)
Fixpoint contains (c : ascii) (s : string) : bool :=
  match s with
  | EmptyString => false
  | String a r => Ascii.eqb a c || contains c r
  end.

(** [l[-1]] of a list of strings produced by [split] (never empty). *)
Definition last_item (l : list string) : string := last l EmptyString.

(** [str(n)] for an integer. *)
Definition str (n : Z) : string := NilZero.string_of_int (Z.to_int n).

Definition is_space (c : ascii) : bool :=
  let n := nat_of_ascii c in
  ((9 <=? n) && (n <=? 13) || (28 <=? n) && (n <=? 32))%nat.

Definition is_digit (c : ascii) : bool :=
  let n := nat_of_ascii c in ((48 <=? n) && (n <=? 57))%nat.

Fixpoint lstrip (s : string) : string :=
  match s with
  | String c r => if is_space c then lstrip r else s
  | EmptyString => EmptyString
  end.

Fixpoint rstrip (s : string) : string :=
  match s with
  | EmptyString => EmptyString
  | String c r =>
      match rstrip r with
      | EmptyString => if is_space c then EmptyString else String c EmptyString
      | r' => String c r'
      end
  end.

Definition strip (s : string) : string := rstrip (lstrip s).

(** Digit groups of an integer literal: underscores are allowed between
    digits only, one at a time. *)
Fixpoint digit_groups (after_digit : bool) (s : string) : option string :=
  match s with
  | EmptyString => if after_digit then Some EmptyString else None
  | String c r =>
      if Ascii.eqb c "_"%char then
        if after_digit then digit_groups false r else None
      else if is_digit c then
        option_map (String c) (digit_groups true r)
      else None
  end.

Definition parse_unsigned (s : string) : result Z :=
  match digit_groups false s with
  | None => Raise ValueError
  | Some ds =>
      match NilEmpty.uint_of_string ds with
      | Some u => Ok (Z.of_uint u)
      | None => Raise ValueError
      end
  end.

(** [int(s)] for a string [s] in base 10 (ASCII input). *)
Definition int_of_str (s : string) : result Z :=
  match strip s with
  | String "-" r =>
      match parse_unsigned r with Ok n => Ok (- n) | Raise e => Raise e end
  | String "+" r => parse_unsigned r
  | s' => parse_unsigned s'
  end.

End Py.

Import Py.

(** ** Static shapes and graph nodes of the tensor library

    Only the shape contract of the primitives is modelled: what each call
    adds to the graph and the static shape of its result. *)

Module TF.

(** A dimension is an integer or unknown ([None], the batch axis). *)
Definition dim := option Z.
Definition shape := list dim.

(** A Python reference to a tensor; [None] is Python's [None]. *)
Definition value := option shape.

Inductive padding : Type := SAME | VALID.

Inductive initializer : Type :=
| variance_scaling_initializer
| xavier_initializer
| initial_tensor.

Inductive op : Type :=
| placeholder (name : string) (s : shape)
| get_variable (name : string) (s : list Z) (init : initializer)
| constant (v : float) (s : list Z)
| nn_conv3d (input : shape) (kernel strides : list Z) (p : padding)
| nn_max_pool3d (input : shape) (ksize strides : list Z) (p : padding)
| nn_avg_pool3d (input : shape) (ksize strides : list Z) (p : padding)
| layers_batch_norm (input : shape)
| nn_relu (input : shape)
| cond_dropout (input : shape) (keep_prob : float)
| concat (axis : Z) (inputs : list shape)
| reshape (input : shape) (target : list Z)
| matmul (a : shape) (b : list Z)
| add (a : shape) (b : list Z)
| nn_softmax (logits : shape)
| softmax_cross_entropy_mean (logits labels : shape)
| l2_loss_sum
| momentum_minimize (nesterov_momentum weight_decay : float)
| accuracy_mean (prediction labels : shape)
| variables_initializer
| train_saver.

(** The graph as the constructor leaves it: operations in creation order,
    grouped by the scopes they were created in. *)
Inductive gnode : Type :=
| Op (o : op)
| Scope (name : string) (body : list gnode).

(** Graph construction: a result or an exception, and the nodes created
    up to that point. *)
Definition G (A : Type) : Type := (result A * list gnode)%type.

Definition ret {A} (a : A) : G A := (Ok a, []).

Definition bind {A B} (m : G A) (f : A -> G B) : G B :=
  match m with
  | (Ok a, ns) => let '(r, ns') := f a in (r, ns ++ ns')
  | (Raise e, ns) => (Raise e, ns)
  end.

Definition raise {A} (e : exn) : G A := (Raise e, []).

Definition lift {A} (r : result A) : G A := (r, []).

Definition emit (o : op) : G unit := (Ok tt, [Op o]).

(** [with tf.variable_scope(name):] and [with tf.name_scope(name):]. *)
Definition scope {A} (name : string) (m : G A) : G A :=
  (fst m, [Scope name (snd m)]).

Definition outcome {A} (m : G A) : result A := fst m.
Definition nodes {A} (m : G A) : list gnode := snd m.

(** [for x in l: acc = body(x, acc)]. *)
Fixpoint for_acc {A B} (l : list A) (body : A -> B -> G B) (acc : B) : G B :=
  match l with
  | [] => ret acc
  | x :: l' => bind (body x acc) (for_acc l' body)
  end.

(** Dereferencing a tensor reference. *)
Definition tensor_of (v : value) : G shape :=
  match v with
  | Some s => ret s
  | None => raise AttributeError
  end.

(** [s[i]] with Python's negative indices. *)
Definition get_dim (s : shape) (i : Z) : result dim :=
  let n := Z.of_nat (List.length s) in
  let j := if i <? 0 then n + i else i in
  if (j <? 0) || (n <=? j) then Raise IndexError
  else match nth_error s (Z.to_nat j) with
       | Some d => Ok d
       | None => Raise IndexError
       end.

(** [int(d)] for a dimension. *)
Definition int_of_dim (d : dim) : result Z :=
  match d with
  | Some n => Ok n
  | None => Raise TypeError
  end.

(** Output length of one axis of a strided window. *)
Definition out_dim (p : padding) (i : dim) (k s : Z) : result dim :=
  if s <=? 0 then Raise ValueError
  else match i with
       | None => Ok None
       | Some n =>
           Ok (Some (match p with
                     | SAME => (n + s - 1) / s
                     | VALID => (n - k + 1 + s - 1) / s
                     end))
       end.

Fixpoint window_dims (p : padding) (input : shape) (ksize strides : list Z)
  : result shape :=
  match input, ksize, strides with
  | [], [], [] => Ok []
  | i :: input', k :: ksize', s :: strides' =>
      match out_dim p i k s with
      | Raise e => Raise e
      | Ok d =>
          match window_dims p input' ksize' strides' with
          | Raise e => Raise e
          | Ok ds => Ok (d :: ds)
          end
      end
  | _, _, _ => Raise ValueError
  end.

Definition dim_compatible (a b : dim) : bool :=
  match a, b with
  | Some x, Some y => x =? y
  | _, _ => true
  end.

(** [tf.nn.conv3d(input, kernel, strides, padding)]. *)
Definition conv3d_shape (input : shape) (kernel strides : list Z)
    (p : padding) : result shape :=
  match input, kernel with
  | [b; d; h; w; c], [kd; kh; kw; cin; cout] =>
      if dim_compatible c (Some cin) then
        match window_dims p [b; d; h; w] [1; kd; kh; kw] (firstn 4 strides) with
        | Ok ds => if (List.length strides =? 5)%nat then Ok (ds ++ [Some cout])
                   else Raise ValueError
        | Raise e => Raise e
        end
      else Raise ValueError
  | _, _ => Raise ValueError
  end.

(** [tf.nn.max_pool3d] and [tf.nn.avg_pool3d]. *)
Definition pool3d_shape (input : shape) (ksize strides : list Z)
    (p : padding) : result shape :=
  if (List.length input =? 5)%nat then window_dims p input ksize strides
  else Raise ValueError.

(** [tf.concat(axis=4, values=(a, b))] on rank-5 tensors. *)
Definition concat4_shape (a b : shape) : result shape :=
  match a, b with
  | [a0; a1; a2; a3; Some ca], [b0; b1; b2; b3; Some cb] =>
      if dim_compatible a0 b0 && dim_compatible a1 b1
         && dim_compatible a2 b2 && dim_compatible a3 b3
      then Ok [a0; a1; a2; a3; Some (ca + cb)]
      else Raise ValueError
  | [a0; a1; a2; a3; _], [b0; b1; b2; b3; _] =>
      Ok [a0; a1; a2; a3; None]
  | _, _ => Raise ValueError
  end.

End TF.

Import TF.

Declare Scope graph_scope.
Delimit Scope graph_scope with graph.
Notation "x <- m ;; k" := (TF.bind m (fun x => k))
  (at level 61, m at next level, right associativity) : graph_scope.
Notation "m ;;; k" := (TF.bind m (fun _ => k))
  (at level 61, right associativity) : graph_scope.

(** ** The class [DenseNet3D]: construction of the graph *)

Module DenseNet3D.

Local Open Scope graph_scope.

(** Arguments of [__init__]; [data_shape] and [n_classes] are the two
    attributes read from [data_provider].  The keyword defaults are
    [renew_logs=False], [reduction=1.0], [bc_mode=False]. *)
Record args : Type := {
  arg_data_shape : list Z;
  arg_n_classes : Z;
  arg_growth_rate : Z;
  arg_depth : Z;
  arg_total_blocks : Z;
  arg_keep_prob : float;
  arg_dataset : string;
  arg_weight_decay : float;
  arg_nesterov_momentum : float;
  arg_model_type : string;
  arg_should_save_logs : bool;
  arg_should_save_model : bool;
  arg_renew_logs : bool;
  arg_reduction : float;
  arg_bc_mode : bool
}.

(** The attributes of [self] that graph construction and training read. *)
Record self_t : Type := {
  data_shape : list Z;
  n_classes : Z;
  depth : Z;
  growth_rate : Z;
  first_output_features : Z;
  total_blocks : Z;
  layers_per_block : Z;
  bc_mode : bool;
  reduction : float;
  keep_prob : float;
  weight_decay : float;
  nesterov_momentum : float;
  model_type : string;
  dataset_name : string;
  should_save_logs : bool;
  should_save_model : bool;
  renew_logs : bool;
  videos : value;
  labels : value;
  learning_rate : value;
  is_training : value
}.

Definition set_layers_per_block (self : self_t) (n : Z) : self_t :=
  {| data_shape := data_shape self; n_classes := n_classes self;
     depth := depth self; growth_rate := growth_rate self;
     first_output_features := first_output_features self;
     total_blocks := total_blocks self; layers_per_block := n;
     bc_mode := bc_mode self; reduction := reduction self;
     keep_prob := keep_prob self; weight_decay := weight_decay self;
     nesterov_momentum := nesterov_momentum self;
     model_type := model_type self; dataset_name := dataset_name self;
     should_save_logs := should_save_logs self;
     should_save_model := should_save_model self;
     renew_logs := renew_logs self;
     videos := videos self; labels := labels self;
     learning_rate := learning_rate self;
     is_training := is_training self |}.

Definition set_inputs (self : self_t) (v l lr t : value) : self_t :=
  {| data_shape := data_shape self; n_classes := n_classes self;
     depth := depth self; growth_rate := growth_rate self;
     first_output_features := first_output_features self;
     total_blocks := total_blocks self;
     layers_per_block := layers_per_block self;
     bc_mode := bc_mode self; reduction := reduction self;
     keep_prob := keep_prob self; weight_decay := weight_decay self;
     nesterov_momentum := nesterov_momentum self;
     model_type := model_type self; dataset_name := dataset_name self;
     should_save_logs := should_save_logs self;
     should_save_model := should_save_model self;
     renew_logs := renew_logs self;
     videos := v; labels := l; learning_rate := lr; is_training := t |}.

(** *** Leaf operations *)

(** The fan-in that the variance-scaling initialiser computes from the
    shape of a kernel: the input depth [shape[-2]] times the receptive
    field [shape[:-2]]. *)
Definition fan_in (s : list Z) : Z :=
  match rev s with
  | [] => 1
  | [n] => n
  | _ :: n :: field => n * fold_right Z.mul 1 field
  end.

(** [tf.get_variable] with [variance_scaling_initializer()]: a negative
    dimension is refused with [ValueError]; the initialiser then divides by
    the fan-in, with [ZeroDivisionError] when that is 0. *)
Definition weight_variable_msra (s : list Z) (name : string) : G (list Z) :=
  if existsb (fun n => n <? 0) s then raise ValueError
  else if fan_in s =? 0 then raise ZeroDivisionError
  else emit (get_variable name s variance_scaling_initializer) ;;; ret s.

Definition weight_variable_xavier (s : list Z) (name : string) : G (list Z) :=
  emit (get_variable name s xavier_initializer) ;;; ret s.

(** [bias_variable(shape, name='bias')]: a variable initialised from the
    constant tensor [0.0]. *)
Definition bias_variable (s : list Z) (name : string) : G (list Z) :=
  emit (constant float_zero s) ;;;
  emit (get_variable name s initial_tensor) ;;;
  ret s.

(** [conv3d(_input, out_features, kernel_size, strides=[1,1,1,1,1],
    padding='SAME')]. *)
Definition conv3d (self : self_t) (_input : value) (out_features kernel_size : Z)
    (strides : list Z) (padding : TF.padding) : G value :=
  x <- tensor_of _input ;;
  c <- lift (get_dim x (-1)) ;;
  in_features <- lift (int_of_dim c) ;;
  kernel <- weight_variable_msra
              [kernel_size; kernel_size; kernel_size; in_features; out_features]
              "kernel" ;;
  scope "3DConv"
    (emit (nn_conv3d x kernel strides padding) ;;;
     out <- lift (conv3d_shape x kernel strides padding) ;;
     ret (Some out)).

(** [not x] for an optional integer argument: true for [None] and for 0. *)
Definition falsy (x : option Z) : bool :=
  match x with
  | None => true
  | Some n => n =? 0
  end.

Definition or_default (x : option Z) (dflt : Z) : Z :=
  match x with
  | Some n => if falsy x then dflt else n
  | None => dflt
  end.

(** [pool(_input, k, d=2, width_k=None, type='avg', k_stride=None,
    d_stride=None, k_stride_width=None)].  The tests [type is 'max'] and
    [type is 'avg'] compare references: they hold for the interned
    literals, such as the default ['avg'], and fail for a string built at
    run time. *)
Definition pool (self : self_t) (_input : value) (k d : Z) (width_k : option Z)
    (type : str_obj) (k_stride d_stride k_stride_width : option Z) : G value :=
  let width_k := or_default width_k k in
  let ksize := [1; d; k; width_k; 1] in
  let k_stride := or_default k_stride k in
  let k_stride_width := or_default k_stride_width k_stride in
  let d_stride := or_default d_stride d in
  let strides := [1; d_stride; k_stride; k_stride_width; 1] in
  let padding := SAME in
  if is_literal type "max" then
    x <- tensor_of _input ;;
    emit (nn_max_pool3d x ksize strides padding) ;;;
    out <- lift (pool3d_shape x ksize strides padding) ;;
    ret (Some out)
  else if is_literal type "avg" then
    x <- tensor_of _input ;;
    emit (nn_avg_pool3d x ksize strides padding) ;;;
    out <- lift (pool3d_shape x ksize strides padding) ;;
    ret (Some out)
  else ret None.

Definition batch_norm (self : self_t) (_input : value) : G value :=
  scope "batch_normalization"
    (x <- tensor_of _input ;;
     emit (layers_batch_norm x) ;;;
     ret (Some x)).

(** [dropout(_input)].  [tf.cond] builds both branches with the graph, and
    [tf.nn.dropout] refuses a keep probability outside (0, 1] with
    [ValueError]. *)
Definition dropout (self : self_t) (_input : value) : G value :=
  if ltb (keep_prob self) float_one then
    scope "dropout"
      (x <- tensor_of _input ;;
       if ltb float_zero (keep_prob self) then
         emit (cond_dropout x (keep_prob self)) ;;;
         ret (Some x)
       else raise ValueError)
  else ret _input.

Definition relu (_input : value) : G value :=
  scope "ReLU"
    (x <- tensor_of _input ;;
     emit (nn_relu x) ;;;
     ret (Some x)).

(** *** Dense blocks *)

(** [composite_function(_input, out_features, kernel_size=3)]. *)
Definition composite_function (self : self_t) (_input : value)
    (out_features kernel_size : Z) : G value :=
  scope "composite_function"
    (output <- batch_norm self _input ;;
     output <- relu output ;;
     output <- conv3d self output out_features kernel_size [1; 1; 1; 1; 1] SAME ;;
     output <- dropout self output ;;
     ret output).

Definition bottleneck (self : self_t) (_input : value) (out_features : Z)
  : G value :=
  scope "bottleneck"
    (output <- batch_norm self _input ;;
     output <- relu output ;;
     let inter_features := out_features * 4 in
     output <- conv3d self output inter_features 1 [1; 1; 1; 1; 1] VALID ;;
     output <- dropout self output ;;
     ret output).

(** [tf.concat(axis=4, values=(_input, comp_out))]; both branches of the
    library-version test build the same node. *)
Definition concat_channels (_input comp_out : value) : G value :=
  a <- tensor_of _input ;;
  b <- tensor_of comp_out ;;
  emit (concat 4 [a; b]) ;;;
  out <- lift (concat4_shape a b) ;;
  ret (Some out).

Definition add_internal_layer (self : self_t) (_input : value) (growth_rate : Z)
  : G value :=
  comp_out <-
    (if negb (bc_mode self) then
       composite_function self _input growth_rate 3
     else
       bottleneck_out <- bottleneck self _input growth_rate ;;
       composite_function self bottleneck_out growth_rate 3) ;;
  scope "concat" (concat_channels _input comp_out).

Definition add_block (self : self_t) (_input : value)
    (growth_rate layers_per_block : Z) : G value :=
  for_acc (range 0 layers_per_block)
    (fun layer output =>
       scope (String.append "layer_" (str layer))
         (add_internal_layer self output growth_rate))
    _input.

(** [transition_layer(_input, pool_depth=2)]. *)
Definition transition_layer (self : self_t) (_input : value) (pool_depth : Z)
  : G value :=
  x <- tensor_of _input ;;
  c <- lift (get_dim x (-1)) ;;
  channels <- lift (int_of_dim c) ;;
  scaled <- lift (mul_int_float channels (reduction self)) ;;
  out_features <- lift (int_of_float scaled) ;;
  output <- composite_function self _input out_features 1 ;;
  scope "pooling"
    (pool self output 2 pool_depth None (Interned "avg") None None None).

Definition trainsition_layer_to_classes (self : self_t) (_input : value)
  : G value :=
  output <- batch_norm self _input ;;
  output <- relu output ;;
  x <- tensor_of output ;;
  w <- lift (get_dim x (-2)) ;;
  last_pool_kernel_width <- lift (int_of_dim w) ;;
  h <- lift (get_dim x (-3)) ;;
  last_pool_kernel_height <- lift (int_of_dim h) ;;
  s <- lift (get_dim x 1) ;;
  last_sequence_length <- lift (int_of_dim s) ;;
  output <- scope "pooling"
              (pool self output last_pool_kernel_height last_sequence_length
                 (Some last_pool_kernel_width) (Interned "avg") None None
                 (Some last_pool_kernel_width)) ;;
  y <- tensor_of output ;;
  c <- lift (get_dim y (-1)) ;;
  features_total <- lift (int_of_dim c) ;;
  emit (reshape y [-1; features_total]) ;;;
  W <- weight_variable_xavier [features_total; n_classes self] "W" ;;
  bias <- bias_variable [n_classes self] "bias" ;;
  emit (matmul [None; Some features_total] W) ;;;
  emit (add [None; Some (n_classes self)] bias) ;;;
  ret (Some [None; Some (n_classes self)]).

(** *** The whole graph *)

Definition _define_inputs (self : self_t) : G self_t :=
  let shape := None :: map Some (data_shape self) in
  emit (placeholder "input_videos" shape) ;;;
  emit (placeholder "labels" [None; Some (n_classes self)]) ;;;
  emit (placeholder "learning_rate" []) ;;;
  emit (placeholder "" []) ;;;
  ret (set_inputs self (Some shape) (Some [None; Some (n_classes self)])
         (Some []) (Some [])).

Definition _build_graph (self : self_t) : G unit :=
  let growth_rate := growth_rate self in
  let layers_per_block := layers_per_block self in
  output <- scope "Initial_convolution"
              (output <- conv3d self (videos self) (first_output_features self)
                           7 [1; 1; 2; 2; 1] SAME ;;
               pool self output 3 3 None (Interned "avg") (Some 2) (Some 1)
                 None) ;;
  output <- for_acc (range 0 (total_blocks self))
              (fun block output =>
                 output <- scope (String.append "Block_" (str block))
                             (add_block self output growth_rate layers_per_block) ;;
                 if negb (block =? total_blocks self - 1) then
                   scope (String.append "Transition_after_block_" (str block))
                     (let pool_depth := 2 in
                      transition_layer self output pool_depth)
                 else ret output)
              output ;;
  logits <- scope "Transition_to_classes"
              (trainsition_layer_to_classes self output) ;;
  lg <- tensor_of logits ;;
  emit (nn_softmax lg) ;;;
  lb <- tensor_of (labels self) ;;
  emit (softmax_cross_entropy_mean lg lb) ;;;
  emit l2_loss_sum ;;;
  emit (momentum_minimize (nesterov_momentum self) (weight_decay self)) ;;;
  emit (accuracy_mean lg lb) ;;;
  ret tt.

(** Session, initialiser and saver; both branches of the library-version
    test create the same two nodes.  The log directory is not modelled. *)
Definition _initialize_session (self : self_t) : G unit :=
  emit variables_initializer ;;;
  emit train_saver.

(** The attribute assignments at the start of [__init__]. *)
Definition new_self (a : args) (layers_per_block : Z) : self_t :=
  {| data_shape := arg_data_shape a; n_classes := arg_n_classes a;
     depth := arg_depth a; growth_rate := arg_growth_rate a;
     first_output_features := arg_growth_rate a * 2;
     total_blocks := arg_total_blocks a;
     layers_per_block := layers_per_block;
     bc_mode := arg_bc_mode a; reduction := arg_reduction a;
     keep_prob := arg_keep_prob a; weight_decay := arg_weight_decay a;
     nesterov_momentum := arg_nesterov_momentum a;
     model_type := arg_model_type a; dataset_name := arg_dataset a;
     should_save_logs := arg_should_save_logs a;
     should_save_model := arg_should_save_model a;
     renew_logs := arg_renew_logs a;
     videos := None; labels := None; learning_rate := None;
     is_training := None |}.

(** [DenseNet3D(...)].  The console output of the constructor and
    [_count_trainable_params], which only prints, are left out. *)
Definition __init__ (a : args) : G self_t :=
  layers_per_block <-
    lift (floordiv (arg_depth a - (arg_total_blocks a + 1)) (arg_total_blocks a)) ;;
  let self := new_self a layers_per_block in
  let self :=
    if bc_mode self
    then set_layers_per_block self (DenseNet3D.layers_per_block self / 2)
    else self in
  self <- _define_inputs self ;;
  _build_graph self ;;;
  _initialize_session self ;;;
  ret self.


(** Example arguments: the paper's configuration on 8x32x32x3 clips. *)
Definition example_args (depth total_blocks : Z) (bc : bool) : args :=
  {| arg_data_shape := [8; 32; 32; 3]; arg_n_classes := 2;
     arg_growth_rate := 12; arg_depth := depth;
     arg_total_blocks := total_blocks;
     arg_keep_prob := float_one; arg_dataset := "UCF101";
     arg_weight_decay := float_zero; arg_nesterov_momentum := float_zero;
     arg_model_type := if bc then "DenseNet-BC" else "DenseNet";
     arg_should_save_logs := true; arg_should_save_model := true;
     arg_renew_logs := false; arg_reduction := float_one;
     arg_bc_mode := bc |}.

End DenseNet3D.

(** ** Expected layout of the nodes of a dense block *)

Module Layout.

Import DenseNet3D.

Section Nodes.

Variable self : self_t.
Variables b d h w : dim.

(** A feature map [batch, sequence_length, height, width, channels]. *)
Definition fmap (c : Z) : shape := [b; d; h; w; Some c].

(** Nodes added by [dropout] on a tensor of shape [s]. *)
Definition dropout_nodes (s : shape) : list gnode :=
  if ltb (keep_prob self) float_one
  then [Scope "dropout" [Op (cond_dropout s (keep_prob self))]]
  else [].

(** Batch normalisation, ReLU, convolution to [out] channels, dropout. *)
Definition bn_relu_conv_nodes (c out k : Z) (p : padding) : list gnode :=
  [Scope "batch_normalization" [Op (layers_batch_norm (fmap c))];
   Scope "ReLU" [Op (nn_relu (fmap c))];
   Op (get_variable "kernel" [k; k; k; c; out] variance_scaling_initializer);
   Scope "3DConv"
     [Op (nn_conv3d (fmap c) [k; k; k; c; out] [1; 1; 1; 1; 1] p)]]
  ++ dropout_nodes (fmap out).

(** Nodes of [composite_function] on [c] channels. *)
Definition composite_nodes (c out k : Z) : list gnode :=
  [Scope "composite_function" (bn_relu_conv_nodes c out k SAME)].

(** Nodes of [bottleneck] on [c] channels: the convolution produces
    [4 * out] channels. *)
Definition bottleneck_nodes (c out : Z) : list gnode :=
  [Scope "bottleneck" (bn_relu_conv_nodes c (4 * out) 1 VALID)].

(** The concatenation that closes an internal layer. *)
Definition concat_nodes (c g : Z) : list gnode :=
  [Scope "concat" [Op (concat 4 [fmap c; fmap g])]].

End Nodes.

(** A keep probability that [dropout] can be built with: 1 or more (no
    dropout), or above 0. *)
Definition valid_keep_prob (self : self_t) : Prop :=
  ltb (keep_prob self) float_one = true ->
  ltb float_zero (keep_prob self) = true.

(** A reduction that keeps at least one of [k] channels: the value of the
    float times [k] is 1 or more. *)
Definition keeps_a_channel (k : Z) (r : float) : bool :=
  match r with
  | S754_finite false m e =>
      2 ^ Z.max 0 (- e) <=? k * Zpos m * 2 ^ Z.max 0 e
  | _ => false
  end.

(** Length of an axis after a SAME-padded window of stride [s]. *)
Definition strided (i : dim) (s : Z) : dim :=
  option_map (fun n => (n + s - 1) / s) i.

(** The blocks as the build order prescribes them, from block [block] on:
    each block is [add_block] with the network's growth rate and layers per
    block, in its own scope; every block but the last is followed by
    [transition_layer] with [pool_depth = 2]. *)
Inductive blocks_built (self : self_t)
  : Z -> value -> list gnode -> value -> Prop :=
| built_none (block : Z) (x : value) :
    total_blocks self <= block ->
    blocks_built self block x [] x
| built_last (block : Z) (x y : value) (ns : list gnode) :
    block = total_blocks self - 1 ->
    add_block self x (growth_rate self) (layers_per_block self) = (Ok y, ns) ->
    blocks_built self block x
      [Scope (String.append "Block_" (str block)) ns] y
| built_next (block : Z) (x y z out : value) (ns ts rest : list gnode) :
    block < total_blocks self - 1 ->
    add_block self x (growth_rate self) (layers_per_block self) = (Ok y, ns) ->
    transition_layer self y 2 = (Ok z, ts) ->
    blocks_built self (block + 1) z rest out ->
    blocks_built self block x
      (Scope (String.append "Block_" (str block)) ns
       :: Scope (String.append "Transition_after_block_" (str block)) ts
       :: rest) out.

(** An optional argument with the value used when it is omitted. *)
Definition given_or (x : option Z) (dflt : Z) : Z :=
  match x with
  | Some n => n
  | None => dflt
  end.

(** The window and the strides that [pool] is specified to build. *)
Definition pool_ksize (k d : Z) (width_k : option Z) : list Z :=
  [1; d; k; given_or width_k k; 1].

Definition pool_strides (k d : Z) (k_stride d_stride k_stride_width : option Z)
  : list Z :=
  [1; given_or d_stride d; given_or k_stride k;
   given_or k_stride_width (given_or k_stride k); 1].

(** Result of a pooling call from the shape contract of the library. *)
Definition pooled (x : shape) (ksize strides : list Z) : result value :=
  match pool3d_shape x ksize strides SAME with
  | Ok s => Ok (Some s)
  | Raise e => Raise e
  end.

End Layout.

(** ** The class [DenseNet3D]: checkpoints and the training loop *)

(** What the class takes from its collaborators: the data provider and the
    execution of the built graph in the session. *)
Class Runtime : Type := {
  (** values of the trainable parameters held by the session *)
  params : Type;
  (** a pair [(videos, labels)] as returned by [next_batch] *)
  batch : Type;
  (** one split of the data provider, with its reading position *)
  provider : Type;
  num_examples : provider -> Z;
  next_batch : provider -> Z -> batch * provider;
  (** [sess.run([train_step, cross_entropy, accuracy], feed_dict)] with
      [is_training: True] and the given learning rate *)
  run_train_step : params -> batch -> float -> params * (float * float);
  (** [sess.run([cross_entropy, accuracy], feed_dict)] with
      [is_training: False] *)
  run_metrics : params -> batch -> float * float;
  (** [time.time() - start_time] as read at the end of an epoch *)
  epoch_seconds : Z -> float;
  (** [time.time() - total_start_time] as read at the end of the run *)
  total_seconds : float
}.

Module Np.

Definition prec32 : Z := 24.
Definition emax32 : Z := 128.

Definition add32 : float -> float -> float := SFadd prec32 emax32.

(** Eight interleaved partial sums over the rows of 8 values of [l],
    combined as [((r0+r1)+(r2+r3))+((r4+r5)+(r6+r7))]; the values left
    over, fewer than 8, are then added one by one. *)
Fixpoint unrolled_sum (r0 r1 r2 r3 r4 r5 r6 r7 : float) (l : list float)
  : float :=
  match l with
  | a0 :: a1 :: a2 :: a3 :: a4 :: a5 :: a6 :: a7 :: l' =>
      unrolled_sum (add32 r0 a0) (add32 r1 a1) (add32 r2 a2) (add32 r3 a3)
        (add32 r4 a4) (add32 r5 a5) (add32 r6 a6) (add32 r7 a7) l'
  | rest =>
      fold_left add32 rest
        (add32 (add32 (add32 r0 r1) (add32 r2 r3))
               (add32 (add32 r4 r5) (add32 r6 r7)))
  end.

(** numpy's pairwise summation of [float32] values: fewer than 8 values
    are added one by one to [0.0]; up to 128 values go through the eight
    partial sums; a longer list is cut in two at the multiple of 8 next
    below its middle and the sums of the two parts are added.  [fuel]
    bounds the depth of the cuts; the length of the list is enough. *)
Fixpoint pairwise_sum (fuel : nat) (l : list float) : float :=
  let n := List.length l in
  match l with
  | a0 :: a1 :: a2 :: a3 :: a4 :: a5 :: a6 :: a7 :: l' =>
      if (n <=? 128)%nat then unrolled_sum a0 a1 a2 a3 a4 a5 a6 a7 l'
      else
        match fuel with
        | O => unrolled_sum a0 a1 a2 a3 a4 a5 a6 a7 l'
        | S fuel' =>
            let n2 := (n / 2 - (n / 2) mod 8)%nat in
            add32 (pairwise_sum fuel' (firstn n2 l))
                  (pairwise_sum fuel' (skipn n2 l))
        end
  | _ => fold_left add32 l (S754_zero false)
  end.

(** [np.add.reduce] of a [float32] array: the pairwise sum is added to the
    identity [0.0]. *)
Definition sum (l : list float) : float :=
  add32 (S754_zero false) (pairwise_sum (List.length l) l).

(** [np.mean(l)] for a list of [float32] scalars: the sum divided by the
    count; the empty list gives [0.0 / 0]. *)
Definition mean (l : list float) : float :=
  SFdiv prec32 emax32 (sum l)
    (binary_normalize prec32 emax32 (Z.of_nat (List.length l)) 0 false).

End Np.

Module Train.

Import DenseNet3D.

(** Lines written to the console; the text of each is given by the source
    line it stands for. *)
Inductive message : Type :=
| Msg_train_epoch (epoch : Z)
| Msg_decrease_lr (new_lr : float)
| Msg_training
| Msg_validation
| Msg_mean (loss accuracy : float)
| Msg_time_per_epoch
| Msg_total_time
| Msg_loaded (save_path : string) (start_epoch : Z)
| Msg_training_from_scratch.

(** One [tf.Summary.Value] handed to the summary writer. *)
Record summary : Type := {
  tag : string;
  simple_value : float;
  step : Z
}.

(** The dictionary [train_params]; [validation_set] may be absent. *)
Record train_params_t : Type := {
  n_epochs : Z;
  initial_learning_rate : float;
  batch_size : Z;
  reduce_lr_epoch_1 : Z;
  reduce_lr_epoch_2 : Z;
  validation_set : option bool
}.

Inductive split_name : Type := train | validation.

Section WithRuntime.
Context {R : Runtime}.

(** Everything the training loop reads and writes. *)
Record world : Type := {
  sess : params;
  data_train : provider;
  data_validation : provider;
  (** per directory, the [model_checkpoint_path] of its checkpoint state *)
  checkpoint_state : list (string * string);
  (** checkpoint files on disk, most recent first *)
  checkpoint_files : list (string * params);
  stdout : list message;
  summary_writer : list summary;
  batches_step : Z
}.

Definition T (A : Type) : Type := world -> result A * world.

Definition ret {A} (a : A) : T A := fun w => (Ok a, w).

Definition bind {A B} (m : T A) (f : A -> T B) : T B :=
  fun w =>
    match m w with
    | (Ok a, w') => f a w'
    | (Raise e, w') => (Raise e, w')
    end.

Definition lift {A} (r : result A) : T A := fun w => (r, w).

Definition get : T world := fun w => (Ok w, w).

Definition modify (f : world -> world) : T unit := fun w => (Ok tt, f w).

Fixpoint for_acc {A B} (l : list A) (body : A -> B -> T B) (acc : B) : T B :=
  match l with
  | [] => ret acc
  | x :: l' => bind (body x acc) (for_acc l' body)
  end.

Fixpoint for_each {A} (l : list A) (body : A -> T unit) : T unit :=
  match l with
  | [] => ret tt
  | x :: l' => bind (body x) (fun _ => for_each l' body)
  end.

Definition set_sess (p : params) (w : world) : world :=
  {| sess := p; data_train := data_train w;
     data_validation := data_validation w;
     checkpoint_state := checkpoint_state w;
     checkpoint_files := checkpoint_files w;
     stdout := stdout w; summary_writer := summary_writer w;
     batches_step := batches_step w |}.

Definition set_data (d : split_name) (p : provider) (w : world) : world :=
  {| sess := sess w;
     data_train := match d with train => p | validation => data_train w end;
     data_validation :=
       match d with train => data_validation w | validation => p end;
     checkpoint_state := checkpoint_state w;
     checkpoint_files := checkpoint_files w;
     stdout := stdout w; summary_writer := summary_writer w;
     batches_step := batches_step w |}.

Definition set_checkpoints (st : list (string * string))
    (files : list (string * params)) (w : world) : world :=
  {| sess := sess w; data_train := data_train w;
     data_validation := data_validation w;
     checkpoint_state := st; checkpoint_files := files;
     stdout := stdout w; summary_writer := summary_writer w;
     batches_step := batches_step w |}.

Definition set_stdout (out : list message) (w : world) : world :=
  {| sess := sess w; data_train := data_train w;
     data_validation := data_validation w;
     checkpoint_state := checkpoint_state w;
     checkpoint_files := checkpoint_files w;
     stdout := out; summary_writer := summary_writer w;
     batches_step := batches_step w |}.

Definition set_summary_writer (l : list summary) (w : world) : world :=
  {| sess := sess w; data_train := data_train w;
     data_validation := data_validation w;
     checkpoint_state := checkpoint_state w;
     checkpoint_files := checkpoint_files w;
     stdout := stdout w; summary_writer := l;
     batches_step := batches_step w |}.

Definition set_batches_step (n : Z) (w : world) : world :=
  {| sess := sess w; data_train := data_train w;
     data_validation := data_validation w;
     checkpoint_state := checkpoint_state w;
     checkpoint_files := checkpoint_files w;
     stdout := stdout w; summary_writer := summary_writer w;
     batches_step := n |}.

Definition data_of (d : split_name) (w : world) : provider :=
  match d with train => data_train w | validation => data_validation w end.

Definition print (m : message) : T unit :=
  modify (fun w => set_stdout (stdout w ++ [m]) w).

Fixpoint lookup {A} (k : string) (l : list (string * A)) : option A :=
  match l with
  | [] => None
  | (k', a) :: l' => if String.eqb k k' then Some a else lookup k l'
  end.

Local Notation "x <- m ;; k" := (bind m (fun x => k))
  (at level 61, m at next level, right associativity).
Local Notation "m ;;; k" := (bind m (fun _ => k))
  (at level 61, right associativity).

(** *** Checkpoints *)

Definition model_identifier (self : self_t) : string :=
  (model_type self ++ "_growth_rate=" ++ str (growth_rate self)
   ++ "_depth=" ++ str (depth self)
   ++ "_dataset_" ++ dataset_name self
   ++ "_total_block=" ++ str (total_blocks self))%string.

(** The pair [(save_path, model_path)]; creating the directory is not
    modelled. *)
Definition save_path (self : self_t) : string * string :=
  let save_path := ("saves/" ++ model_identifier self)%string in
  let model_path := (save_path ++ "/model.chkpt")%string in
  (save_path, model_path).

(** [self.saver.save(sess, path, global_step)]: the file is named
    [path-<global_step>] and becomes the checkpoint state of its
    directory. *)
Definition save_model (self : self_t) (global_step : option Z) : T unit :=
  let file :=
    match global_step with
    | Some n => (snd (save_path self) ++ "-" ++ str n)%string
    | None => snd (save_path self)
    end in
  modify (fun w =>
            set_checkpoints
              ((fst (save_path self), file) :: checkpoint_state w)
              ((file, sess w) :: checkpoint_files w) w).

(** [self.saver.restore(sess, path)]. *)
Definition restore (path : string) : T unit :=
  w <- get ;;
  match lookup path (checkpoint_files w) with
  | Some p => modify (set_sess p)
  | None => lift (Raise NotFoundError)
  end.

Definition load_model (self : self_t) : T Z :=
  w <- get ;;
  let ckpt := lookup (fst (save_path self)) (checkpoint_state w) in
  match ckpt with
  | Some model_checkpoint_path =>
      if negb (String.eqb model_checkpoint_path "") then
        restore model_checkpoint_path ;;;
        let start_epoch :=
          last_item (split "-" (last_item (split "/" model_checkpoint_path))) in
        n <- lift (int_of_str start_epoch) ;;
        let start_epoch := n + 1 in
        print (Msg_loaded (fst (save_path self)) start_epoch) ;;;
        ret start_epoch
      else
        print Msg_training_from_scratch ;;;
        ret 1
  | None =>
      print Msg_training_from_scratch ;;;
      ret 1
  end.

(** [log_loss_accuracy(loss, accuracy, epoch, prefix, should_print=True)]. *)
Definition log_loss_accuracy (self : self_t) (loss accuracy : float)
    (epoch : Z) (prefix : string) (should_print : bool) : T unit :=
  (if should_print then print (Msg_mean loss accuracy) else ret tt) ;;;
  modify (fun w =>
            set_summary_writer
              (summary_writer w ++
               [ {| tag := ("loss_" ++ prefix)%string;
                    simple_value := loss; step := epoch |};
                 {| tag := ("accuracy_" ++ prefix)%string;
                    simple_value := accuracy; step := epoch |} ]) w).

(** *** One pass over a split *)

Definition take_batch (data : split_name) (batch_size : Z) : T batch :=
  w <- get ;;
  let '(b, p) := next_batch (data_of data w) batch_size in
  modify (set_data data p) ;;;
  ret b.

(** The body of the loop of [train_one_epoch]. *)
Definition train_one_batch (self : self_t) (data : split_name)
    (batch_size : Z) (learning_rate : float)
    (totals : list float * list float) : T (list float * list float) :=
  let '(total_loss, total_accuracy) := totals in
  b <- take_batch data batch_size ;;
  w <- get ;;
  let '(p, (loss, accuracy)) := run_train_step (sess w) b learning_rate in
  modify (set_sess p) ;;;
  let total_loss := total_loss ++ [loss] in
  let total_accuracy := total_accuracy ++ [accuracy] in
  (if should_save_logs self then
     modify (fun w => set_batches_step (batches_step w + 1) w) ;;;
     w <- get ;;
     log_loss_accuracy self loss accuracy (batches_step w) "per_batch" false
   else ret tt) ;;;
  ret (total_loss, total_accuracy).

Definition train_one_epoch (self : self_t) (data : split_name)
    (batch_size : Z) (learning_rate : float) : T (float * float) :=
  w <- get ;;
  let num_examples := num_examples (data_of data w) in
  n <- lift (floordiv num_examples batch_size) ;;
  totals <-
    for_acc (range 0 n)
      (fun i => train_one_batch self data batch_size learning_rate)
      ([], []) ;;
  let mean_loss := Np.mean (fst totals) in
  let mean_accuracy := Np.mean (snd totals) in
  ret (mean_loss, mean_accuracy).

(** The body of the loop of [test]. *)
Definition test_one_batch (self : self_t) (data : split_name) (batch_size : Z)
    (totals : list float * list float) : T (list float * list float) :=
  let '(total_loss, total_accuracy) := totals in
  b <- take_batch data batch_size ;;
  w <- get ;;
  let '(loss, accuracy) := run_metrics (sess w) b in
  ret (total_loss ++ [loss], total_accuracy ++ [accuracy]).

Definition test (self : self_t) (data : split_name) (batch_size : Z)
  : T (float * float) :=
  w <- get ;;
  let num_examples := num_examples (data_of data w) in
  n <- lift (floordiv num_examples batch_size) ;;
  totals <-
    for_acc (range 0 n) (fun i => test_one_batch self data batch_size)
      ([], []) ;;
  let mean_loss := Np.mean (fst totals) in
  let mean_accuracy := Np.mean (snd totals) in
  ret (mean_loss, mean_accuracy).

(** *** The epoch loop *)

(** Lines 465-472: the learning rate of one epoch. *)
Definition epoch_learning_rate (train_params : train_params_t) (epoch : Z)
  : T float :=
  let learning_rate := initial_learning_rate train_params in
  if (reduce_lr_epoch_1 train_params <=? epoch)
     && (epoch <? reduce_lr_epoch_2 train_params) then
    learning_rate <- lift (truediv_int learning_rate 10) ;;
    print (Msg_decrease_lr learning_rate) ;;;
    ret learning_rate
  else if reduce_lr_epoch_2 train_params <=? epoch then
    learning_rate <- lift (truediv_int learning_rate 100) ;;
    print (Msg_decrease_lr learning_rate) ;;;
    ret learning_rate
  else ret learning_rate.

(** The time report of an epoch (lines 487-491): the seconds left are
    [int((n_epochs - epoch) * time_per_epoch)], and both durations are
    turned into [timedelta]s to be printed. *)
Definition time_report (n_epochs epoch : Z) (time_per_epoch : float)
  : result unit :=
  match mul_int_float (n_epochs - epoch) time_per_epoch with
  | Raise e => Raise e
  | Ok scaled =>
      match int_of_float scaled with
      | Raise e => Raise e
      | Ok seconds_left =>
          match timedelta_of_float time_per_epoch with
          | Raise e => Raise e
          | Ok _ => timedelta_of_int seconds_left
          end
      end
  end.

(** The body of the loop over epochs. *)
Definition train_epoch (self : self_t) (train_params : train_params_t)
    (epoch : Z) : T unit :=
  print (Msg_train_epoch epoch) ;;;
  learning_rate <- epoch_learning_rate train_params epoch ;;
  print Msg_training ;;;
  res <- train_one_epoch self train (batch_size train_params) learning_rate ;;
  (if should_save_logs self then
     log_loss_accuracy self (fst res) (snd res) epoch "train" true
   else ret tt) ;;;
  (match validation_set train_params with
   | Some true =>
       print Msg_validation ;;;
       res <- test self validation (batch_size train_params) ;;
       if should_save_logs self then
         log_loss_accuracy self (fst res) (snd res) epoch "valid" true
       else ret tt
   | _ => ret tt
   end) ;;;
  lift (time_report (n_epochs train_params) epoch (epoch_seconds epoch)) ;;;
  print Msg_time_per_epoch ;;;
  (if should_save_model self then save_model self (Some epoch)
   else ret tt).

Definition train_all_epochs (self : self_t) (train_params : train_params_t)
  : T unit :=
  start_epoch <- load_model self ;;
  for_each (range start_epoch (n_epochs train_params + 1))
    (train_epoch self train_params) ;;;
  lift (timedelta_of_float total_seconds) ;;;
  print Msg_total_time.

(** *** The behaviour the loop is specified to have *)

(** The floats [10.0] and [100.0]. *)
Definition float_ten : float := S754_finite false 5629499534213120 (-49).
Definition float_hundred : float := S754_finite false 7036874417766400 (-46).

(** The learning rate of an epoch, from the initial rate only: a hundredth
    from [reduce_lr_epoch_2] on, a tenth from [reduce_lr_epoch_1] on until
    then, the initial rate before both. *)
Definition scheduled_learning_rate (train_params : train_params_t) (epoch : Z)
  : float :=
  if reduce_lr_epoch_2 train_params <=? epoch then
    SFdiv prec64 emax64 (initial_learning_rate train_params) float_hundred
  else if reduce_lr_epoch_1 train_params <=? epoch then
    SFdiv prec64 emax64 (initial_learning_rate train_params) float_ten
  else initial_learning_rate train_params.

(** [k] successive calls of [next_batch(batch_size)]. *)
Fixpoint draw_batches (p : provider) (batch_size : Z) (k : nat)
  : list batch * provider :=
  match k with
  | O => ([], p)
  | S k' =>
      let '(b, p') := next_batch p batch_size in
      let '(bs, p'') := draw_batches p' batch_size k' in
      (b :: bs, p'')
  end.

(** Training steps on the batches in turn: the parameters reached and the
    (loss, accuracy) pair of every batch. *)
Fixpoint train_steps (ps : params) (bs : list batch) (lr : float)
  : params * list (float * float) :=
  match bs with
  | [] => (ps, [])
  | b :: bs' =>
      let '(ps', v) := run_train_step ps b lr in
      let '(ps'', vs) := train_steps ps' bs' lr in
      (ps'', v :: vs)
  end.

(** What a pass leaves untouched: the console and the checkpoints. *)
Definition quiet_step (w w' : world) : Prop :=
  stdout w' = stdout w
  /\ checkpoint_state w' = checkpoint_state w
  /\ checkpoint_files w' = checkpoint_files w.

(** The epochs whose header was printed, in order. *)
Definition epochs_run (out : list message) : list Z :=
  flat_map (fun m => match m with Msg_train_epoch e => [e] | _ => [] end) out.

(** Computations that go through and print no epoch header. *)
Definition steady {A} (m : T A) : Prop :=
  forall w : world,
    exists (a : A) (w' : world),
      m w = (Ok a, w') /\ epochs_run (stdout w') = epochs_run (stdout w).

(** What training and evaluation act on: the parameters in the session,
    the reading positions of the two splits, and the checkpoints on disk. *)
Record progress : Type := {
  trained : params;
  train_at : provider;
  valid_at : provider;
  saved_state : list (string * string);
  saved_files : list (string * params)
}.

Definition progress_of (w : world) : progress :=
  {| trained := sess w; train_at := data_train w;
     valid_at := data_validation w;
     saved_state := checkpoint_state w;
     saved_files := checkpoint_files w |}.

(** The batches of one pass over a split, [num_examples // batch_size] of
    them, and the position the split is left at. *)
Definition pass_batches (p : provider) (batch_size : Z)
  : list batch * provider :=
  draw_batches p batch_size (Z.to_nat (num_examples p / batch_size)).

(** Training an epoch: one training step on every batch of a pass over the
    training split. *)
Definition train_pass (batch_size : Z) (lr : float) (s : progress)
  : progress :=
  let drawn := pass_batches (train_at s) batch_size in
  {| trained := fst (train_steps (trained s) (fst drawn) lr);
     train_at := snd drawn;
     valid_at := valid_at s;
     saved_state := saved_state s;
     saved_files := saved_files s |}.

(** Evaluating an epoch: one pass over the validation split. *)
Definition validation_pass (batch_size : Z) (s : progress) : progress :=
  {| trained := trained s;
     train_at := train_at s;
     valid_at := snd (pass_batches (valid_at s) batch_size);
     saved_state := saved_state s;
     saved_files := saved_files s |}.

(** Saving an epoch: the parameters go to the file [model_path-<epoch>],
    which becomes the latest checkpoint of the save directory. *)
Definition checkpoint (self : self_t) (epoch : Z) (s : progress) : progress :=
  let file := (snd (save_path self) ++ "-" ++ str epoch)%string in
  {| trained := trained s;
     train_at := train_at s;
     valid_at := valid_at s;
     saved_state := (fst (save_path self), file) :: saved_state s;
     saved_files := (file, trained s) :: saved_files s |}.

(** Executing one epoch: it is trained with the learning rate scheduled for
    it, evaluated when a validation set is asked for, and saved when the
    model is to be saved. *)
Definition epoch_effect (self : self_t) (train_params : train_params_t)
    (epoch : Z) (s : progress) : progress :=
  let s :=
    train_pass (batch_size train_params)
      (scheduled_learning_rate train_params epoch) s in
  let s :=
    match validation_set train_params with
    | Some true => validation_pass (batch_size train_params) s
    | _ => s
    end in
  if should_save_model self then checkpoint self epoch s else s.

(** Executing the epochs of a list, in order. *)
Definition epochs_effect (self : self_t) (train_params : train_params_t)
    (epochs : list Z) (s : progress) : progress :=
  fold_left (fun s epoch => epoch_effect self train_params epoch s) epochs s.

(** Computations that raise [x] after acting on the progress of the run as
    [f] does. *)
Definition stops {A} (m : T A) (f : progress -> progress) (x : exn)
  : Prop :=
  forall w : world,
    exists w' : world,
      m w = (Raise x, w') /\ progress_of w' = f (progress_of w).

(** Computations that go through, print no epoch header, act on the
    progress of the run as [f] does and return a value with [Q]. *)
Definition advances {A} (m : T A) (f : progress -> progress)
    (Q : A -> Prop) : Prop :=
  forall w : world,
    exists (a : A) (w' : world),
      m w = (Ok a, w')
      /\ Q a
      /\ progress_of w' = f (progress_of w)
      /\ epochs_run (stdout w') = epochs_run (stdout w).

End WithRuntime.

End Train.

(** ** A small runtime for concrete runs *)

Module Toy.

Import DenseNet3D Train.

(** Parameters are the list of batches trained on (latest first); a batch is
    its offset and size; a split is its size and reading position.  A
    training step reports the learning rate as its loss.  Every epoch, and
    the whole run, is measured at one second. *)
Definition runtime : Runtime :=
  {| params := list (Z * Z);
     batch := Z * Z;
     provider := Z * Z;
     num_examples := fun p => fst p;
     next_batch := fun p b => ((snd p, b), (fst p, snd p + b));
     run_train_step := fun ps b lr => (b :: ps, (lr, float_one));
     run_metrics := fun ps b => (float_one, float_zero);
     epoch_seconds := fun _ => float_one;
     total_seconds := float_one |}.

Definition world0 (n_train n_valid : Z) : world (R := runtime) :=
  {| sess := @nil (Z * Z) : @params runtime;
     data_train := (n_train, 0) : @provider runtime;
     data_validation := (n_valid, 0) : @provider runtime;
     checkpoint_state := []; checkpoint_files := [];
     stdout := []; summary_writer := []; batches_step := 0 |}.

(** The float [0.1]. *)
Definition tenth : float := S754_finite false 7205759403792794 (-56).
(** The float [0.01]. *)
Definition hundredth : float := S754_finite false 5764607523034235 (-59).
(** The float [0.001]. *)
Definition thousandth : float := S754_finite false 4611686018427388 (-62).

Definition params0 (n e1 e2 b : Z) : train_params_t :=
  {| n_epochs := n; initial_learning_rate := tenth; batch_size := b;
     reduce_lr_epoch_1 := e1; reduce_lr_epoch_2 := e2;
     validation_set := Some true |}.

(** A constructed network, for the runs of the training loop. *)
Definition net0 : self_t :=
  {| data_shape := [8; 32; 32; 3]; n_classes := 2; depth := 13;
     growth_rate := 12; first_output_features := 24; total_blocks := 3;
     layers_per_block := 3; bc_mode := false; reduction := float_one;
     keep_prob := float_one; weight_decay := float_zero;
     nesterov_momentum := float_zero; model_type := "DenseNet";
     dataset_name := "UCF101"; should_save_logs := true;
     should_save_model := true; renew_logs := false;
     videos := Some [None; Some 8; Some 32; Some 32; Some 3];
     labels := Some [None; Some 2]; learning_rate := Some [];
     is_training := Some [] |}.

(** The float [0.5]. *)
Definition half : float := S754_finite false 4503599627370496 (-53).

(** A DenseNet-BC network with reduction 0.5, inputs defined. *)
Definition net_bc : self_t :=
  set_inputs
    (new_self
       {| arg_data_shape := [8; 32; 32; 3]; arg_n_classes := 2;
          arg_growth_rate := 12; arg_depth := 13; arg_total_blocks := 3;
          arg_keep_prob := float_one; arg_dataset := "UCF101";
          arg_weight_decay := float_zero; arg_nesterov_momentum := float_zero;
          arg_model_type := "DenseNet-BC"; arg_should_save_logs := true;
          arg_should_save_model := true; arg_renew_logs := false;
          arg_reduction := half; arg_bc_mode := true |} 1)
    (Some [None; Some 8; Some 32; Some 32; Some 3])
    (Some [None; Some 2]) (Some []) (Some []).

End Toy.

(** ** Further layout of the graph *)

Module Structure.

Import DenseNet3D Layout.

(** Names of the scopes among the nodes [ns], in creation order. *)
Definition scope_names (ns : list gnode) : list string :=
  flat_map (fun n => match n with Scope name _ => [name] | Op _ => [] end) ns.

(** Scope names of the blocks and the transitions between them. *)
Definition stage_names (total_blocks : Z) (blocks : list Z) : list string :=
  flat_map
    (fun block =>
       String.append "Block_" (str block)
       :: (if block =? total_blocks - 1 then []
           else [String.append "Transition_after_block_" (str block)]))
    blocks.

(** Nodes of one internal layer on [c] channels. *)
Definition internal_layer_nodes (self : self_t) (b d h w : dim) (c g : Z)
  : list gnode :=
  (if bc_mode self
   then bottleneck_nodes self b d h w c g
        ++ composite_nodes self b d h w (4 * g) g 3
   else composite_nodes self b d h w c g 3)
  ++ concat_nodes b d h w c g.

(** Nodes of a block of [n] layers on [c] input channels: layer [i] works
    on [c + i * g] channels. *)
Definition block_nodes (self : self_t) (b d h w : dim) (c g n : Z)
  : list gnode :=
  map (fun i => Scope (String.append "layer_" (str i))
                  (internal_layer_nodes self b d h w (c + i * g) g))
    (range 0 n).







(** An optional integer argument given as 0 counts as omitted. *)
Definition omit_zero (x : option Z) : option Z :=
  match x with
  | Some 0 => None
  | _ => x
  end.

End Structure.

(** ** What a run of the training loop leaves behind *)

Module Journal.

Import DenseNet3D Train.

(** The summaries [train_one_epoch] writes for the batches of a pass, the
    first of them at step [first_step]: the loss and the accuracy of each
    batch, under the tags of the prefix ['per_batch']. *)
Fixpoint per_batch_summaries (first_step : Z) (vs : list (float * float))
  : list summary :=
  match vs with
  | [] => []
  | (loss, accuracy) :: vs' =>
      {| tag := "loss_per_batch"; simple_value := loss; step := first_step |}
      :: {| tag := "accuracy_per_batch"; simple_value := accuracy;
            step := first_step |}
      :: per_batch_summaries (first_step + 1) vs'
  end.

Section WithRuntime.
Context {R : Runtime}.

(** A computation that leaves the part [f] of the world as it found it,
    whether it returns or raises. *)
Definition keeps {A X} (f : world -> X) (m : T A) : Prop :=
  forall w : world, f (snd (m w)) = f w.

(** Computations that never raise. *)
Definition succeeds {A} (m : T A) : Prop :=
  forall w : world, exists (a : A) (w' : world), m w = (Ok a, w').

(** Computations that end by writing the checkpoint of epoch [epoch]. *)
Definition ends_with_save (self : self_t) (epoch : Z) (m : T unit) : Prop :=
  forall w : world,
    exists w1 : world, m w = (Ok tt, snd (save_model self (Some epoch) w1)).

End WithRuntime.

End Journal.

(** ** Floats between two integers *)

Module FloatBounds.

(** A float of positive sign and exponent at most 0 whose value lies
    between the integers [lo] and [hi]. *)
Definition between (x : float) (lo hi : Z) : Prop :=
  match x with
  | S754_zero _ => lo <= 0 <= hi
  | S754_finite s m e =>
      s = false /\ e <= 0 /\ lo * 2 ^ (- e) <= Zpos m <= hi * 2 ^ (- e)
  | _ => False
  end.

End FloatBounds.

(** ** Further sample configurations *)

Module Samples.

Import DenseNet3D Train.

(** The network of [Toy.net0] with logging and checkpoints switched off. *)
Definition net_quiet : self_t :=
  {| data_shape := [8; 32; 32; 3]; n_classes := 2; depth := 13;
     growth_rate := 12; first_output_features := 24; total_blocks := 3;
     layers_per_block := 3; bc_mode := false; reduction := float_one;
     keep_prob := float_one; weight_decay := float_zero;
     nesterov_momentum := float_zero; model_type := "DenseNet";
     dataset_name := "UCF101"; should_save_logs := false;
     should_save_model := false; renew_logs := false;
     videos := Some [None; Some 8; Some 32; Some 32; Some 3];
     labels := Some [None; Some 2]; learning_rate := Some [];
     is_training := Some [] |}.

(** The same network with another depth. *)
Definition net_deeper : self_t :=
  {| data_shape := [8; 32; 32; 3]; n_classes := 2; depth := 25;
     growth_rate := 12; first_output_features := 24; total_blocks := 3;
     layers_per_block := 7; bc_mode := false; reduction := float_one;
     keep_prob := float_one; weight_decay := float_zero;
     nesterov_momentum := float_zero; model_type := "DenseNet";
     dataset_name := "UCF101"; should_save_logs := true;
     should_save_model := true; renew_logs := false;
     videos := Some [None; Some 8; Some 32; Some 32; Some 3];
     labels := Some [None; Some 2]; learning_rate := Some [];
     is_training := Some [] |}.

(** Training parameters without the ['validation_set'] key. *)
Definition params_train_only (n b : Z) : train_params_t :=
  {| n_epochs := n; initial_learning_rate := Toy.tenth; batch_size := b;
     reduce_lr_epoch_1 := 2; reduce_lr_epoch_2 := 3;
     validation_set := None |}.

(** A world whose checkpoint state names a file that is not on disk. *)
Definition world_dangling : world (R := Toy.runtime) :=
  set_checkpoints
    [(fst (save_path Toy.net0), "saves/lost/model.chkpt-3")] []
    (Toy.world0 10 3).

(** A fresh session next to the checkpoint of [Toy.net0] for epoch [e],
    which holds the parameters [p]. *)
Definition world_saved (n_train n_valid e : Z) (p : list (Z * Z))
  : world (R := Toy.runtime) :=
  let file := (snd (save_path Toy.net0) ++ "-" ++ str e)%string in
  set_checkpoints [(fst (save_path Toy.net0), file)]
    [(file, p : @params Toy.runtime)]
    (Toy.world0 n_train n_valid).


(** The network of [Toy.net0] asked to keep nothing in dropout. *)
Definition net_no_keep : self_t :=
  {| data_shape := [8; 32; 32; 3]; n_classes := 2; depth := 13;
     growth_rate := 12; first_output_features := 24; total_blocks := 3;
     layers_per_block := 3; bc_mode := false; reduction := float_one;
     keep_prob := float_zero; weight_decay := float_zero;
     nesterov_momentum := float_zero; model_type := "DenseNet";
     dataset_name := "UCF101"; should_save_logs := true;
     should_save_model := true; renew_logs := false;
     videos := Some [None; Some 8; Some 32; Some 32; Some 3];
     labels := Some [None; Some 2]; learning_rate := Some [];
     is_training := Some [] |}.

(** A DenseNet-BC network with dropout at keep probability 0.5. *)
Definition net_dropout : self_t :=
  set_inputs
    (new_self
       {| arg_data_shape := [8; 32; 32; 3]; arg_n_classes := 2;
          arg_growth_rate := 12; arg_depth := 13; arg_total_blocks := 3;
          arg_keep_prob := Toy.half; arg_dataset := "UCF101";
          arg_weight_decay := float_zero; arg_nesterov_momentum := float_zero;
          arg_model_type := "DenseNet-BC"; arg_should_save_logs := true;
          arg_should_save_model := true; arg_renew_logs := false;
          arg_reduction := Toy.half; arg_bc_mode := true |} 1)
    (Some [None; Some 8; Some 32; Some 32; Some 3])
    (Some [None; Some 2]) (Some []) (Some []).

End Samples.

(* ================================================================== *)
(** * Part II.  Properties *)
(* ================================================================== *)

(** ** Graph construction: general facts *)

Section GraphFacts.

Import DenseNet3D.
Local Open Scope graph_scope.

Lemma bind_ok_inv {A B} (m : G A) (f : A -> G B) (b : B) (ns : list gnode) :
  TF.bind m f = (Ok b, ns) ->
  exists a ns1 ns2, m = (Ok a, ns1) /\ f a = (Ok b, ns2) /\ ns = ns1 ++ ns2.
Proof.
  destruct m as [[a|e] ns1]; simpl.
  - destruct (f a) as [r ns2] eqn:Hf. intros H. inversion H; subst.
    exists a, ns1, ns2. auto.
  - discriminate.
Qed.

Lemma bind_ok {A B} (m : G A) (f : A -> G B) (a : A) (ns1 : list gnode) :
  m = (Ok a, ns1) ->
  TF.bind m f = (fst (f a), ns1 ++ snd (f a)).
Proof.
  intros ->. simpl. destruct (f a); reflexivity.
Qed.

Lemma outcome_bind {A B} (m : G A) (f : A -> G B) (a : A) :
  outcome m = Ok a -> outcome (TF.bind m f) = outcome (f a).
Proof.
  destruct m as [r ns]. simpl. intros ->. destruct (f a); reflexivity.
Qed.



Lemma outcome_scope {A} (name : string) (m : G A) :
  outcome (scope name m) = outcome m.
Proof. reflexivity. Qed.


Lemma range_empty (a b : Z) : b <= a -> range a b = [].
Proof.
  intros H. unfold range. replace (Z.to_nat (b - a)) with 0%nat by lia.
  reflexivity.
Qed.

Lemma range_cons (a b : Z) : a < b -> range a b = a :: range (a + 1) b.
Proof.
  intros H. unfold range.
  replace (Z.to_nat (b - a)) with (S (Z.to_nat (b - (a + 1)))) by lia.
  simpl. f_equal; [lia|].
  rewrite <- seq_shift, map_map. apply map_ext. intros i. lia.
Qed.

Lemma range_snoc (a b : Z) : a <= b -> range a (b + 1) = range a b ++ [b].
Proof.
  intros H. unfold range.
  replace (Z.to_nat (b + 1 - a)) with (Z.to_nat (b - a) + 1)%nat by lia.
  rewrite seq_app, map_app. simpl. do 2 f_equal. lia.
Qed.

Lemma seq_from_zero (k n : nat) :
  seq k n = map (fun j => (k + j)%nat) (seq 0 n).
Proof.
  revert k. induction n as [|n IH]; intros k; simpl; [reflexivity|].
  f_equal; [lia|]. rewrite (IH (S k)), (IH 1%nat), map_map.
  apply map_ext. intros j. lia.
Qed.

Lemma range_split (a i b : Z) :
  a <= i <= b -> range a b = range a i ++ range i b.
Proof.
  intros H. unfold range.
  replace (Z.to_nat (b - a)) with (Z.to_nat (i - a) + Z.to_nat (b - i))%nat by lia.
  rewrite seq_app, map_app. f_equal. simpl.
  rewrite seq_from_zero, !map_map. apply map_ext. intros k. lia.
Qed.

Lemma range_length (a b : Z) : List.length (range a b) = Z.to_nat (b - a).
Proof. unfold range. now rewrite length_map, length_seq. Qed.

Lemma in_range (a b x : Z) : In x (range a b) <-> a <= x < b.
Proof.
  unfold range. rewrite in_map_iff. split.
  - intros [i [<- Hi]]. apply in_seq in Hi. lia.
  - intros H. exists (Z.to_nat (x - a)). split; [lia|]. apply in_seq. lia.
Qed.

Lemma for_acc_app {A B} (l1 l2 : list A) (body : A -> B -> G B) (acc : B) :
  TF.for_acc (l1 ++ l2) body acc
  = TF.bind (TF.for_acc l1 body acc) (TF.for_acc l2 body).
Proof.
  revert acc. induction l1 as [|x l1 IH]; intros acc; simpl.
  - destruct (TF.for_acc l2 body acc); reflexivity.
  - destruct (body x acc) as [[b|e] ns]; simpl; [|reflexivity].
    rewrite IH.
    destruct (TF.for_acc l1 body b) as [[c|e] ns1]; simpl.
    + destruct (TF.for_acc l2 body c). now rewrite app_assoc.
    + reflexivity.
Qed.

End GraphFacts.

(** ** Hyperparameters fixed by the constructor *)

Section Constructor.

Import DenseNet3D.
Local Open Scope graph_scope.

Lemma lift_ok_inv {A} (r : result A) (a : A) (ns : list gnode) :
  TF.lift r = (Ok a, ns) -> r = Ok a /\ ns = [].
Proof. unfold TF.lift. intros H. inversion H. auto. Qed.

Lemma floordiv_ok_inv (a b q : Z) :
  floordiv a b = Ok q -> b <> 0 /\ q = a / b.
Proof.
  unfold floordiv. destruct (Z.eqb_spec b 0); [discriminate|].
  intros H. inversion H. auto.
Qed.

Lemma define_inputs_inv (self self' : self_t) (ns : list gnode) :
  _define_inputs self = (Ok self', ns) ->
  self' = set_inputs self (Some (None :: map Some (data_shape self)))
            (Some [None; Some (n_classes self)]) (Some []) (Some []).
Proof. unfold _define_inputs. simpl. intros H. now inversion H. Qed.

(** The constructor once the division has gone through. *)
Lemma init_nonzero (a : args) :
  arg_total_blocks a <> 0 ->
  __init__ a
  = (self <- _define_inputs
               (let self :=
                  new_self a ((arg_depth a - (arg_total_blocks a + 1))
                              / arg_total_blocks a) in
                if bc_mode self
                then set_layers_per_block self (layers_per_block self / 2)
                else self) ;;
     _build_graph self ;;;
     _initialize_session self ;;;
     ret self).
Proof.
  intros H. unfold __init__, floordiv.
  destruct (Z.eqb_spec (arg_total_blocks a) 0) as [E|_]; [contradiction|].
  unfold TF.lift. unfold TF.bind at 1.
  match goal with |- (let '(r, ns') := ?m in _) = _ => destruct m end.
  reflexivity.
Qed.

(** The hyperparameters of a network whose construction went through. *)
Lemma init_fields (a : args) (self : self_t) (ns : list gnode) :
  __init__ a = (Ok self, ns) ->
  arg_total_blocks a <> 0
  /\ layers_per_block self =
       (if arg_bc_mode a
        then (arg_depth a - (arg_total_blocks a + 1)) / arg_total_blocks a / 2
        else (arg_depth a - (arg_total_blocks a + 1)) / arg_total_blocks a)
  /\ first_output_features self = arg_growth_rate a * 2
  /\ total_blocks self = arg_total_blocks a
  /\ growth_rate self = arg_growth_rate a
  /\ bc_mode self = arg_bc_mode a.
Proof.
  intros H.
  assert (Hnz : arg_total_blocks a <> 0).
  { intros E. unfold __init__, floordiv in H. rewrite E in H. discriminate. }
  rewrite (init_nonzero a Hnz) in H.
  apply bind_ok_inv in H as (s1 & ns5 & ns6 & Hm & Hk & _).
  apply define_inputs_inv in Hm.
  apply bind_ok_inv in Hk as (u1 & ns7 & ns8 & _ & Hk & _).
  apply bind_ok_inv in Hk as (u2 & ns9 & ns10 & _ & Hk & _).
  unfold TF.ret in Hk. inversion Hk; subst self.
  rewrite Hm. cbv zeta. simpl bc_mode.
  destruct (arg_bc_mode a) eqn:E; simpl; repeat split; auto.
Qed.

(** C2.  For every constructed network,
    [layers_per_block = (depth - (total_blocks + 1)) // total_blocks],
    integer-divided by 2 once more when [bc_mode] is true, and
    [first_output_features = 2 * growth_rate]; with depth 13, three blocks
    and no bottleneck this gives three layers per block.  ([/] on [Z] is
    floor division, as [//] is on Python integers.) *)
Theorem constructed_layers_per_block (a : args) (self : self_t) (ns : list gnode) :
  __init__ a = (Ok self, ns) ->
  layers_per_block self =
    (if arg_bc_mode a
     then (arg_depth a - (arg_total_blocks a + 1)) / arg_total_blocks a / 2
     else (arg_depth a - (arg_total_blocks a + 1)) / arg_total_blocks a)
  /\ first_output_features self = 2 * arg_growth_rate a
  /\ (arg_depth a = 13 -> arg_total_blocks a = 3 -> arg_bc_mode a = false ->
      layers_per_block self = 3).
Proof.
  intros H. apply init_fields in H.
  destruct H as (_ & Hl & Hf & _). split; [exact Hl|]. split; [lia|].
  intros Hd Ht Hb. rewrite Hl, Hb, Hd, Ht. reflexivity.
Qed.

Lemma constructed_layers_per_block_witness :
  exists self ns,
    __init__ (example_args 13 3 false) = (Ok self, ns)
    /\ layers_per_block self = 3
    /\ first_output_features self = 24.
Proof.
  eexists. eexists. split; [vm_compute; reflexivity|].
  pose proof (constructed_layers_per_block (example_args 13 3 false) _ _ eq_refl)
    as (H1 & H2 & H3).
  split; [exact (H3 eq_refl eq_refl eq_refl) | exact H2].
Defined.

(** The placeholders created by [_define_inputs]. *)
Lemma define_inputs_nodes (self : self_t) :
  nodes (_define_inputs self)
  = [Op (placeholder "input_videos" (None :: map Some (data_shape self)));
     Op (placeholder "labels" [None; Some (n_classes self)]);
     Op (placeholder "learning_rate" []);
     Op (placeholder "" [])].
Proof. reflexivity. Qed.








End Constructor.

(** ** Dense blocks: shapes of the feature maps *)

Section DenseBlocks.

Import DenseNet3D Layout.
Local Open Scope graph_scope.

Variable self : self_t.
Variables b d h w : dim.

Local Abbreviation fmap := (Layout.fmap b d h w) (only parsing).

Lemma bind_ret {A B} (a : A) (f : A -> G B) : TF.bind (TF.ret a) f = f a.
Proof. unfold TF.bind, TF.ret. destruct (f a). reflexivity. Qed.

Lemma bind_lift_ok {A B} (a : A) (f : A -> G B) :
  TF.bind (TF.lift (Ok a)) f = f a.
Proof. apply bind_ret. Qed.

Lemma bind_emit {B} (o : op) (f : unit -> G B) :
  TF.bind (emit o) f = (fst (f tt), Op o :: snd (f tt)).
Proof. unfold TF.bind, emit. destruct (f tt). reflexivity. Qed.

Lemma bind_pair {A B} (a : A) (ns : list gnode) (f : A -> G B) :
  TF.bind (Ok a, ns) f = (fst (f a), ns ++ snd (f a)).
Proof. unfold TF.bind. destruct (f a). reflexivity. Qed.

Lemma out_dim_same_1 (i : dim) (k : Z) : out_dim SAME i k 1 = Ok i.
Proof.
  unfold out_dim. simpl. destruct i as [n|]; [|reflexivity].
  do 2 f_equal. rewrite Z.div_1_r. lia.
Qed.

Lemma out_dim_valid_1_1 (i : dim) : out_dim VALID i 1 1 = Ok i.
Proof.
  unfold out_dim. simpl. destruct i as [n|]; [|reflexivity].
  do 2 f_equal. rewrite Z.div_1_r. lia.
Qed.

Lemma conv3d_shape_same (c k out : Z) :
  conv3d_shape (fmap c) [k; k; k; c; out] [1; 1; 1; 1; 1] SAME
  = Ok (fmap out).
Proof.
  unfold conv3d_shape, Layout.fmap, dim_compatible. rewrite Z.eqb_refl.
  cbn [firstn]. unfold window_dims. now rewrite !out_dim_same_1.
Qed.

Lemma conv3d_shape_valid_1 (c out : Z) :
  conv3d_shape (fmap c) [1; 1; 1; c; out] [1; 1; 1; 1; 1] VALID
  = Ok (fmap out).
Proof.
  unfold conv3d_shape, Layout.fmap, dim_compatible. rewrite Z.eqb_refl.
  cbn [firstn]. unfold window_dims. now rewrite !out_dim_valid_1_1.
Qed.

Lemma get_channels (c : Z) : get_dim (fmap c) (-1) = Ok (Some c).
Proof. reflexivity. Qed.

Lemma msra_ok (s : list Z) (name : string) :
  existsb (fun n => n <? 0) s = false ->
  fan_in s <> 0 ->
  weight_variable_msra s name
  = (Ok s, [Op (get_variable name s variance_scaling_initializer)]).
Proof.
  intros Hneg Hfan. unfold weight_variable_msra. rewrite Hneg.
  destruct (Z.eqb_spec (fan_in s) 0) as [E|_]; [contradiction|].
  reflexivity.
Qed.

Lemma kernel_checks (k c out : Z) :
  0 < k -> 0 < c -> 0 <= out ->
  existsb (fun n => n <? 0) [k; k; k; c; out] = false
  /\ fan_in [k; k; k; c; out] <> 0.
Proof.
  intros Hk Hc Hout. split.
  - cbn [existsb].
    destruct (Z.ltb_spec k 0); [lia|]. destruct (Z.ltb_spec c 0); [lia|].
    destruct (Z.ltb_spec out 0); [lia|]. reflexivity.
  - unfold fan_in. cbn [rev app fold_right]. nia.
Qed.

Lemma kernel_ok (k c out : Z) (name : string) :
  0 < k -> 0 < c -> 0 <= out ->
  weight_variable_msra [k; k; k; c; out] name
  = (Ok [k; k; k; c; out],
     [Op (get_variable name [k; k; k; c; out] variance_scaling_initializer)]).
Proof.
  intros Hk Hc Hout. destruct (kernel_checks k c out Hk Hc Hout).
  now apply msra_ok.
Qed.

Lemma conv3d_stride_1 (c k out : Z) (p : padding) :
  0 < k -> 0 < c -> 0 <= out ->
  conv3d_shape (fmap c) [k; k; k; c; out] [1; 1; 1; 1; 1] p = Ok (fmap out) ->
  conv3d self (Some (fmap c)) out k [1; 1; 1; 1; 1] p
  = (Ok (Some (fmap out)),
     [Op (get_variable "kernel" [k; k; k; c; out] variance_scaling_initializer);
      Scope "3DConv"
        [Op (nn_conv3d (fmap c) [k; k; k; c; out] [1; 1; 1; 1; 1] p)]]).
Proof.
  intros Hk Hc Hout Hs. unfold conv3d, tensor_of.
  rewrite bind_ret, get_channels, bind_lift_ok. unfold int_of_dim.
  rewrite bind_lift_ok. rewrite (kernel_ok _ _ _ _ Hk Hc Hout), bind_pair.
  unfold scope.
  rewrite bind_emit, Hs, bind_lift_ok. reflexivity.
Qed.

Lemma dropout_ok (s : shape) :
  valid_keep_prob self ->
  dropout self (Some s) = (Ok (Some s), dropout_nodes self s).
Proof.
  intros Hkeep. unfold dropout, dropout_nodes.
  destruct (ltb (keep_prob self) float_one) eqn:E; [|reflexivity].
  unfold tensor_of. rewrite bind_ret, (Hkeep E). reflexivity.
Qed.

Lemma batch_norm_ok (s : shape) :
  batch_norm self (Some s)
  = (Ok (Some s), [Scope "batch_normalization" [Op (layers_batch_norm s)]]).
Proof. reflexivity. Qed.

Lemma relu_ok (s : shape) :
  relu (Some s) = (Ok (Some s), [Scope "ReLU" [Op (nn_relu s)]]).
Proof. reflexivity. Qed.

Lemma bn_relu_conv_ok (c k out : Z) (p : padding) :
  valid_keep_prob self ->
  0 < k -> 0 < c -> 0 <= out ->
  conv3d_shape (fmap c) [k; k; k; c; out] [1; 1; 1; 1; 1] p = Ok (fmap out) ->
  (output <- batch_norm self (Some (fmap c)) ;;
   output <- relu output ;;
   output <- conv3d self output out k [1; 1; 1; 1; 1] p ;;
   output <- dropout self output ;;
   TF.ret output)
  = (Ok (Some (fmap out)), bn_relu_conv_nodes self b d h w c out k p).
Proof.
  intros Hkeep Hk Hc Hout Hs. rewrite batch_norm_ok, bind_pair. cbv beta.
  rewrite relu_ok, bind_pair. cbv beta.
  rewrite (conv3d_stride_1 _ _ _ _ Hk Hc Hout Hs), bind_pair. cbv beta.
  rewrite (dropout_ok _ Hkeep), bind_pair. unfold TF.ret. cbn [fst snd].
  rewrite List.app_nil_r. reflexivity.
Qed.

Lemma composite_function_ok (c out k : Z) :
  valid_keep_prob self ->
  0 < k -> 0 < c -> 0 <= out ->
  composite_function self (Some (fmap c)) out k
  = (Ok (Some (fmap out)), composite_nodes self b d h w c out k).
Proof.
  intros Hkeep Hk Hc Hout. unfold composite_function, composite_nodes.
  rewrite (bn_relu_conv_ok _ _ _ _ Hkeep Hk Hc Hout (conv3d_shape_same c k out)).
  reflexivity.
Qed.

Lemma bottleneck_ok (c out : Z) :
  valid_keep_prob self ->
  0 < c -> 0 <= out ->
  bottleneck self (Some (fmap c)) out
  = (Ok (Some (fmap (4 * out))), bottleneck_nodes self b d h w c out).
Proof.
  intros Hkeep Hc Hout. unfold bottleneck, bottleneck_nodes. cbv zeta.
  replace (out * 4) with (4 * out) by lia.
  rewrite (bn_relu_conv_ok c 1 (4 * out) VALID Hkeep ltac:(lia) Hc ltac:(lia)
             (conv3d_shape_valid_1 c (4 * out))).
  reflexivity.
Qed.

Lemma concat_channels_ok (c g : Z) :
  concat_channels (Some (fmap c)) (Some (fmap g))
  = (Ok (Some (fmap (c + g))), [Op (concat 4 [fmap c; fmap g])]).
Proof.
  unfold concat_channels, tensor_of. rewrite !bind_ret, bind_emit.
  unfold Layout.fmap, concat4_shape, dim_compatible.
  destruct b, d, h, w; rewrite ?Z.eqb_refl; reflexivity.
Qed.

Lemma add_internal_layer_ok (c g : Z) :
  valid_keep_prob self ->
  0 < c -> 0 <= g -> (bc_mode self = true -> 0 < g) ->
  add_internal_layer self (Some (fmap c)) g
  = (Ok (Some (fmap (c + g))),
     (if bc_mode self
      then bottleneck_nodes self b d h w c g
           ++ composite_nodes self b d h w (4 * g) g 3
      else composite_nodes self b d h w c g 3)
     ++ concat_nodes b d h w c g).
Proof.
  intros Hkeep Hc Hg Hbc. unfold add_internal_layer, concat_nodes.
  destruct (bc_mode self); cbn [negb]; cbv iota.
  - specialize (Hbc eq_refl).
    rewrite (bottleneck_ok _ _ Hkeep Hc Hg), bind_pair.
    rewrite (composite_function_ok (4 * g) g 3 Hkeep) by lia. cbn [fst snd].
    rewrite bind_pair. unfold scope. rewrite concat_channels_ok. reflexivity.
  - rewrite (composite_function_ok c g 3 Hkeep) by lia. rewrite bind_pair.
    unfold scope. rewrite concat_channels_ok. reflexivity.
Qed.

(** The loop of [add_block] over any list of layer indices. *)
Lemma block_layers_outcome (g : Z) (layers : list Z) (c : Z) :
  valid_keep_prob self ->
  0 < c -> 0 <= g -> (bc_mode self = true -> 0 < g) ->
  outcome
    (TF.for_acc layers
       (fun layer output =>
          scope (String.append "layer_" (str layer))
            (add_internal_layer self output g))
       (Some (fmap c)))
  = Ok (Some (fmap (c + Z.of_nat (List.length layers) * g))).
Proof.
  intros Hkeep Hc Hg Hbc. revert c Hc.
  induction layers as [|l layers IH]; intros c Hc.
  - cbn [TF.for_acc List.length]. unfold TF.ret, outcome. cbn [fst].
    do 3 f_equal. lia.
  - cbn [TF.for_acc]. erewrite outcome_bind.
    2:{ rewrite outcome_scope, (add_internal_layer_ok _ _ Hkeep Hc Hg Hbc).
        reflexivity. }
    rewrite IH by lia. do 3 f_equal. cbn [List.length]. lia.
Qed.

(** C1.  In a block built by [add_block] on a feature map of [c > 0]
    channels, with a growth rate [g >= 0] ([g > 0] with [bc_mode]) and a
    keep probability that dropout accepts, the feature map has
    [c + i * g] channels after the [i]-th internal layer: the first [i]
    layers of an [n]-layer block are the block of [i] layers, whose result
    has that many channels and unchanged other axes.  Each layer
    concatenates its input with a [g]-channel output along axis 4; with
    [bc_mode] the only addition is a bottleneck tensor of [4 * g] channels
    in front of the 3x3x3 convolution. *)
Theorem add_block_channel_growth (c g : Z) :
  valid_keep_prob self ->
  0 < c -> 0 <= g -> (bc_mode self = true -> 0 < g) ->
  (forall i : nat,
      outcome (add_block self (Some (fmap c)) g (Z.of_nat i))
      = Ok (Some (fmap (c + Z.of_nat i * g))))
  /\ (forall (n : Z) (i : nat),
         Z.of_nat i <= n ->
         add_block self (Some (fmap c)) g n
         = TF.bind (add_block self (Some (fmap c)) g (Z.of_nat i))
             (TF.for_acc (range (Z.of_nat i) n)
                (fun layer output =>
                   scope (String.append "layer_" (str layer))
                     (add_internal_layer self output g))))
  /\ add_internal_layer self (Some (fmap c)) g
     = (Ok (Some (fmap (c + g))),
        (if bc_mode self
         then bottleneck_nodes self b d h w c g
              ++ composite_nodes self b d h w (4 * g) g 3
         else composite_nodes self b d h w c g 3)
        ++ [Scope "concat" [Op (concat 4 [fmap c; fmap g])]])
  /\ outcome (bottleneck self (Some (fmap c)) g) = Ok (Some (fmap (4 * g))).
Proof.
  intros Hkeep Hc Hg Hbc. split; [|split; [|split]].
  - intros i. unfold add_block.
    rewrite (block_layers_outcome _ _ _ Hkeep Hc Hg Hbc).
    rewrite range_length.
    replace (Z.of_nat (Z.to_nat (Z.of_nat i - 0))) with (Z.of_nat i) by lia.
    reflexivity.
  - intros n i Hi. unfold add_block.
    rewrite (range_split 0 (Z.of_nat i) n) by lia.
    apply for_acc_app.
  - apply (add_internal_layer_ok _ _ Hkeep Hc Hg Hbc).
  - now rewrite (bottleneck_ok _ _ Hkeep Hc Hg).
Qed.

End DenseBlocks.

Lemma add_block_channel_growth_witness :
  outcome (DenseNet3D.add_block Samples.net_dropout
             (Some [None; Some 8; Some 8; Some 8; Some 24]) 12 3)
  = Ok (Some [None; Some 8; Some 8; Some 8; Some 60])
  /\ DenseNet3D.add_block Samples.net_dropout
       (Some [None; Some 8; Some 8; Some 8; Some 24]) 12 3
     = TF.bind (DenseNet3D.add_block Samples.net_dropout
                  (Some [None; Some 8; Some 8; Some 8; Some 24]) 12 2)
         (TF.for_acc (range 2 3)
            (fun layer output =>
               scope (String.append "layer_" (str layer))
                 (DenseNet3D.add_internal_layer Samples.net_dropout output
                    12)))
  /\ outcome (DenseNet3D.bottleneck Samples.net_dropout
                (Some [None; Some 8; Some 8; Some 8; Some 24]) 12)
     = Ok (Some [None; Some 8; Some 8; Some 8; Some 48]).
Proof.
  assert (Hkeep : Layout.valid_keep_prob Samples.net_dropout)
    by (intros _; reflexivity).
  destruct (add_block_channel_growth Samples.net_dropout None (Some 8)
              (Some 8) (Some 8) 24 12 Hkeep ltac:(lia) ltac:(lia)
              ltac:(intros _; lia))
    as (H1 & H2 & _ & H4).
  split; [exact (H1 3%nat)|]. split; [|exact H4].
  apply (H2 3 2%nat). simpl. lia.
Defined.

(** ** Pooling *)

Section Pooling.

Import DenseNet3D Layout.
Local Open Scope graph_scope.

Variable self : self_t.

Lemma or_default_given (x : option Z) (dflt : Z) :
  x <> Some 0 -> or_default x dflt = given_or x dflt.
Proof.
  destruct x as [n|]; [|reflexivity]. intros H. unfold or_default, falsy.
  destruct (Z.eqb_spec n 0) as [->|_]; [contradiction|reflexivity].
Qed.

Lemma pool_max (x : shape) (k d : Z) (wk ks ds ksw : option Z) :
  pool self (Some x) k d wk (Interned "max") ks ds ksw
  = (pooled x [1; d; k; or_default wk k; 1]
       [1; or_default ds d; or_default ks k;
        or_default ksw (or_default ks k); 1],
     [Op (nn_max_pool3d x [1; d; k; or_default wk k; 1]
            [1; or_default ds d; or_default ks k;
             or_default ksw (or_default ks k); 1] SAME)]).
Proof.
  unfold pool, pooled.
  cbn [is_literal String.eqb Ascii.eqb Bool.eqb andb tensor_of].
  rewrite bind_ret, bind_emit.
  destruct (pool3d_shape _ _ _ _); reflexivity.
Qed.

Lemma pool_avg (x : shape) (k d : Z) (wk ks ds ksw : option Z) :
  pool self (Some x) k d wk (Interned "avg") ks ds ksw
  = (pooled x [1; d; k; or_default wk k; 1]
       [1; or_default ds d; or_default ks k;
        or_default ksw (or_default ks k); 1],
     [Op (nn_avg_pool3d x [1; d; k; or_default wk k; 1]
            [1; or_default ds d; or_default ks k;
             or_default ksw (or_default ks k); 1] SAME)]).
Proof.
  unfold pool, pooled.
  cbn [is_literal String.eqb Ascii.eqb Bool.eqb andb tensor_of].
  rewrite bind_ret, bind_emit.
  destruct (pool3d_shape _ _ _ _); reflexivity.
Qed.

Lemma pool_other (v : value) (k d : Z) (wk ks ds ksw : option Z)
    (type : str_obj) :
  is_literal type "max" = false -> is_literal type "avg" = false ->
  pool self v k d wk type ks ds ksw = (Ok None, []).
Proof. intros Hmax Havg. unfold pool. now rewrite Hmax, Havg. Qed.

Lemma is_literal_other (s lit : string) :
  s <> lit -> is_literal (Interned s) lit = false.
Proof.
  intros H. unfold is_literal. now destruct (String.eqb_spec s lit).
Qed.

(** The defaults of [pool], for a [type] that is one of the literals of the
    program text: an omitted [width_k] is [k], an omitted [k_stride] is
    [k], an omitted [k_stride_width] is the stride [k_stride] in force and
    an omitted [d_stride] is [d]; arguments that are given (and are not 0)
    are used as they are.  The window is [[1, d, k, width_k, 1]], the
    strides are [[1, d_stride, k_stride, k_stride_width, 1]], padding is
    SAME.  The literal ['max'] builds a max pooling node, the literal
    ['avg'] an average pooling node, and a literal of any other content
    builds nothing and returns [None]. *)
Lemma pool_defaults (x : shape) (k d : Z)
    (width_k k_stride d_stride k_stride_width : option Z) :
  width_k <> Some 0 -> k_stride <> Some 0 ->
  d_stride <> Some 0 -> k_stride_width <> Some 0 ->
  let ksize := pool_ksize k d width_k in
  let strides := pool_strides k d k_stride d_stride k_stride_width in
  pool self (Some x) k d width_k (Interned "max") k_stride d_stride
    k_stride_width
  = (pooled x ksize strides, [Op (nn_max_pool3d x ksize strides SAME)])
  /\ pool self (Some x) k d width_k (Interned "avg") k_stride d_stride
       k_stride_width
     = (pooled x ksize strides, [Op (nn_avg_pool3d x ksize strides SAME)])
  /\ (forall (v : value) (type : string),
         type <> "max" -> type <> "avg" ->
         pool self v k d width_k (Interned type) k_stride d_stride
           k_stride_width
         = (Ok None, []))
  /\ pool_ksize k d None = [1; d; k; k; 1]
  /\ pool_strides k d None None None = [1; d; k; k; 1].
Proof.
  intros Hwk Hks Hds Hksw ksize strides. subst ksize strides.
  unfold pool_ksize, pool_strides.
  rewrite <- (or_default_given width_k k Hwk).
  rewrite <- (or_default_given k_stride k Hks).
  rewrite <- (or_default_given d_stride d Hds).
  rewrite <- (or_default_given k_stride_width _ Hksw).
  split; [apply pool_max|]. split; [apply pool_avg|].
  split; [|split; reflexivity].
  intros v type Hmax Havg. apply pool_other; now apply is_literal_other.
Qed.

(** C9.  [pool] selects the kind of pooling with [type is 'max'] and
    [type is 'avg'], a test of identity where equality is meant.  A string
    built at run time is no literal: whatever its content, also ['avg'] or
    ['max'], [pool] builds no node and returns [None], where the same call
    with the literal ['avg'] builds the average pooling with the window
    [[1, d, k, k, 1]] and the strides [[1, d_stride, k_stride, k_stride, 1]]. *)
Theorem pool_type_by_identity :
  (forall (v : value) (k d : Z) (width_k k_stride d_stride k_stride_width
             : option Z) (s : string),
      pool self v k d width_k (Built s) k_stride d_stride k_stride_width
      = (Ok None, []))
  /\ content (Built "avg") = content (Interned "avg")
  /\ pool self (Some [None; Some 8; Some 16; Some 16; Some 24])
       3 3 None (Built "avg") (Some 2) (Some 1) None
     = (Ok None, [])
  /\ pool self (Some [None; Some 8; Some 16; Some 16; Some 24])
       3 3 None (Interned "avg") (Some 2) (Some 1) None
     = (Ok (Some [None; Some 8; Some 8; Some 8; Some 24]),
        [Op (nn_avg_pool3d [None; Some 8; Some 16; Some 16; Some 24]
               [1; 3; 3; 3; 1] [1; 1; 2; 2; 1] SAME)]).
Proof.
  split; [|split; [|split]]; reflexivity.
Qed.

End Pooling.


(** ** Floats: rounding keeps small products finite *)

Section FloatFacts.

Lemma digits2_pos_size (p : positive) : digits2_pos p = Pos.size p.
Proof. induction p; simpl; congruence. Qed.

Lemma Zdigits2_log2 (x : Z) : 0 < x -> Zdigits2 x = Z.log2 x + 1.
Proof.
  destruct x as [|p|p]; try lia. intros _. simpl Zdigits2.
  rewrite digits2_pos_size. destruct p; simpl; lia.
Qed.

Lemma Zdigits2_nonneg (x : Z) : 0 <= Zdigits2 x.
Proof. destruct x; simpl; lia. Qed.

Lemma Zdigits2_succ (x : Z) : 0 <= x -> Zdigits2 (x + 1) <= Zdigits2 x + 1.
Proof.
  intros H. destruct (Z.eq_dec x 0) as [->|Hx]; [simpl; lia|].
  rewrite !Zdigits2_log2 by lia.
  pose proof (Z.log2_succ_le x). unfold Z.succ in *. lia.
Qed.

Lemma Zdigits2_mul (x y : Z) :
  0 < x -> 0 < y -> Zdigits2 (x * y) <= Zdigits2 x + Zdigits2 y.
Proof.
  intros Hx Hy. rewrite !Zdigits2_log2 by lia.
  pose proof (Z.log2_mul_above x y). lia.
Qed.

Lemma Zdigits2_div_pow2 (x n : Z) :
  0 <= x -> 0 <= n -> Zdigits2 (x / 2 ^ n) + n <= Z.max n (Zdigits2 x).
Proof.
  intros Hx Hn.
  assert (Hp : 0 < 2 ^ n) by (apply Z.pow_pos_nonneg; lia).
  assert (Hq : 0 <= x / 2 ^ n) by (apply Z.div_pos; lia).
  destruct (Z.eq_dec (x / 2 ^ n) 0) as [E|E].
  - rewrite E. simpl. lia.
  - assert (Hx0 : 0 < x).
    { destruct (Z.eq_dec x 0) as [->|]; [|lia]. rewrite Z.div_0_l in E; lia. }
    assert (Hlog : n <= Z.log2 x).
    { destruct (Z_lt_le_dec (Z.log2 x) n) as [Hlt|]; [|assumption].
      apply Z.log2_lt_pow2 in Hlt; [|assumption].
      rewrite Z.div_small in E; lia. }
    rewrite (Zdigits2_log2 (x / 2 ^ n)) by lia.
    rewrite (Zdigits2_log2 x) by lia.
    rewrite <- Z.shiftr_div_pow2 by lia.
    rewrite Z.log2_shiftr by lia. lia.
Qed.

Lemma shr_1_m (r : shr_record) :
  0 <= shr_m r -> shr_m (shr_1 r) = shr_m r / 2.
Proof.
  destruct r as [m rr ss]. simpl. intros H. rewrite <- Z.div2_div.
  destruct m as [|[p|p|]|p]; try reflexivity; lia.
Qed.

Lemma iter_shr_m (p : positive) (r : shr_record) :
  0 <= shr_m r ->
  shr_m (iter_pos shr_1 p r) = shr_m r / 2 ^ Zpos p.
Proof.
  revert r. induction p as [p IH|p IH|]; intros r H; simpl iter_pos.
  - assert (H1 : 0 <= shr_m (shr_1 r)).
    { rewrite shr_1_m by assumption. apply Z.div_pos; lia. }
    assert (H2 : 0 <= shr_m (iter_pos shr_1 p (shr_1 r))).
    { rewrite IH by assumption. apply Z.div_pos; [lia|].
      apply Z.pow_pos_nonneg; lia. }
    rewrite IH, IH, shr_1_m by assumption.
    assert (Hp : 0 < 2 ^ Zpos p) by (apply Z.pow_pos_nonneg; lia).
    rewrite !Z.div_div by lia. f_equal.
    replace (Zpos p~1) with (1 + Zpos p + Zpos p) by lia.
    rewrite !Z.pow_add_r by lia. rewrite Z.pow_1_r. ring.
  - assert (H2 : 0 <= shr_m (iter_pos shr_1 p r)).
    { rewrite IH by assumption. apply Z.div_pos; [lia|].
      apply Z.pow_pos_nonneg; lia. }
    rewrite IH, IH by assumption.
    assert (Hp : 0 < 2 ^ Zpos p) by (apply Z.pow_pos_nonneg; lia).
    rewrite !Z.div_div by lia. f_equal.
    replace (Zpos p~0) with (Zpos p + Zpos p) by lia.
    rewrite !Z.pow_add_r by lia. reflexivity.
  - rewrite shr_1_m by assumption. reflexivity.
Qed.

(** [shr] divides the mantissa by a power of two and moves the exponent. *)
Lemma shr_spec (r : shr_record) (e n : Z) :
  0 <= shr_m r ->
  shr_m (fst (shr r e n)) = shr_m r / 2 ^ Z.max 0 n
  /\ snd (shr r e n) = e + Z.max 0 n.
Proof.
  intros H. destruct n as [|p|p]; simpl.
  - rewrite Z.div_1_r. lia.
  - rewrite iter_shr_m by assumption. split; reflexivity.
  - rewrite Z.div_1_r. lia.
Qed.

Lemma round_nearest_even_range (m : Z) (l : location) :
  m <= round_nearest_even m l <= m + 1.
Proof.
  destruct l as [|[]]; simpl; try lia. destruct (Z.even m); lia.
Qed.

Lemma shr_record_of_loc_m (m : Z) (l : location) :
  shr_m (shr_record_of_loc m l) = m.
Proof. destruct l as [|[]]; reflexivity. Qed.

(** One rounding step: the exponent and the magnitude after [shr_fexp]. *)
Lemma shr_fexp_spec (m e : Z) (l : location) :
  0 <= m ->
  let r := shr_fexp prec64 emax64 m e l in
  0 <= shr_m (fst r)
  /\ shr_m (fst r) <= m
  /\ snd r = Z.max e (fexp prec64 emax64 (Zdigits2 m + e))
  /\ Zdigits2 (shr_m (fst r)) + snd r
     <= Z.max (Zdigits2 m + e) (fexp prec64 emax64 (Zdigits2 m + e)).
Proof.
  intros H r. subst r. unfold shr_fexp.
  generalize (fexp prec64 emax64 (Zdigits2 m + e)). intros f.
  destruct (shr_spec (shr_record_of_loc m l) e (f - e)) as [Hm He].
  { now rewrite shr_record_of_loc_m. }
  rewrite shr_record_of_loc_m in Hm. rewrite Hm, He.
  assert (Hp : 0 < 2 ^ Z.max 0 (f - e)) by (apply Z.pow_pos_nonneg; lia).
  split; [apply Z.div_pos; lia|].
  split; [apply Z.div_le_upper_bound; nia|].
  split; [lia|].
  pose proof (Zdigits2_div_pow2 m (Z.max 0 (f - e)) H ltac:(lia)).
  pose proof (Zdigits2_nonneg m). lia.
Qed.

(** Rounding a positive mantissa whose magnitude is far from the overflow
    threshold gives a zero or a finite number of the same sign. *)
Lemma binary_round_aux_finite (s : bool) (m e : Z) (l : location) (B : Z) :
  0 <= m -> e <= B -> Zdigits2 m + e - 52 <= B -> -1074 <= B -> B <= 971 ->
  match binary_round_aux prec64 emax64 s m e l with
  | S754_zero s' => s' = s
  | S754_finite s' m' e' =>
      s' = s /\ e' <= B
      /\ Zpos (digits2_pos m') + e' <= Z.max (Zdigits2 m + e) (-1074) + 1
  | _ => False
  end.
Proof.
  intros Hm He Hd Hmin Hmax. unfold binary_round_aux.
  pose proof (shr_fexp_spec m e l Hm) as (H1 & H1' & H2 & H3).
  destruct (shr_fexp prec64 emax64 m e l) as [mrs' e'] eqn:E1.
  cbn [fst snd] in *.
  pose proof (round_nearest_even_range (shr_m mrs') (loc_of_shr_record mrs'))
    as Hr.
  set (m1 := round_nearest_even (shr_m mrs') (loc_of_shr_record mrs')) in *.
  assert (Hm1 : 0 <= m1) by lia.
  assert (Hd1 : Zdigits2 m1 <= Zdigits2 (shr_m mrs') + 1).
  { destruct (Z.eq_dec m1 (shr_m mrs')) as [->|]; [lia|].
    replace m1 with (shr_m mrs' + 1) by lia. now apply Zdigits2_succ. }
  pose proof (shr_fexp_spec m1 e' loc_Exact Hm1) as (H4 & H4' & H5 & H6).
  destruct (shr_fexp prec64 emax64 m1 e' loc_Exact) as [mrs'' e''] eqn:E2.
  cbn [fst snd] in *.
  unfold fexp, emin, prec64, emax64 in *.
  destruct (shr_m mrs'') as [|m''|m''] eqn:E3; [reflexivity| |lia].
  assert (He'' : e'' <= B) by lia.
  destruct (Z.leb_spec e'' (1024 - 53)); [|lia].
  split; [reflexivity|]. split; [assumption|].
  change (Zpos (digits2_pos m'')) with (Zdigits2 (Zpos m'')) . lia.
Qed.

Lemma digits2_pos_iter_xO (p d : positive) :
  Zpos (digits2_pos (Pos.iter xO p d)) = Zpos (digits2_pos p) + Zpos d.
Proof.
  apply (Pos.iter_ind positive xO p
           (fun d q => Zpos (digits2_pos q) = Zpos (digits2_pos p) + Zpos d)).
  - simpl. lia.
  - intros d' q IH. simpl. lia.
Qed.

Lemma shl_align_spec (p : positive) (ex ex' : Z) :
  snd (shl_align p ex ex') = Z.min ex ex'
  /\ Zpos (digits2_pos (fst (shl_align p ex ex'))) + snd (shl_align p ex ex')
     = Zpos (digits2_pos p) + ex.
Proof.
  unfold shl_align. destruct (ex' - ex) as [|q|q] eqn:E; cbn [fst snd].
  - lia.
  - lia.
  - rewrite digits2_pos_iter_xO. lia.
Qed.

(** A float that is zero or positive, with exponent at most [emax] and
    magnitude below [2 ^ mag]. *)
Lemma float_of_int_small (c : Z) :
  0 <= c < 2 ^ 53 ->
  exists x, float_of_int c = Ok x /\ nonneg_below x 1 54.
Proof.
  intros Hc. unfold float_of_int, binary_normalize.
  destruct c as [|p|p]; [| |lia].
  - exists (S754_zero false). split; reflexivity.
  - unfold binary_round.
    pose proof (shl_align_spec p 0
                  (fexp prec64 emax64 (Zpos (digits2_pos p) + 0))) as [He Hd].
    destruct (shl_align p 0 (fexp prec64 emax64 (Zpos (digits2_pos p) + 0)))
      as [mz ez]. cbn [fst snd] in *.
    assert (Hdig : Zpos (digits2_pos p) <= 53).
    { change (Zpos (digits2_pos p)) with (Zdigits2 (Zpos p)).
      rewrite Zdigits2_log2 by lia.
      assert (Z.log2 (Zpos p) < 53) by (apply Z.log2_lt_pow2; lia). lia. }
    pose proof (binary_round_aux_finite false (Zpos mz) ez loc_Exact 1) as Hr.
    cbn [Zdigits2] in Hr.
    unfold fexp, emin, prec64, emax64 in He.
    specialize (Hr ltac:(lia) ltac:(lia) ltac:(lia) ltac:(lia) ltac:(lia)).
    destruct (binary_round_aux prec64 emax64 false (Zpos mz) ez loc_Exact)
      as [s'|s'| |s' m' e'] eqn:E; try contradiction.
    + eexists. split; [reflexivity|]. exact Hr.
    + eexists. split; [reflexivity|].
      destruct Hr as (Hs & He' & Hd'). repeat split; [assumption|lia|lia].
Qed.

(** A valid float in the interval (0, 1]. *)
Lemma unit_interval_float (r : float) :
  valid_binary prec64 emax64 r = true ->
  ltb float_zero r = true -> leb r float_one = true ->
  exists m e, r = S754_finite false m e /\ e <= -52
              /\ Zpos (digits2_pos m) <= 53.
Proof.
  intros Hv Hlt Hle.
  destruct r as [s|s| |s m e]; try discriminate.
  - destruct s; discriminate.
  - destruct s; [discriminate|]. exists m, e. split; [reflexivity|].
    unfold leb, SFleb, float_one, SFcompare in Hle.
    assert (He : e <= -52).
    { destruct (Z.compare_spec e (-52)); try lia; discriminate. }
    split; [assumption|].
    simpl in Hv. unfold bounded, canonical_mantissa in Hv.
    apply andb_true_iff in Hv as [Hc _]. apply Z.eqb_eq in Hc.
    unfold fexp, emin, prec64, emax64 in Hc. lia.
Qed.

Lemma int_of_float_nonneg (x : float) (emax mag : Z) :
  nonneg_below x emax mag ->
  exists n, int_of_float x = Ok n /\ floor_of_float x = Ok n /\ 0 <= n.
Proof.
  destruct x as [s|s| |s m e]; simpl; try contradiction.
  - intros _. exists 0. repeat split; lia.
  - intros (-> & _ & _). eexists. split; [reflexivity|].
    split; [destruct e; reflexivity|].
    unfold trunc_magnitude. destruct e as [|p|p]; try lia.
    apply Z.div_pos; [lia|]. apply Z.pow_pos_nonneg; lia.
Qed.

(** The product of a small non-negative float by a float of (0, 1] is a
    non-negative finite float. *)
Lemma mul_unit_interval (x r : float) :
  nonneg_below x 1 54 ->
  valid_binary prec64 emax64 r = true ->
  ltb float_zero r = true -> leb r float_one = true ->
  nonneg_below (SFmul prec64 emax64 x r) 3 56.
Proof.
  intros Hx Hv Hlt Hle.
  destruct (unit_interval_float r Hv Hlt Hle) as (mr & er & -> & Her & Hdr).
  destruct x as [s|s| |s m e]; unfold nonneg_below in Hx; try contradiction.
  - subst s. reflexivity.
  - destruct Hx as (-> & He & Hd). cbn [SFmul xorb].
    pose proof (binary_round_aux_finite false (Zpos (m * mr)) (e + er)
                  loc_Exact 3) as Hr.
    assert (Hmul : Zdigits2 (Zpos (m * mr))
                   <= Zpos (digits2_pos m) + Zpos (digits2_pos mr)).
    { rewrite Pos2Z.inj_mul. apply (Zdigits2_mul (Zpos m) (Zpos mr)); lia. }
    specialize (Hr ltac:(lia) ltac:(lia) ltac:(lia) ltac:(lia) ltac:(lia)).
    destruct (binary_round_aux prec64 emax64 false (Zpos (m * mr)) (e + er)
                loc_Exact) as [s'|s'| |s' m' e']; try contradiction.
    + exact Hr.
    + destruct Hr as (Hs & He' & Hd'). repeat split; [assumption|lia|lia].
Qed.

End FloatFacts.

(** ** Transition layers *)

Section Transition.

Import DenseNet3D Layout.
Local Open Scope graph_scope.

Variable self : self_t.
Variables b d h w : dim.

Local Abbreviation fmap := (Layout.fmap b d h w) (only parsing).

Lemma out_dim_same (i : dim) (k s : Z) :
  0 < s -> out_dim SAME i k s = Ok (strided i s).
Proof.
  intros H. unfold out_dim. destruct (Z.leb_spec s 0); [lia|].
  destruct i; reflexivity.
Qed.

Lemma transition_pool_shape (n pool_depth : Z) :
  0 < pool_depth ->
  pooled (fmap n) [1; pool_depth; 2; 2; 1] [1; pool_depth; 2; 2; 1]
  = Ok (Some [b; strided d pool_depth; strided h 2; strided w 2; Some n]).
Proof.
  intros H. unfold pooled, pool3d_shape, Layout.fmap.
  cbn [List.length Nat.eqb window_dims].
  rewrite out_dim_same_1, (out_dim_same d) by assumption.
  rewrite !(out_dim_same _ 2 2) by lia. rewrite out_dim_same_1.
  reflexivity.
Qed.

(** [transition_layer] once the number of output features is known. *)
Lemma transition_layer_unfold (c pool_depth n : Z) (scaled : float) :
  valid_keep_prob self ->
  0 < c -> 0 <= n ->
  mul_int_float c (reduction self) = Ok scaled ->
  int_of_float scaled = Ok n ->
  transition_layer self (Some (fmap c)) pool_depth
  = (pooled (fmap n) [1; pool_depth; 2; 2; 1] [1; pool_depth; 2; 2; 1],
     composite_nodes self b d h w c n 1
     ++ [Scope "pooling"
           [Op (nn_avg_pool3d (fmap n) [1; pool_depth; 2; 2; 1]
                  [1; pool_depth; 2; 2; 1] SAME)]]).
Proof.
  intros Hkeep Hc Hn Hmul Hint. unfold transition_layer, tensor_of.
  rewrite bind_ret, get_channels, bind_lift_ok. unfold int_of_dim.
  rewrite bind_lift_ok, Hmul, bind_lift_ok, Hint, bind_lift_ok.
  rewrite (composite_function_ok self b d h w c n 1 Hkeep) by lia.
  rewrite bind_pair. unfold scope.
  rewrite pool_avg. reflexivity.
Qed.

(** C5.  On a feature map with [c > 0] channels, with a reduction in
    (0, 1] and a keep probability that dropout accepts,
    [transition_layer] computes [out_features = floor(c * reduction)] (the
    product taken in floating point, as [int(c * reduction)] does), builds a
    composite function with kernel size 1 and that many output channels,
    and average-pools its result with window and strides
    [[1, pool_depth, 2, 2, 1]]: the two spatial axes are halved (rounded up)
    and the depth axis is divided by [pool_depth]. *)
Theorem transition_layer_compression (c pool_depth : Z) :
  valid_keep_prob self ->
  0 < c < 2 ^ 53 ->
  0 < pool_depth ->
  valid_binary prec64 emax64 (reduction self) = true ->
  ltb float_zero (reduction self) = true ->
  leb (reduction self) float_one = true ->
  exists (scaled : float) (out_features : Z),
    mul_int_float c (reduction self) = Ok scaled
    /\ floor_of_float scaled = Ok out_features
    /\ 0 <= out_features
    /\ transition_layer self (Some (fmap c)) pool_depth
       = (Ok (Some [b; strided d pool_depth; strided h 2; strided w 2;
                    Some out_features]),
          composite_nodes self b d h w c out_features 1
          ++ [Scope "pooling"
                [Op (nn_avg_pool3d (fmap out_features)
                       [1; pool_depth; 2; 2; 1] [1; pool_depth; 2; 2; 1]
                       SAME)]]).
Proof.
  intros Hkeep Hc Hp Hv Hlt Hle.
  destruct (float_of_int_small c ltac:(lia)) as (x & Hx & Hsmall).
  pose proof (mul_unit_interval x (reduction self) Hsmall Hv Hlt Hle) as Hprod.
  destruct (int_of_float_nonneg _ _ _ Hprod) as (n & Hint & Hfloor & Hn).
  exists (SFmul prec64 emax64 x (reduction self)), n.
  assert (Hmul : mul_int_float c (reduction self)
                 = Ok (SFmul prec64 emax64 x (reduction self))).
  { unfold mul_int_float. now rewrite Hx. }
  split; [exact Hmul|]. split; [exact Hfloor|]. split; [exact Hn|].
  rewrite (transition_layer_unfold c pool_depth n _ Hkeep ltac:(lia) Hn
             Hmul Hint).
  now rewrite transition_pool_shape.
Qed.

End Transition.

Lemma transition_layer_compression_witness :
  exists scaled,
    mul_int_float 60 Toy.half = Ok scaled
    /\ floor_of_float scaled = Ok 30
    /\ outcome
         (DenseNet3D.transition_layer Samples.net_dropout
            (Some [None; Some 8; Some 9; Some 8; Some 60]) 2)
       = Ok (Some [None; Some 4; Some 5; Some 4; Some 30]).
Proof.
  destruct (transition_layer_compression Samples.net_dropout
              None (Some 8) (Some 9) (Some 8) 60 2)
    as (scaled & n & Hmul & Hfloor & Hn & Ht);
    [intros _; vm_compute; reflexivity | simpl; lia | lia | reflexivity
    | reflexivity | reflexivity |].
  exists scaled. split; [exact Hmul|].
  assert (E : scaled = S754_finite false 8444249301319680 (-48)).
  { vm_compute in Hmul. now inversion Hmul. }
  subst scaled. vm_compute in Hfloor. inversion Hfloor; subst n.
  split; [reflexivity|]. exact (f_equal fst Ht).
Defined.

(** ** Order of graph construction *)

Section BuildOrder.

Import DenseNet3D Layout.
Local Open Scope graph_scope.

Variable self : self_t.

Lemma scope_ok_inv {A} (name : string) (m : G A) (a : A) (ns : list gnode) :
  scope name m = (Ok a, ns) ->
  outcome m = Ok a /\ ns = [Scope name (nodes m)].
Proof. unfold scope. intros H. inversion H. auto. Qed.

(** The loop over the blocks, from any block index on. *)
Lemma block_loop_built (k : nat) (block : Z) (x out : value) (ns : list gnode) :
  k = Z.to_nat (total_blocks self - block) ->
  TF.for_acc (range block (total_blocks self))
    (fun block output =>
       output <- scope (String.append "Block_" (str block))
                   (add_block self output (growth_rate self)
                      (layers_per_block self)) ;;
       if negb (block =? total_blocks self - 1) then
         scope (String.append "Transition_after_block_" (str block))
           (let pool_depth := 2 in transition_layer self output pool_depth)
       else TF.ret output)
    x = (Ok out, ns) ->
  blocks_built self block x ns out.
Proof.
  revert block x ns. induction k as [|k IH]; intros block x ns Hk H.
  - rewrite range_empty in H by lia. cbn [TF.for_acc] in H.
    unfold TF.ret in H. inversion H; subst. apply built_none. lia.
  - rewrite range_cons in H by lia. cbn [TF.for_acc] in H.
    apply bind_ok_inv in H as (y' & ns1 & ns2 & Hbody & Hrest & ->).
    apply bind_ok_inv in Hbody as (y & nb & nt & Hblock & Htrans & ->).
    apply scope_ok_inv in Hblock as [Hb ->].
    destruct (add_block self x (growth_rate self) (layers_per_block self))
      as [rb nsb] eqn:Eb. cbn [outcome nodes fst snd] in Hb. subst rb.
    destruct (Z.eqb_spec block (total_blocks self - 1)) as [Elast|Enot];
      cbn [negb] in Htrans.
    + unfold TF.ret in Htrans. inversion Htrans; subst y' nt.
      rewrite range_empty in Hrest by lia. cbn [TF.for_acc] in Hrest.
      unfold TF.ret in Hrest. inversion Hrest; subst out ns2.
      cbn [app]. now apply built_last.
    + cbv zeta in Htrans. apply scope_ok_inv in Htrans as [Ht ->].
      destruct (transition_layer self y 2) as [rt nst] eqn:Et.
      cbn [outcome nodes fst snd] in Ht. subst rt.
      cbn [app]. eapply built_next; eauto; [lia|].
      apply IH; [lia|assumption].
Qed.

Lemma conv3d_ok (x : shape) (c k out_features : Z) (strides : list Z)
    (p : padding) (out : shape) :
  get_dim x (-1) = Ok (Some c) ->
  existsb (fun n => n <? 0) [k; k; k; c; out_features] = false ->
  fan_in [k; k; k; c; out_features] <> 0 ->
  conv3d_shape x [k; k; k; c; out_features] strides p = Ok out ->
  conv3d self (Some x) out_features k strides p
  = (Ok (Some out),
     [Op (get_variable "kernel" [k; k; k; c; out_features]
            variance_scaling_initializer);
      Scope "3DConv"
        [Op (nn_conv3d x [k; k; k; c; out_features] strides p)]]).
Proof.
  intros Hc Hneg Hfan Hs. unfold conv3d, tensor_of.
  rewrite bind_ret, Hc, bind_lift_ok. unfold int_of_dim.
  rewrite bind_lift_ok. rewrite (msra_ok _ _ Hneg Hfan), bind_pair.
  unfold scope.
  rewrite bind_emit, Hs, bind_lift_ok. reflexivity.
Qed.

(** A convolution that is built had a kernel that could be created. *)
Lemma conv3d_success (x : shape) (c k out_features : Z) (strides : list Z)
    (p : padding) (v : value) (ns : list gnode) :
  get_dim x (-1) = Ok (Some c) ->
  conv3d self (Some x) out_features k strides p = (Ok v, ns) ->
  existsb (fun n => n <? 0) [k; k; k; c; out_features] = false
  /\ fan_in [k; k; k; c; out_features] <> 0.
Proof.
  intros Hc. unfold conv3d, tensor_of, weight_variable_msra.
  rewrite bind_ret, Hc, bind_lift_ok. unfold int_of_dim.
  rewrite bind_lift_ok.
  destruct (existsb _ _); [discriminate|].
  destruct (Z.eqb_spec (fan_in [k; k; k; c; out_features]) 0);
    [discriminate|].
  auto.
Qed.

(** The initial convolution and the first pooling. *)
Lemma initial_convolution_ok (b d h w : dim) (c : Z) :
  videos self = Some (fmap b d h w c) ->
  existsb (fun n => n <? 0) [7; 7; 7; c; first_output_features self] = false ->
  fan_in [7; 7; 7; c; first_output_features self] <> 0 ->
  (output <- conv3d self (videos self) (first_output_features self)
               7 [1; 1; 2; 2; 1] SAME ;;
   pool self output 3 3 None (Interned "avg") (Some 2) (Some 1) None)
  = (Ok (Some (fmap b d (strided (strided h 2) 2) (strided (strided w 2) 2)
                 (first_output_features self))),
     [Op (get_variable "kernel" [7; 7; 7; c; first_output_features self]
            variance_scaling_initializer);
      Scope "3DConv"
        [Op (nn_conv3d (fmap b d h w c)
               [7; 7; 7; c; first_output_features self] [1; 1; 2; 2; 1] SAME)];
      Op (nn_avg_pool3d
            (fmap b d (strided h 2) (strided w 2) (first_output_features self))
            [1; 3; 3; 3; 1] [1; 1; 2; 2; 1] SAME)]).
Proof.
  intros Hv Hneg Hfan. rewrite Hv.
  rewrite (conv3d_ok (fmap b d h w c) c 7 (first_output_features self)
             [1; 1; 2; 2; 1] SAME
             (fmap b d (strided h 2) (strided w 2)
                (first_output_features self))).
  - rewrite bind_pair, pool_avg. unfold pooled, pool3d_shape, fmap.
    cbn [List.length Nat.eqb window_dims or_default falsy Z.eqb].
    rewrite !out_dim_same_1, !(out_dim_same _ 3 2) by lia. reflexivity.
  - reflexivity.
  - exact Hneg.
  - exact Hfan.
  - unfold conv3d_shape, dim_compatible, fmap. rewrite Z.eqb_refl.
    cbn [firstn window_dims].
    rewrite !out_dim_same_1, !(out_dim_same _ 7 2) by lia. reflexivity.
Qed.

(** C4.  When graph construction goes through, the nodes it created are, in
    this order: the scope of the initial convolution, holding a convolution
    of kernel size 7 and strides [[1,1,2,2,1]] to [first_output_features]
    channels and an average pooling of window 3 with depth stride 1 and
    spatial stride 2; then, for the blocks 0 .. [total_blocks - 1] in turn,
    the scope of [add_block], followed by the scope of [transition_layer]
    with [pool_depth = 2] for every block but the last; then the scope of
    the transition to classes, which produces the logits; then the loss,
    optimiser and accuracy nodes. *)
Theorem build_graph_order (b d h w : dim) (c : Z) :
  videos self = Some (fmap b d h w c) ->
  outcome (_build_graph self) = Ok tt ->
  exists (blocks : list gnode) (y logits : value) (classes rest : list gnode),
    nodes (_build_graph self)
    = Scope "Initial_convolution"
        [Op (get_variable "kernel" [7; 7; 7; c; first_output_features self]
               variance_scaling_initializer);
         Scope "3DConv"
           [Op (nn_conv3d (fmap b d h w c)
                  [7; 7; 7; c; first_output_features self]
                  [1; 1; 2; 2; 1] SAME)];
         Op (nn_avg_pool3d
               (fmap b d (strided h 2) (strided w 2)
                  (first_output_features self))
               [1; 3; 3; 3; 1] [1; 1; 2; 2; 1] SAME)]
      :: blocks ++ Scope "Transition_to_classes" classes :: rest
    /\ blocks_built self 0
         (Some (fmap b d (strided (strided h 2) 2) (strided (strided w 2) 2)
                  (first_output_features self)))
         blocks y
    /\ trainsition_layer_to_classes self y = (Ok logits, classes)
    /\ Forall (fun n => match n with Op _ => True | Scope _ _ => False end) rest.
Proof.
  intros Hv Hok.
  destruct (_build_graph self) as [r ns] eqn:E. cbn [outcome fst] in Hok.
  subst r. cbn [nodes snd]. unfold _build_graph in E. cbv zeta in E.
  apply bind_ok_inv in E as (x0 & ns0 & ns1 & Hinit & E & ->).
  apply scope_ok_inv in Hinit as [Hx0 ->].
  assert (Hkernel :
            existsb (fun n => n <? 0) [7; 7; 7; c; first_output_features self]
            = false
            /\ fan_in [7; 7; 7; c; first_output_features self] <> 0).
  { destruct (conv3d self (videos self) (first_output_features self) 7
                [1; 1; 2; 2; 1] SAME) as [[v|e] nsc] eqn:Econv;
      [|discriminate Hx0].
    rewrite Hv in Econv.
    exact (conv3d_success (fmap b d h w c) c _ _ _ _ _ _ eq_refl Econv). }
  destruct Hkernel as [Hneg Hfan].
  rewrite (initial_convolution_ok b d h w c Hv Hneg Hfan) in Hx0 |- *.
  cbn [outcome nodes fst snd] in Hx0 |- *. inversion Hx0; subst x0. clear Hx0.
  apply bind_ok_inv in E as (y & blocks & ns2 & Hloop & E & ->).
  apply (block_loop_built _ 0 _ _ _ eq_refl) in Hloop.
  apply bind_ok_inv in E as (logits & ns3 & ns4 & Hcls & E & ->).
  apply scope_ok_inv in Hcls as [Hlog ->].
  destruct (trainsition_layer_to_classes self y) as [rl classes] eqn:Ec.
  cbn [outcome nodes fst snd] in Hlog |- *. subst rl.
  exists blocks, y, logits, classes, ns4.
  split; [reflexivity|]. split; [assumption|]. split; [exact Ec|].
  unfold tensor_of in E. destruct logits as [lg|]; [|discriminate].
  rewrite bind_ret, bind_emit in E.
  destruct (labels self) as [lb|]; [|discriminate].
  rewrite bind_ret in E. rewrite !bind_emit in E. cbn in E.
  inversion E. repeat constructor.
Qed.

End BuildOrder.

Lemma build_graph_order_witness :
  exists (blocks : list gnode) (y logits : value) (classes rest : list gnode),
    nodes (DenseNet3D._build_graph Toy.net0)
    = Scope "Initial_convolution"
        [Op (get_variable "kernel" [7; 7; 7; 3; 24]
               variance_scaling_initializer);
         Scope "3DConv"
           [Op (nn_conv3d [None; Some 8; Some 32; Some 32; Some 3]
                  [7; 7; 7; 3; 24] [1; 1; 2; 2; 1] SAME)];
         Op (nn_avg_pool3d [None; Some 8; Some 16; Some 16; Some 24]
               [1; 3; 3; 3; 1] [1; 1; 2; 2; 1] SAME)]
      :: blocks ++ Scope "Transition_to_classes" classes :: rest
    /\ Layout.blocks_built Toy.net0 0
         (Some [None; Some 8; Some 8; Some 8; Some 24]) blocks y
    /\ DenseNet3D.trainsition_layer_to_classes Toy.net0 y = (Ok logits, classes).
Proof.
  destruct (build_graph_order Toy.net0 None (Some 8) (Some 32) (Some 32) 3)
    as (blocks & y & logits & classes & rest & Hn & Hb & Hc & Hr);
    [reflexivity | vm_compute; reflexivity |].
  exists blocks, y, logits, classes, rest.
  split; [exact Hn|]. split; [exact Hb | exact Hc].
Defined.

(** ** The training loop: general facts *)

Section TrainingFacts.

Import DenseNet3D Train.
Context {R : Runtime}.

Lemma bind_run {A B} (m : T A) (f : A -> T B) (w w1 : world) (a : A) :
  m w = (Ok a, w1) -> Train.bind m f w = f a w1.
Proof. unfold Train.bind. now intros ->. Qed.

Lemma bind_raise {A B} (m : T A) (f : A -> T B) (w w1 : world) (e : exn) :
  m w = (Raise e, w1) -> Train.bind m f w = (Raise e, w1).
Proof. unfold Train.bind. now intros ->. Qed.

Lemma print_run (msg : message) (w : world) :
  print msg w = (Ok tt, set_stdout (stdout w ++ [msg]) w).
Proof. reflexivity. Qed.

Lemma truediv_ten (x : float) :
  truediv_int x 10 = Ok (SFdiv prec64 emax64 x float_ten).
Proof. reflexivity. Qed.

Lemma truediv_hundred (x : float) :
  truediv_int x 100 = Ok (SFdiv prec64 emax64 x float_hundred).
Proof. reflexivity. Qed.

(** The learning rate computed for an epoch, in any state of the run. *)
Lemma epoch_learning_rate_run (tp : train_params_t) (epoch : Z) (w : world) :
  fst (epoch_learning_rate tp epoch w) = Ok (scheduled_learning_rate tp epoch).
Proof.
  unfold epoch_learning_rate, scheduled_learning_rate.
  destruct (Z.leb_spec (reduce_lr_epoch_1 tp) epoch);
    destruct (Z.ltb_spec epoch (reduce_lr_epoch_2 tp));
    destruct (Z.leb_spec (reduce_lr_epoch_2 tp) epoch);
    try lia; cbn [andb]; rewrite ?truediv_ten, ?truediv_hundred; reflexivity.
Qed.

(** C3 (as amended).  In every epoch, and whatever happened in earlier
    epochs, the learning rate is computed from [initial_learning_rate]
    alone: it is the initial rate when the epoch is below both thresholds,
    the initial rate divided by 10 when
    [reduce_lr_epoch_1 <= epoch < reduce_lr_epoch_2], and the initial rate
    divided by 100 when [epoch >= reduce_lr_epoch_2].  With thresholds in
    increasing order the first case is [epoch < reduce_lr_epoch_1]; with an
    initial rate of 0.1 and thresholds 50 and 75, epoch 10 gets 0.1, epoch
    50 gets 0.01 and epoch 75 gets 0.001. *)
Theorem learning_rate_schedule (tp : train_params_t) (epoch : Z) (w : world) :
  let init := initial_learning_rate tp in
  exists lr : float,
    fst (epoch_learning_rate tp epoch w) = Ok lr
    /\ (forall w' : world, fst (epoch_learning_rate tp epoch w') = Ok lr)
    /\ (epoch < reduce_lr_epoch_1 tp -> epoch < reduce_lr_epoch_2 tp ->
        lr = init)
    /\ (reduce_lr_epoch_1 tp <= epoch < reduce_lr_epoch_2 tp ->
        lr = SFdiv prec64 emax64 init float_ten)
    /\ (reduce_lr_epoch_2 tp <= epoch ->
        lr = SFdiv prec64 emax64 init float_hundred)
    /\ (reduce_lr_epoch_1 tp <= reduce_lr_epoch_2 tp ->
        epoch < reduce_lr_epoch_1 tp -> lr = init)
    /\ (init = Toy.tenth -> reduce_lr_epoch_1 tp = 50 ->
        reduce_lr_epoch_2 tp = 75 ->
        (epoch = 10 -> lr = Toy.tenth)
        /\ (epoch = 50 -> lr = Toy.hundredth)
        /\ (epoch = 75 -> lr = Toy.thousandth)).
Proof.
  intros init. exists (scheduled_learning_rate tp epoch).
  split; [apply epoch_learning_rate_run|].
  split; [intros w'; apply epoch_learning_rate_run|].
  unfold scheduled_learning_rate. fold init.
  destruct (Z.leb_spec (reduce_lr_epoch_2 tp) epoch) as [Hge2|Hlt2];
    destruct (Z.leb_spec (reduce_lr_epoch_1 tp) epoch) as [Hge1|Hlt1];
    (repeat split; try (intros; lia); try reflexivity);
    intros He; subst epoch;
    match goal with Hi : init = Toy.tenth |- _ => rewrite Hi end;
    reflexivity.
Qed.

End TrainingFacts.

Lemma learning_rate_schedule_witness :
  fst (Train.epoch_learning_rate (R := Toy.runtime) (Toy.params0 100 50 75 4)
         10 (Toy.world0 10 3)) = Ok Toy.tenth
  /\ fst (Train.epoch_learning_rate (R := Toy.runtime) (Toy.params0 100 50 75 4)
            50 (Toy.world0 10 3)) = Ok Toy.hundredth
  /\ fst (Train.epoch_learning_rate (R := Toy.runtime) (Toy.params0 100 50 75 4)
            75 (Toy.world0 10 3)) = Ok Toy.thousandth
  /\ fst (Train.epoch_learning_rate (R := Toy.runtime) (Toy.params0 100 50 75 4)
            49 (Toy.world0 10 3))
     = Ok (Train.initial_learning_rate (Toy.params0 100 50 75 4)).
Proof.
  destruct (learning_rate_schedule (R := Toy.runtime) (Toy.params0 100 50 75 4)
              10 (Toy.world0 10 3))
    as (lr1 & H1 & _ & Hlow & _ & _ & _ & Hex).
  destruct (learning_rate_schedule (R := Toy.runtime) (Toy.params0 100 50 75 4)
              50 (Toy.world0 10 3))
    as (lr2 & H2 & _ & _ & Hmid & _ & _ & _).
  destruct (learning_rate_schedule (R := Toy.runtime) (Toy.params0 100 50 75 4)
              75 (Toy.world0 10 3))
    as (lr3 & H3 & _ & _ & _ & Hhigh & _ & _).
  destruct (learning_rate_schedule (R := Toy.runtime) (Toy.params0 100 50 75 4)
              49 (Toy.world0 10 3))
    as (lr4 & H4 & _ & _ & _ & _ & Hord & _).
  rewrite H1, H2, H3, H4.
  destruct (Hex eq_refl eq_refl eq_refl) as (Hten & _ & _).
  rewrite (Hten eq_refl).
  rewrite (Hmid ltac:(simpl; lia)).
  rewrite (Hhigh ltac:(simpl; lia)).
  rewrite (Hord ltac:(simpl; lia) ltac:(simpl; lia)).
  pose proof (Hlow ltac:(simpl; lia) ltac:(simpl; lia)) as Hinit.
  repeat split; reflexivity.
Defined.

(** C3 fails as stated when the thresholds are not in increasing order:
    with [reduce_lr_epoch_1 = 75] and [reduce_lr_epoch_2 = 50], epoch 60 is
    below [reduce_lr_epoch_1], yet its learning rate is the initial rate
    divided by 100. *)
Lemma schedule_with_swapped_thresholds :
  let tp := Toy.params0 100 75 50 4 in
  60 < Train.reduce_lr_epoch_1 tp
  /\ fst (Train.epoch_learning_rate (R := Toy.runtime) tp 60 (Toy.world0 10 3))
     = Ok Toy.thousandth
  /\ Toy.thousandth <> Train.initial_learning_rate tp.
Proof.
  split; [simpl; lia|]. split; [reflexivity|]. discriminate.
Qed.

(** ** One pass over a split *)

Section Passes.

Import DenseNet3D Train.
Context {R : Runtime}.

Variable self : self_t.
Variable data : split_name.
Variable batch_size : Z.

Lemma take_batch_run (w : world) :
  take_batch data batch_size w
  = (Ok (fst (next_batch (data_of data w) batch_size)),
     set_data data (snd (next_batch (data_of data w) batch_size)) w).
Proof.
  unfold take_batch, Train.bind, get.
  destruct (next_batch (data_of data w) batch_size). reflexivity.
Qed.

Lemma data_of_set_data (p : provider) (w : world) :
  data_of data (set_data data p w) = p.
Proof. destruct data; reflexivity. Qed.

Lemma draw_batches_succ (p : provider) (k : nat) :
  draw_batches p batch_size (S k)
  = (fst (next_batch p batch_size)
     :: fst (draw_batches (snd (next_batch p batch_size)) batch_size k),
     snd (draw_batches (snd (next_batch p batch_size)) batch_size k)).
Proof.
  cbn [draw_batches]. destruct (next_batch p batch_size) as [b p'].
  cbn [fst snd]. destruct (draw_batches p' batch_size k). reflexivity.
Qed.

Lemma draw_batches_length (p : provider) (k : nat) :
  List.length (fst (draw_batches p batch_size k)) = k.
Proof.
  revert p. induction k as [|k IH]; intros p; [reflexivity|].
  rewrite draw_batches_succ. cbn [fst List.length]. now rewrite IH.
Qed.

Lemma train_steps_cons (ps : params) (b : batch) (bs : list batch) (lr : float) :
  train_steps ps (b :: bs) lr
  = (fst (train_steps (fst (run_train_step ps b lr)) bs lr),
     snd (run_train_step ps b lr)
     :: snd (train_steps (fst (run_train_step ps b lr)) bs lr)).
Proof.
  cbn [train_steps]. destruct (run_train_step ps b lr) as [ps' v].
  cbn [fst snd]. destruct (train_steps ps' bs lr). reflexivity.
Qed.

Lemma train_one_batch_run (lr : float) (tl ta : list float) (w : world) :
  let b := fst (next_batch (data_of data w) batch_size) in
  let step := run_train_step (sess w) b lr in
  exists w',
    train_one_batch self data batch_size lr (tl, ta) w
    = (Ok (tl ++ [fst (snd step)], ta ++ [snd (snd step)]), w')
    /\ sess w' = fst step
    /\ data_of data w' = snd (next_batch (data_of data w) batch_size)
    /\ quiet_step w w'.
Proof.
  intros b step. unfold train_one_batch.
  rewrite (bind_run _ _ _ _ _ (take_batch_run w)).
  unfold Train.bind at 1. unfold get at 1.
  replace (sess (set_data data (snd (next_batch (data_of data w) batch_size)) w))
    with (sess w) by (destruct data; reflexivity).
  fold b. fold step. destruct step as [p [loss accuracy]] eqn:Es.
  cbn [fst snd].
  destruct (should_save_logs self).
  - eexists. split; [reflexivity|]. cbn.
    split; [reflexivity|]. split; [destruct data; reflexivity|].
    repeat split.
  - eexists. split; [reflexivity|]. cbn.
    split; [reflexivity|]. split; [destruct data; reflexivity|].
    repeat split.
Qed.

Lemma train_loop_run (lr : float) (l : list Z) (tl ta : list float) (w : world) :
  let drawn := draw_batches (data_of data w) batch_size (List.length l) in
  let trained := train_steps (sess w) (fst drawn) lr in
  exists w',
    for_acc l (fun _ => train_one_batch self data batch_size lr) (tl, ta) w
    = (Ok (tl ++ map fst (snd trained), ta ++ map snd (snd trained)), w')
    /\ sess w' = fst trained
    /\ data_of data w' = snd drawn
    /\ quiet_step w w'.
Proof.
  revert tl ta w. induction l as [|i l IH]; intros tl ta w.
  - cbn. exists w. rewrite !List.app_nil_r. repeat split.
  - cbn [List.length for_acc].
    destruct (train_one_batch_run lr tl ta w) as (w1 & H1 & Hs & Hd & Hq).
    rewrite (bind_run _ _ _ _ _ H1).
    destruct (IH (tl ++ [fst (snd (run_train_step (sess w)
                                     (fst (next_batch (data_of data w) batch_size))
                                     lr))])
                 (ta ++ [snd (snd (run_train_step (sess w)
                                     (fst (next_batch (data_of data w) batch_size))
                                     lr))]) w1)
      as (w2 & H2 & Hs2 & Hd2 & Hq2).
    exists w2. rewrite draw_batches_succ. cbn [fst snd].
    rewrite train_steps_cons. cbn [fst snd map].
    rewrite Hs in H2, Hs2. rewrite Hd in H2, Hs2, Hd2.
    rewrite H2, <- !app_assoc. cbn [app].
    split; [reflexivity|]. split; [assumption|]. split; [assumption|].
    destruct Hq as (Ha & Hb & Hc), Hq2 as (Ha2 & Hb2 & Hc2).
    repeat split; congruence.
Qed.

Lemma test_one_batch_run (tl ta : list float) (w : world) :
  let b := fst (next_batch (data_of data w) batch_size) in
  test_one_batch self data batch_size (tl, ta) w
  = (Ok (tl ++ [fst (run_metrics (sess w) b)],
         ta ++ [snd (run_metrics (sess w) b)]),
     set_data data (snd (next_batch (data_of data w) batch_size)) w).
Proof.
  intros b. unfold test_one_batch.
  rewrite (bind_run _ _ _ _ _ (take_batch_run w)).
  unfold Train.bind at 1. unfold get at 1.
  replace (sess (set_data data (snd (next_batch (data_of data w) batch_size)) w))
    with (sess w) by (destruct data; reflexivity).
  fold b. destruct (run_metrics (sess w) b). reflexivity.
Qed.

Lemma set_data_twice (p q : provider) (w : world) :
  set_data data q (set_data data p w) = set_data data q w.
Proof. destruct data; reflexivity. Qed.

Lemma set_data_same (w : world) : set_data data (data_of data w) w = w.
Proof. destruct w, data; reflexivity. Qed.

Lemma test_loop_run (l : list Z) (tl ta : list float) (w : world) :
  let drawn := draw_batches (data_of data w) batch_size (List.length l) in
  let evals := map (run_metrics (sess w)) (fst drawn) in
  for_acc l (fun _ => test_one_batch self data batch_size) (tl, ta) w
  = (Ok (tl ++ map fst evals, ta ++ map snd evals),
     set_data data (snd drawn) w).
Proof.
  revert tl ta w. induction l as [|i l IH]; intros tl ta w.
  - cbn. rewrite !List.app_nil_r, set_data_same. reflexivity.
  - cbn [List.length for_acc].
    rewrite (bind_run _ _ _ _ _ (test_one_batch_run tl ta w)).
    rewrite IH. rewrite draw_batches_succ. cbn [fst snd map].
    rewrite data_of_set_data, set_data_twice.
    replace (sess (set_data data (snd (next_batch (data_of data w) batch_size)) w))
      with (sess w) by (destruct data; reflexivity).
    rewrite <- !app_assoc. reflexivity.
Qed.

(** [train_one_epoch] as the training steps on the batches drawn. *)
Lemma train_one_epoch_run (lr : float) (w : world) :
  batch_size <> 0 ->
  let k := Z.to_nat (num_examples (data_of data w) / batch_size) in
  let drawn := draw_batches (data_of data w) batch_size k in
  let trained := train_steps (sess w) (fst drawn) lr in
  exists w',
    train_one_epoch self data batch_size lr w
    = (Ok (Np.mean (map fst (snd trained)), Np.mean (map snd (snd trained))),
       w')
    /\ sess w' = fst trained
    /\ data_of data w' = snd drawn
    /\ quiet_step w w'.
Proof.
  intros Hb k drawn trained.
  assert (Hrange : List.length
                     (range 0 (num_examples (data_of data w) / batch_size)) = k).
  { rewrite range_length. subst k. f_equal. lia. }
  unfold train_one_epoch. unfold Train.bind at 1. unfold get at 1.
  unfold floordiv. destruct (Z.eqb_spec batch_size 0) as [E|_]; [contradiction|].
  unfold Train.bind at 1. unfold lift at 1.
  destruct (train_loop_run lr
              (range 0 (num_examples (data_of data w) / batch_size)) [] [] w)
    as (w' & Hloop & Hs & Hd & Hq).
  rewrite (bind_run _ _ _ _ _ Hloop).
  rewrite Hrange in Hs, Hd. exists w'.
  split; [|repeat split; solve [assumption | apply Hq]].
  unfold Train.ret. cbn [fst snd app]. rewrite Hrange. reflexivity.
Qed.

(** [test] as the evaluation of the batches drawn. *)
Lemma test_run (w : world) :
  batch_size <> 0 ->
  let k := Z.to_nat (num_examples (data_of data w) / batch_size) in
  let drawn := draw_batches (data_of data w) batch_size k in
  let evals := map (run_metrics (sess w)) (fst drawn) in
  test self data batch_size w
  = (Ok (Np.mean (map fst evals), Np.mean (map snd evals)),
     set_data data (snd drawn) w).
Proof.
  intros Hb k drawn evals.
  assert (Hrange : List.length
                     (range 0 (num_examples (data_of data w) / batch_size)) = k).
  { rewrite range_length. subst k. f_equal. lia. }
  unfold test. unfold Train.bind at 1. unfold get at 1.
  unfold floordiv. destruct (Z.eqb_spec batch_size 0) as [E|_]; [contradiction|].
  unfold Train.bind at 1. unfold lift at 1.
  rewrite (bind_run _ _ _ _ _
             (test_loop_run
                (range 0 (num_examples (data_of data w) / batch_size)) [] [] w)).
  unfold Train.ret. cbn [fst snd app]. rewrite Hrange. reflexivity.
Qed.

(** *** The mean of the per-batch values *)

Lemma pairwise_sum_short (fuel : nat) (l : list float) :
  (List.length l < 8)%nat ->
  Np.pairwise_sum fuel l = fold_left Np.add32 l (S754_zero false).
Proof.
  intros H.
  do 8 (destruct l as [|? l]; [destruct fuel; reflexivity|]).
  cbn [List.length] in H. lia.
Qed.

Lemma pairwise_sum_rows (fuel : nat) (a0 a1 a2 a3 a4 a5 a6 a7 : float)
    (l : list float) :
  (List.length l <= 120)%nat ->
  Np.pairwise_sum fuel (a0 :: a1 :: a2 :: a3 :: a4 :: a5 :: a6 :: a7 :: l)
  = Np.unrolled_sum a0 a1 a2 a3 a4 a5 a6 a7 l.
Proof.
  intros H.
  assert (E : (List.length
                 (a0 :: a1 :: a2 :: a3 :: a4 :: a5 :: a6 :: a7 :: l)
               <=? 128)%nat = true).
  { apply Nat.leb_le. cbn [List.length]. lia. }
  destruct fuel; unfold Np.pairwise_sum; fold Np.pairwise_sum;
    rewrite E; reflexivity.
Qed.

Lemma pairwise_sum_cut (fuel : nat) (l : list float) :
  (128 < List.length l)%nat ->
  let n2 := (List.length l / 2 - (List.length l / 2) mod 8)%nat in
  Np.pairwise_sum (S fuel) l
  = Np.add32 (Np.pairwise_sum fuel (firstn n2 l))
      (Np.pairwise_sum fuel (skipn n2 l)).
Proof.
  intros H n2.
  assert (E : (List.length l <=? 128)%nat = false)
    by (apply Nat.leb_gt; exact H).
  do 8 (destruct l as [|? l]; [cbn [List.length] in H; lia|]).
  unfold Np.pairwise_sum; fold Np.pairwise_sum. rewrite E. reflexivity.
Qed.

Lemma cut_point (n : nat) :
  (128 < n)%nat ->
  (0 < n / 2 - (n / 2) mod 8 < n)%nat.
Proof.
  intros H.
  pose proof (Nat.div_mod_eq n 2) as E2.
  pose proof (Nat.mod_upper_bound n 2 ltac:(lia)) as B2.
  pose proof (Nat.mod_upper_bound (n / 2) 8 ltac:(lia)) as B8.
  lia.
Qed.

(** The length of the list is fuel enough: more changes nothing. *)
Lemma pairwise_sum_fuel (f1 f2 : nat) (l : list float) :
  (List.length l <= f1)%nat -> (List.length l <= f2)%nat ->
  Np.pairwise_sum f1 l = Np.pairwise_sum f2 l.
Proof.
  revert f2 l. induction f1 as [|f1 IH]; intros f2 l H1 H2.
  - destruct l; [|cbn [List.length] in H1; lia].
    destruct f2; reflexivity.
  - destruct (Nat.leb_spec (List.length l) 128) as [Hs|Hl].
    + destruct (Nat.ltb_spec (List.length l) 8) as [H8|H8].
      * now rewrite !pairwise_sum_short.
      * do 8 (destruct l as [|? l]; [cbn [List.length] in H8; lia|]).
        cbn [List.length] in Hs.
        rewrite !pairwise_sum_rows by lia. reflexivity.
    + destruct f2 as [|f2]; [lia|].
      rewrite !pairwise_sum_cut by assumption. cbv zeta.
      destruct (cut_point _ Hl) as [Hlo Hhi].
      f_equal; apply IH;
        rewrite ?length_firstn, ?length_skipn; lia.
Qed.

(** C7.  With a batch size other than 0, [train_one_epoch] and [test]
    each run one step per full batch: [num_examples // batch_size] steps,
    every one on the next [batch_size] examples of the split, so the
    [num_examples % batch_size] examples left over are never requested.
    Both return the means of the per-batch losses and of the per-batch
    accuracies, every batch counting once: the [float32] sum of the values
    divided by their number.  The sum is numpy's: fewer than 8 values are
    added one by one, from the first on, to [0.0]; 8 to 128 values are
    added in eight interleaved partial sums, which are combined pairwise
    before the values left over are added; more than 128 values are cut in
    two at a multiple of 8 and the sums of the two parts are added.
    [test] leaves the parameters as they are. *)
Theorem passes_use_full_batches (lr : float) (w : world) :
  batch_size <> 0 ->
  let n := num_examples (data_of data w) in
  let k := Z.to_nat (n / batch_size) in
  let drawn := draw_batches (data_of data w) batch_size k in
  let trained := train_steps (sess w) (fst drawn) lr in
  let evals := map (run_metrics (sess w)) (fst drawn) in
  let mean_of (l : list float) :=
    SFdiv Np.prec32 Np.emax32
      (Np.add32 (S754_zero false) (Np.pairwise_sum (List.length l) l))
      (binary_normalize Np.prec32 Np.emax32 (Z.of_nat (List.length l)) 0
         false) in
  (exists w',
      train_one_epoch self data batch_size lr w
      = (Ok (mean_of (map fst (snd trained)), mean_of (map snd (snd trained))),
         w')
      /\ sess w' = fst trained
      /\ data_of data w' = snd drawn
      /\ quiet_step w w')
  /\ test self data batch_size w
     = (Ok (mean_of (map fst evals), mean_of (map snd evals)),
        set_data data (snd drawn) w)
  /\ List.length (fst drawn) = k
  /\ (0 <= n -> 0 < batch_size ->
      Z.of_nat k = n / batch_size
      /\ Z.of_nat k * batch_size = n - n mod batch_size)
  /\ (forall l : list float,
         (List.length l < 8)%nat ->
         Np.pairwise_sum (List.length l) l
         = fold_left Np.add32 l (S754_zero false))
  /\ (forall (a0 a1 a2 a3 a4 a5 a6 a7 : float) (l : list float),
         (List.length l <= 120)%nat ->
         Np.pairwise_sum (8 + List.length l)
           (a0 :: a1 :: a2 :: a3 :: a4 :: a5 :: a6 :: a7 :: l)
         = Np.unrolled_sum a0 a1 a2 a3 a4 a5 a6 a7 l)
  /\ (forall (r0 r1 r2 r3 r4 r5 r6 r7 a0 a1 a2 a3 a4 a5 a6 a7 : float)
             (l : list float),
         Np.unrolled_sum r0 r1 r2 r3 r4 r5 r6 r7
           (a0 :: a1 :: a2 :: a3 :: a4 :: a5 :: a6 :: a7 :: l)
         = Np.unrolled_sum (Np.add32 r0 a0) (Np.add32 r1 a1) (Np.add32 r2 a2)
             (Np.add32 r3 a3) (Np.add32 r4 a4) (Np.add32 r5 a5)
             (Np.add32 r6 a6) (Np.add32 r7 a7) l)
  /\ (forall (r0 r1 r2 r3 r4 r5 r6 r7 : float) (l : list float),
         (List.length l < 8)%nat ->
         Np.unrolled_sum r0 r1 r2 r3 r4 r5 r6 r7 l
         = fold_left Np.add32 l
             (Np.add32 (Np.add32 (Np.add32 r0 r1) (Np.add32 r2 r3))
                (Np.add32 (Np.add32 r4 r5) (Np.add32 r6 r7))))
  /\ (forall l : list float,
         (128 < List.length l)%nat ->
         let n2 := (List.length l / 2 - (List.length l / 2) mod 8)%nat in
         Np.pairwise_sum (List.length l) l
         = Np.add32
             (Np.pairwise_sum (List.length (firstn n2 l)) (firstn n2 l))
             (Np.pairwise_sum (List.length (skipn n2 l)) (skipn n2 l))).
Proof.
  intros Hb n k drawn trained evals mean_of.
  split; [apply (train_one_epoch_run lr w Hb)|].
  split; [apply (test_run w Hb)|].
  split; [apply draw_batches_length|].
  split.
  { intros Hn Hpos.
    assert (0 <= n / batch_size) by (apply Z.div_pos; lia).
    split; [subst k; lia|].
    pose proof (Z.div_mod n batch_size Hb). subst k. nia. }
  split; [intros l Hl; now apply pairwise_sum_short|].
  split; [intros; now apply pairwise_sum_rows|].
  split; [reflexivity|].
  split.
  { intros r0 r1 r2 r3 r4 r5 r6 r7 l Hl.
    do 8 (destruct l as [|? l]; [reflexivity|]).
    cbn [List.length] in Hl. lia. }
  intros l Hl n2. destruct (cut_point _ Hl) as [Hlo Hhi].
  rewrite (pairwise_sum_fuel (List.length l) (S (List.length l)) l) by lia.
  rewrite pairwise_sum_cut by assumption. cbv zeta. fold n2.
  f_equal; apply pairwise_sum_fuel;
    rewrite ?length_firstn, ?length_skipn; subst n2; lia.
Qed.

Lemma small_split_has_no_batch (n : Z) :
  0 < n < batch_size -> floordiv n batch_size = Ok 0.
Proof.
  intros H. unfold floordiv. destruct (Z.eqb_spec batch_size 0); [lia|].
  now rewrite Z.div_small by lia.
Qed.

(** C10.  When [num_examples // batch_size] is 0, in particular when
    [0 < num_examples < batch_size], [train_one_epoch] and [test] run no
    batch and change nothing (no parameter update, no batch drawn), raise
    nothing, and return NaN, the mean of an empty list, for both the loss
    and the accuracy. *)
Theorem empty_pass_returns_nan (lr : float) (w : world) :
  floordiv (num_examples (data_of data w)) batch_size = Ok 0
  \/ 0 < num_examples (data_of data w) < batch_size ->
  train_one_epoch self data batch_size lr w = (Ok (S754_nan, S754_nan), w)
  /\ test self data batch_size w = (Ok (S754_nan, S754_nan), w)
  /\ Np.mean [] = S754_nan
  /\ is_nan (Np.mean []) = true.
Proof.
  intros H.
  assert (H0 : floordiv (num_examples (data_of data w)) batch_size = Ok 0).
  { destruct H as [H|H]; [exact H|]. now apply small_split_has_no_batch. }
  unfold train_one_epoch, test.
  unfold Train.bind at 1 4. unfold get at 1 2. rewrite H0.
  split; [|split]; try reflexivity. split; reflexivity.
Qed.

End Passes.

Lemma passes_use_full_batches_witness :
  let one := S754_finite false 8388608 (-23) in
  fst (Train.train_one_epoch (R := Toy.runtime) Toy.net0 Train.train 4
         Toy.half (Toy.world0 10 3))
  = Ok (S754_finite false 8388608 (-24), one)
  /\ Train.test (R := Toy.runtime) Toy.net0 Train.validation 4 (Toy.world0 10 9)
     = (Ok (one, S754_zero false),
        Train.set_data Train.validation ((9, 8) : @provider Toy.runtime)
          (Toy.world0 10 9))
  /\ Z.of_nat (Z.to_nat (10 / 4)) * 4 = 10 - 10 mod 4
  /\ Np.pairwise_sum 9
       [S754_finite false 8388608 1; one; one; one; one; one; one; one; one]
     = S754_finite false 8388612 1
  /\ fold_left Np.add32
       [S754_finite false 8388608 1; one; one; one; one; one; one; one; one]
       (S754_zero false)
     = S754_finite false 8388608 1.
Proof.
  intros one.
  destruct (passes_use_full_batches (R := Toy.runtime) Toy.net0 Train.train 4
              Toy.half (Toy.world0 10 3))
    as ((w' & Htrain & _) & _ & _ & Hcount & _ & Hrows & _); [discriminate|].
  destruct (passes_use_full_batches (R := Toy.runtime) Toy.net0
              Train.validation 4 Toy.half (Toy.world0 10 9))
    as (_ & Htest & _); [discriminate|].
  split; [rewrite Htrain; vm_compute; reflexivity|].
  split; [rewrite Htest; vm_compute; reflexivity|].
  split; [exact (proj2 (Hcount ltac:(simpl; lia) ltac:(lia)))|].
  split; [|vm_compute; reflexivity].
  etransitivity;
    [exact (Hrows (S754_finite false 8388608 1) one one one one one one one
              [one] ltac:(simpl; lia))|].
  vm_compute. reflexivity.
Defined.

Lemma empty_pass_returns_nan_witness :
  Train.train_one_epoch (R := Toy.runtime) Toy.net0 Train.train 4 Toy.tenth
    (Toy.world0 3 3)
  = (Ok (S754_nan, S754_nan), Toy.world0 3 3)
  /\ Train.test (R := Toy.runtime) Toy.net0 Train.validation 4 (Toy.world0 3 3)
     = (Ok (S754_nan, S754_nan), Toy.world0 3 3).
Proof.
  destruct (empty_pass_returns_nan (R := Toy.runtime) Toy.net0 Train.train 4
              Toy.tenth (Toy.world0 3 3)) as (H1 & _);
    [right; simpl; lia|].
  destruct (empty_pass_returns_nan (R := Toy.runtime) Toy.net0 Train.validation
              4 Toy.tenth (Toy.world0 3 3)) as (_ & H2 & _);
    [left; reflexivity|].
  split; assumption.
Defined.

(** ** Strings: path components and decimal numerals *)

Section StringFacts.

Lemma append_assoc (a b c : string) :
  ((a ++ b) ++ c = a ++ (b ++ c))%string.
Proof. induction a as [|x a IH]; simpl; [reflexivity|now rewrite IH]. Qed.

Lemma contains_append (c : ascii) (a b : string) :
  contains c (a ++ b)%string = contains c a || contains c b.
Proof.
  induction a as [|x a IH]; simpl; [reflexivity|].
  now rewrite IH, orb_assoc.
Qed.

Lemma split_not_nil (sep : ascii) (s : string) : split sep s <> [].
Proof.
  destruct s as [|c r]; simpl; [discriminate|].
  destruct (Ascii.eqb c sep); [discriminate|].
  destruct (split sep r); discriminate.
Qed.

Lemma split_no_sep (sep : ascii) (s : string) :
  contains sep s = false -> split sep s = [s].
Proof.
  induction s as [|c r IH]; simpl; [reflexivity|].
  intros H. apply orb_false_iff in H as [Hc Hr].
  rewrite Hc, (IH Hr). reflexivity.
Qed.

(** Splitting around a separator splits both sides. *)
Lemma split_around (sep : ascii) (a b : string) :
  split sep (a ++ String sep b)%string = split sep a ++ split sep b.
Proof.
  induction a as [|c r IH]; simpl.
  - now rewrite Ascii.eqb_refl.
  - destruct (Ascii.eqb c sep); [now rewrite IH|].
    rewrite IH. pose proof (split_not_nil sep r) as Hne.
    destruct (split sep r) as [|h t]; [contradiction|reflexivity].
Qed.

Lemma last_app_r {A} (l1 l2 : list A) (d : A) :
  l2 <> [] -> last (l1 ++ l2) d = last l2 d.
Proof.
  intros H. induction l1 as [|x l1 IH]; [reflexivity|].
  cbn [app]. destruct (l1 ++ l2) eqn:E.
  - apply app_eq_nil in E as [_ E]. contradiction.
  - rewrite <- IH. reflexivity.
Qed.

(** The part of [a<sep>b] after the last separator, when [b] has none. *)
Lemma last_item_after_sep (sep : ascii) (a b : string) :
  contains sep b = false ->
  last_item (split sep (a ++ String sep b)%string) = b.
Proof.
  intros H. unfold last_item. rewrite split_around.
  rewrite last_app_r by apply split_not_nil.
  now rewrite (split_no_sep sep b H).
Qed.

(** Decimal numerals hold digits only. *)
Lemma numeral_no_char (c : ascii) (u : Decimal.uint) :
  is_digit c = false -> contains c (NilEmpty.string_of_uint u) = false.
Proof.
  intros H. induction u; cbn [contains NilEmpty.string_of_uint];
    try reflexivity; rewrite IHu, orb_false_r;
    match goal with
    | |- Ascii.eqb ?a c = false =>
        destruct (Ascii.eqb_spec a c) as [E|]; [|reflexivity];
        subst c; discriminate
    end.
Qed.

Lemma numeral_lstrip (u : Decimal.uint) :
  lstrip (NilEmpty.string_of_uint u) = NilEmpty.string_of_uint u.
Proof. destruct u; reflexivity. Qed.

Lemma numeral_rstrip (u : Decimal.uint) :
  rstrip (NilEmpty.string_of_uint u) = NilEmpty.string_of_uint u.
Proof.
  induction u; simpl; try reflexivity; rewrite IHu;
    destruct (NilEmpty.string_of_uint u); reflexivity.
Qed.

Lemma numeral_digit_groups (u : Decimal.uint) :
  digit_groups true (NilEmpty.string_of_uint u)
  = Some (NilEmpty.string_of_uint u).
Proof.
  induction u; simpl; try reflexivity;
    unfold digit_groups in *; fold digit_groups in *;
    cbn [Ascii.eqb Bool.eqb andb is_digit]; rewrite IHu; reflexivity.
Qed.

Lemma parse_unsigned_numeral (u : Decimal.uint) :
  u <> Decimal.Nil ->
  parse_unsigned (NilEmpty.string_of_uint u) = Ok (Z.of_uint u).
Proof.
  intros Hu. unfold parse_unsigned.
  assert (Hg : digit_groups false (NilEmpty.string_of_uint u)
               = Some (NilEmpty.string_of_uint u)).
  { destruct u; try contradiction; simpl;
      rewrite numeral_digit_groups; reflexivity. }
  rewrite Hg, NilEmpty.usu. reflexivity.
Qed.

Lemma int_of_str_numeral (u : Decimal.uint) :
  u <> Decimal.Nil ->
  int_of_str (NilEmpty.string_of_uint u) = Ok (Z.of_uint u).
Proof.
  intros Hu. unfold int_of_str, strip.
  rewrite numeral_lstrip, numeral_rstrip.
  rewrite <- (parse_unsigned_numeral u Hu).
  destruct u; try contradiction; reflexivity.
Qed.

(** [int(str(n)) = n] for a natural number [n]. *)
Lemma int_of_str_str (n : Z) : 0 <= n -> int_of_str (str n) = Ok n.
Proof.
  intros H. unfold str. rewrite <- (DecimalZ.of_to n) at 2.
  destruct n as [|p|p]; [reflexivity| |lia].
  cbn [Z.to_int NilZero.string_of_int Z.of_int].
  assert (Hp : Pos.to_uint p <> Decimal.Nil).
  { intros E. apply (f_equal Pos.of_uint) in E.
    rewrite DecimalPos.Unsigned.of_to in E. discriminate. }
  unfold NilZero.string_of_uint.
  destruct (Pos.to_uint p) eqn:Eu; try contradiction;
    rewrite <- Eu in *; now apply int_of_str_numeral.
Qed.

(** [str(n)] of a natural number holds no [c] unless [c] is a digit. *)
Lemma str_no_char (c : ascii) (n : Z) :
  0 <= n -> is_digit c = false -> contains c (str n) = false.
Proof.
  intros H Hc. unfold str.
  destruct n as [|p|p]; [| |lia].
  - exact (numeral_no_char c (Decimal.D0 Decimal.Nil) Hc).
  - cbn [Z.to_int NilZero.string_of_int]. unfold NilZero.string_of_uint.
    destruct (Pos.to_uint p) eqn:Eu;
      rewrite <- ?Eu; try now apply numeral_no_char.
    exact (numeral_no_char c (Decimal.D0 Decimal.Nil) Hc).
Qed.

End StringFacts.

(** ** Resuming from a checkpoint *)

Section Resume.

Import DenseNet3D Train.
Context {R : Runtime}.

Variable self : self_t.

Lemma steady_ret {A} (a : A) : steady (Train.ret a).
Proof. intros w. exists a, w. split; reflexivity. Qed.

Lemma steady_bind {A B} (m : T A) (f : A -> T B) :
  steady m -> (forall a, steady (f a)) -> steady (Train.bind m f).
Proof.
  intros Hm Hf w. destruct (Hm w) as (a & w1 & H1 & E1).
  destruct (Hf a w1) as (b & w2 & H2 & E2).
  exists b, w2. rewrite (bind_run _ _ _ _ _ H1). split; [assumption|congruence].
Qed.

Lemma steady_get : steady get.
Proof. intros w. exists w, w. split; reflexivity. Qed.

Lemma steady_lift_ok {A} (a : A) : steady (Train.lift (Ok a)).
Proof. intros w. exists a, w. split; reflexivity. Qed.

Lemma steady_modify (f : world -> world) :
  (forall w, stdout (f w) = stdout w) -> steady (modify f).
Proof.
  intros Hf w. exists tt, (f w). split; [reflexivity|]. now rewrite Hf.
Qed.

Lemma epochs_run_app (l1 l2 : list message) :
  epochs_run (l1 ++ l2) = epochs_run l1 ++ epochs_run l2.
Proof. apply flat_map_app. Qed.

Lemma steady_print (msg : message) :
  epochs_run [msg] = [] -> steady (print msg).
Proof.
  intros H w. exists tt, (set_stdout (stdout w ++ [msg]) w).
  split; [reflexivity|]. cbn [stdout set_stdout].
  now rewrite epochs_run_app, H, List.app_nil_r.
Qed.

Lemma steady_log_loss_accuracy (loss accuracy : float) (epoch : Z)
    (prefix : string) (should_print : bool) :
  steady (log_loss_accuracy self loss accuracy epoch prefix should_print).
Proof.
  unfold log_loss_accuracy. apply steady_bind.
  - destruct should_print; [now apply steady_print|apply steady_ret].
  - intros _. now apply steady_modify.
Qed.

Lemma steady_save_model (global_step : option Z) :
  steady (save_model self global_step).
Proof. unfold save_model. now apply steady_modify. Qed.

Lemma steady_epoch_learning_rate (tp : train_params_t) (epoch : Z) :
  steady (epoch_learning_rate tp epoch).
Proof.
  unfold epoch_learning_rate.
  destruct (_ && _).
  - rewrite truediv_ten. apply steady_bind; [apply steady_lift_ok|].
    intros lr. apply steady_bind; [now apply steady_print|].
    intros _. apply steady_ret.
  - destruct (_ <=? _).
    + rewrite truediv_hundred. apply steady_bind; [apply steady_lift_ok|].
      intros lr. apply steady_bind; [now apply steady_print|].
      intros _. apply steady_ret.
    + apply steady_ret.
Qed.

Lemma steady_train_one_epoch (data : split_name) (batch_size : Z) (lr : float) :
  batch_size <> 0 -> steady (train_one_epoch self data batch_size lr).
Proof.
  intros Hb w.
  destruct (train_one_epoch_run self data batch_size lr w Hb)
    as (w' & H & _ & _ & Hq).
  eexists _, w'. split; [exact H|]. destruct Hq as (Hq & _). now rewrite Hq.
Qed.

Lemma steady_test (data : split_name) (batch_size : Z) :
  batch_size <> 0 -> steady (test self data batch_size).
Proof.
  intros Hb w.
  eexists _, _. split; [exact (test_run self data batch_size w Hb)|].
  destruct data; reflexivity.
Qed.

(** [load_model] prints no epoch header, whatever its outcome. *)
Lemma load_model_headers (w w1 : world) (r : result Z) :
  load_model self w = (r, w1) -> epochs_run (stdout w1) = epochs_run (stdout w).
Proof.
  unfold load_model. unfold Train.bind at 1. unfold get at 1.
  destruct (lookup (fst (save_path self)) (checkpoint_state w)) as [path|].
  - destruct (negb (String.eqb path "")).
    + unfold restore. unfold Train.bind at 1 2. unfold get at 1.
      destruct (lookup path (checkpoint_files w)) as [p|].
      * cbn [modify]. unfold Train.bind at 1. unfold Train.lift at 1.
        destruct (int_of_str _) as [n|e].
        -- intros H. cbn in H. inversion H; subst. cbn [stdout set_stdout set_sess].
           now rewrite epochs_run_app, List.app_nil_r.
        -- intros H. inversion H; subst. reflexivity.
      * intros H. cbn in H. inversion H; subst. reflexivity.
    + intros H. cbn in H. inversion H; subst. cbn [stdout set_stdout].
      now rewrite epochs_run_app, List.app_nil_r.
  - intros H. cbn in H. inversion H; subst. cbn [stdout set_stdout].
    now rewrite epochs_run_app, List.app_nil_r.
Qed.

Lemma lookup_head {A} (k : string) (a : A) (l : list (string * A)) :
  lookup k ((k, a) :: l) = Some a.
Proof. cbn [lookup]. now rewrite String.eqb_refl. Qed.

(** The name of the checkpoint written for epoch [e] ends in [-e]. *)
Lemma checkpoint_name_epoch (e : Z) :
  0 <= e ->
  last_item
    (split "-"
       (last_item
          (split "/" (snd (save_path self) ++ "-" ++ str e)%string)))
  = str e.
Proof.
  intros He. unfold save_path. cbn [snd].
  generalize ("saves/" ++ model_identifier self)%string. intros dir.
  rewrite append_assoc.
  change ("/model.chkpt" ++ "-" ++ str e)%string
    with (String "/" ("model.chkpt" ++ String "-" (str e)))%string.
  rewrite last_item_after_sep.
  - apply last_item_after_sep. now apply str_no_char.
  - rewrite contains_append. cbn [contains].
    rewrite (str_no_char "/" e He eq_refl). reflexivity.
Qed.

Lemma checkpoint_name_not_empty (e : Z) :
  String.eqb (snd (save_path self) ++ "-" ++ str e)%string "" = false.
Proof. reflexivity. Qed.

End Resume.

(** ** Further properties of graph construction *)

Section GraphLayout.

Import DenseNet3D Layout Structure.
Local Open Scope graph_scope.

Variable self : self_t.






Lemma NoDup_map_inj {A B} (f : A -> B) (l : list A) :
  (forall x y, In x l -> In y l -> f x = f y -> x = y) ->
  NoDup l -> NoDup (map f l).
Proof.
  intros Hinj Hnd. induction Hnd as [|x l Hx Hnd IH]; [constructor|].
  cbn [map]. constructor.
  - intros Hin. apply in_map_iff in Hin as (y & Hy & Hyl).
    apply Hx. rewrite (Hinj x y); [assumption|now left|now right|now symmetry].
  - apply IH. intros a a' Ha Ha'. apply Hinj; now right.
Qed.

Lemma range_NoDup (a b : Z) : NoDup (range a b).
Proof.
  unfold range. apply NoDup_map_inj; [|apply seq_NoDup].
  intros x y _ _ H. lia.
Qed.

Lemma str_inj_nonneg (i j : Z) : 0 <= i -> 0 <= j -> str i = str j -> i = j.
Proof.
  intros Hi Hj H. pose proof (int_of_str_str i Hi) as Ei.
  rewrite H, (int_of_str_str j Hj) in Ei. now inversion Ei.
Qed.

Lemma append_inj_r (p a b : string) :
  String.append p a = String.append p b -> a = b.
Proof.
  induction p as [|c p IH]; cbn [String.append]; [auto|].
  intros H. inversion H. auto.
Qed.

Lemma scope_names_map (f : Z -> string) (body : Z -> list gnode) (l : list Z) :
  scope_names (map (fun i => Scope (f i) (body i)) l) = map f l.
Proof.
  induction l as [|x l IH]; [reflexivity|].
  unfold scope_names in *. cbn [map flat_map app]. now rewrite IH.
Qed.

Variables b d h w : dim.

(** The layers [k .. k + m - 1] of a block. *)
Lemma block_layers_from (c g : Z) (m : nat) (k : Z) :
  valid_keep_prob self ->
  0 < c -> 0 <= g -> (bc_mode self = true -> 0 < g) -> 0 <= k ->
  TF.for_acc (range k (k + Z.of_nat m))
    (fun layer output =>
       scope (String.append "layer_" (str layer))
         (add_internal_layer self output g))
    (Some (fmap b d h w (c + k * g)))
  = (Ok (Some (fmap b d h w (c + (k + Z.of_nat m) * g))),
     map (fun i => Scope (String.append "layer_" (str i))
                     (internal_layer_nodes self b d h w (c + i * g) g))
       (range k (k + Z.of_nat m))).
Proof.
  intros Hkeep Hc Hg Hbc. revert k. induction m as [|m IH]; intros k Hk.
  - rewrite range_empty by lia. cbn [TF.for_acc map]. unfold TF.ret.
    do 4 f_equal. lia.
  - rewrite range_cons by lia. cbn [TF.for_acc map].
    unfold scope at 1.
    rewrite (add_internal_layer_ok self b d h w (c + k * g) g Hkeep
               ltac:(nia) Hg Hbc).
    cbn [fst snd]. rewrite bind_pair.
    replace (c + k * g + g) with (c + (k + 1) * g) by lia.
    replace (k + Z.of_nat (S m)) with (k + 1 + Z.of_nat m) by lia.
    rewrite IH by lia. reflexivity.
Qed.

(** X2.  On [c > 0] input channels, with a growth rate [g >= 0] ([g > 0]
    with [bc_mode]) and a keep probability that dropout accepts, a block
    of [n] layers consists of the scopes [layer_0] .. [layer_(n-1)] in
    this order; layer [i] is an internal layer on [c + i * g] channels, so
    its kernels read every earlier output of the block.  The scope names
    are pairwise distinct (no two layers share their variables), and the
    block returns [c + n * g] channels, or its input when [n <= 0]. *)
Theorem add_block_layout (c g n : Z) :
  valid_keep_prob self ->
  0 < c -> 0 <= g -> (bc_mode self = true -> 0 < g) ->
  add_block self (Some (fmap b d h w c)) g n
  = (Ok (Some (fmap b d h w (c + Z.max 0 n * g))),
     block_nodes self b d h w c g n)
  /\ scope_names (block_nodes self b d h w c g n)
     = map (fun i => String.append "layer_" (str i)) (range 0 n)
  /\ NoDup (scope_names (block_nodes self b d h w c g n))
  /\ List.length (block_nodes self b d h w c g n) = Z.to_nat n.
Proof.
  intros Hkeep Hc Hg Hbc.
  assert (Hnames : scope_names (block_nodes self b d h w c g n)
                   = map (fun i => String.append "layer_" (str i)) (range 0 n)).
  { unfold block_nodes. apply scope_names_map. }
  split; [|split; [exact Hnames|split]].
  - unfold add_block, block_nodes.
    destruct (Z_le_gt_dec n 0) as [Hn|Hn].
    + rewrite range_empty by lia. cbn [TF.for_acc map]. unfold TF.ret.
      do 4 f_equal. lia.
    + pose proof (block_layers_from c g (Z.to_nat n) 0 Hkeep Hc Hg Hbc
                    ltac:(lia)) as H.
      replace (0 + Z.of_nat (Z.to_nat n)) with n in H by lia.
      replace (c + 0 * g) with c in H by lia.
      rewrite H. do 4 f_equal. lia.
  - rewrite Hnames. apply NoDup_map_inj; [|apply range_NoDup].
    intros i j Hi Hj H. apply in_range in Hi, Hj.
    apply append_inj_r in H. apply str_inj_nonneg; [lia|lia|assumption].
  - unfold block_nodes. rewrite length_map, range_length. f_equal. lia.
Qed.

(** Names of the blocks and transitions from block [k] on. *)
Lemma blocks_built_names (k : Z) (x y : value) (ns : list gnode) :
  blocks_built self k x ns y ->
  scope_names ns = stage_names (total_blocks self) (range k (total_blocks self)).
Proof.
  induction 1 as [k x Hk|k x y ns Hk Hb|k x y z out ns ts rest Hk Hb Ht Hrest IH].
  - now rewrite range_empty by lia.
  - rewrite range_cons by lia. rewrite (range_empty (k + 1)) by lia.
    cbn [stage_names flat_map scope_names app].
    destruct (Z.eqb_spec k (total_blocks self - 1)); [reflexivity|contradiction].
  - rewrite range_cons by lia.
    unfold stage_names, scope_names in *. cbn [flat_map app].
    destruct (Z.eqb_spec k (total_blocks self - 1)); [lia|].
    cbn [app]. now rewrite IH.
Qed.

Lemma stage_names_in (tb : Z) (l : list Z) (s : string) :
  In s (stage_names tb l) ->
  exists j, In j l
            /\ (s = String.append "Block_" (str j)
                \/ s = String.append "Transition_after_block_" (str j)).
Proof.
  induction l as [|k l IH]; cbn [stage_names flat_map]; [contradiction|].
  intros H. apply in_app_or in H as [H|H].
  - exists k. split; [now left|].
    destruct H as [<-|H]; [now left|].
    destruct (k =? tb - 1); [contradiction|].
    destruct H as [<-|[]]. now right.
  - destruct (IH H) as (j & Hj & Hs). exists j. split; [now right|assumption].
Qed.

Lemma stage_names_NoDup (tb : Z) (m : nat) (k : Z) :
  0 <= k -> NoDup (stage_names tb (range k (k + Z.of_nat m))).
Proof.
  revert k. induction m as [|m IH]; intros k Hk.
  - rewrite range_empty by lia. constructor.
  - rewrite range_cons by lia.
    replace (k + Z.of_nat (S m)) with (k + 1 + Z.of_nat m) by lia.
    cbn [stage_names flat_map].
    fold (stage_names tb (range (k + 1) (k + 1 + Z.of_nat m))).
    specialize (IH (k + 1) ltac:(lia)).
    assert (Hfresh : forall s,
               s = String.append "Block_" (str k)
               \/ s = String.append "Transition_after_block_" (str k) ->
               ~ In s (stage_names tb (range (k + 1) (k + 1 + Z.of_nat m)))).
    { intros s Hs Hin. apply stage_names_in in Hin as (j & Hj & Hsj).
      apply in_range in Hj.
      destruct Hs as [Es | Es]; subst s; destruct Hsj as [E|E]; try discriminate;
        apply append_inj_r, str_inj_nonneg in E; lia. }
    cbn [app]. constructor.
    + intros Hin. destruct (k =? tb - 1); cbn [app] in Hin.
      * apply (Hfresh _ (or_introl eq_refl) Hin).
      * destruct Hin as [E|Hin]; [discriminate|].
        apply (Hfresh _ (or_introl eq_refl) Hin).
    + destruct (k =? tb - 1); cbn [app]; [assumption|].
      constructor; [|assumption]. apply Hfresh. now right.
Qed.

(** X3.  In a graph whose construction went through, the scopes at the top
    level are [Initial_convolution], then [Block_0],
    [Transition_after_block_0], [Block_1], ... with a transition after
    every block but the last, then [Transition_to_classes]: for
    [total_blocks >= 1] that is [total_blocks] blocks and
    [total_blocks - 1] transitions.  All these names are distinct, so no
    two stages share their variables. *)
Theorem build_graph_stages :
  outcome (_build_graph self) = Ok tt ->
  let stages := stage_names (total_blocks self) (range 0 (total_blocks self)) in
  scope_names (nodes (_build_graph self))
  = "Initial_convolution" :: stages ++ ["Transition_to_classes"]
  /\ NoDup ("Initial_convolution" :: stages ++ ["Transition_to_classes"])
  /\ (1 <= total_blocks self ->
      Z.of_nat (List.length stages) = 2 * total_blocks self - 1).
Proof.
  intros Hok stages.
  split; [|split].
  - destruct (_build_graph self) as [r ns] eqn:E. cbn [outcome fst] in Hok.
    subst r. cbn [nodes snd]. unfold _build_graph in E. cbv zeta in E.
    apply bind_ok_inv in E as (x0 & ns0 & ns1 & Hinit & E & ->).
    apply scope_ok_inv in Hinit as [_ ->].
    apply bind_ok_inv in E as (y & blocks & ns2 & Hloop & E & ->).
    apply (block_loop_built _ _ 0 _ _ _ eq_refl) in Hloop.
    apply blocks_built_names in Hloop.
    apply bind_ok_inv in E as (logits & ns3 & ns4 & Hcls & E & ->).
    apply scope_ok_inv in Hcls as [_ ->].
    unfold tensor_of in E. destruct logits as [lg|]; [|discriminate].
    rewrite bind_ret, bind_emit in E.
    destruct (labels self) as [lb|]; [|discriminate].
    rewrite bind_ret in E. rewrite !bind_emit in E. cbn in E.
    inversion E. unfold scope_names in *. cbn [flat_map app].
    rewrite flat_map_app, Hloop. reflexivity.
  - subst stages.
    assert (Hst : NoDup (stage_names (total_blocks self)
                           (range 0 (total_blocks self)))).
    { destruct (Z_le_gt_dec (total_blocks self) 0) as [Hn|Hn].
      - rewrite range_empty by lia. constructor.
      - pose proof (stage_names_NoDup (total_blocks self)
                      (Z.to_nat (total_blocks self)) 0 ltac:(lia)) as H.
        now replace (0 + Z.of_nat (Z.to_nat (total_blocks self)))
          with (total_blocks self) in H by lia. }
    constructor.
    + intros Hin. apply in_app_or in Hin as [Hin|[E|[]]]; [|discriminate].
      apply stage_names_in in Hin as (j & _ & [E|E]); discriminate.
    + apply NoDup_app; [assumption|repeat constructor; intros []|].
      intros s Hin [<-|[]].
      apply stage_names_in in Hin as (j & _ & [E|E]); discriminate.
  - intros Htb. subst stages.
    assert (Hlen : forall (m : nat) (k : Z),
               k + Z.of_nat m = total_blocks self -> (0 < m)%nat ->
               Z.of_nat (List.length
                           (stage_names (total_blocks self)
                              (range k (total_blocks self))))
               = 2 * Z.of_nat m - 1).
    { induction m as [|m IH]; intros k Hk Hm; [lia|].
      rewrite range_cons by lia. cbn [stage_names flat_map].
      rewrite length_app.
      destruct (Z.eqb_spec k (total_blocks self - 1)) as [Elast|Enot].
      - rewrite (range_empty (k + 1)) by lia. cbn. lia.
      - fold (stage_names (total_blocks self) (range (k + 1) (total_blocks self))).
        cbn [List.length]. rewrite Nat2Z.inj_add, (IH (k + 1)); lia. }
    rewrite (Hlen (Z.to_nat (total_blocks self)) 0); lia.
Qed.

End GraphLayout.

Section ConstructorEdges.

Import DenseNet3D Layout Structure.
Local Open Scope graph_scope.

Lemma outcome_bind_raise {A B} (m : G A) (f : A -> G B) (e : exn) :
  outcome m = Raise e -> outcome (TF.bind m f) = Raise e.
Proof. destruct m as [r ns]. cbn. now intros ->. Qed.

Lemma get_dim_last (x : shape) (c : dim) :
  get_dim (x ++ [c]) (-1) = Ok c.
Proof.
  unfold get_dim. rewrite length_app. cbn [List.length Z.ltb Z.compare].
  replace (Z.of_nat (List.length x + 1) + -1) with (Z.of_nat (List.length x))
    by lia.
  destruct (Z.ltb_spec (Z.of_nat (List.length x)) 0); [lia|].
  destruct (Z.leb_spec (Z.of_nat (List.length x + 1)) (Z.of_nat (List.length x)));
    [lia|].
  cbn [orb]. rewrite Nat2Z.id, nth_error_app2, Nat.sub_diag by lia.
  reflexivity.
Qed.

(** A convolution on a placeholder that is not of rank 5. *)
Lemma conv3d_other_rank (self : self_t) (s : list Z) (out k : Z)
    (strides : list Z) (p : padding) :
  List.length s <> 4%nat ->
  Forall (fun n => 0 < n) s ->
  k <> 0 ->
  outcome (conv3d self (Some (None :: map Some s)) out k strides p)
  = Raise (match s with [] => TypeError | _ => ValueError end).
Proof.
  intros Hlen Hpos Hk.
  destruct s as [|z s] using rev_ind; [reflexivity|]. clear IHs.
  apply Forall_app in Hpos as [_ Hz]. inversion Hz as [|? ? Hz' _]; subst.
  assert (Hne : match s ++ [z] with [] => TypeError | _ => ValueError end
                = ValueError) by (destruct s; reflexivity).
  rewrite Hne. unfold conv3d, tensor_of. rewrite bind_ret.
  replace (None :: map Some (s ++ [z]))
    with ((None :: map Some s) ++ [Some z])
    by (rewrite map_app; reflexivity).
  rewrite get_dim_last, bind_lift_ok. unfold int_of_dim.
  rewrite bind_lift_ok. unfold weight_variable_msra.
  destruct (existsb (fun n => n <? 0) [k; k; k; z; out]); [reflexivity|].
  destruct (Z.eqb_spec (fan_in [k; k; k; z; out]) 0) as [E|_].
  { unfold fan_in in E. cbn [rev app fold_right] in E. nia. }
  rewrite bind_emit. unfold TF.ret at 1. cbn [fst snd]. rewrite bind_pair.
  cbn [outcome fst]. unfold scope. cbn [fst]. rewrite bind_emit. cbn [fst].
  assert (Hshape : conv3d_shape ((None :: map Some s) ++ [Some z])
                     [k; k; k; z; out] strides p = Raise ValueError).
  { rewrite length_app in Hlen. cbn [List.length] in Hlen.
    destruct s as [|z1 [|z2 [|z3 [|z4 s]]]]; try reflexivity.
    - cbn [List.length] in Hlen. lia.
    - destruct s; reflexivity. }
  rewrite Hshape. reflexivity.
Qed.

(** X4.  The constructor builds a network only on clips given as
    [depth, height, width, channels]: with [total_blocks <> 0], a class
    count that is not negative and a data shape of positive entries of
    any other length the first convolution fails, with [TypeError] for an
    empty data shape (its last dimension is the unknown batch size) and
    with [ValueError] otherwise, and no network is returned. *)
Theorem constructor_rejects_other_ranks (a : args) :
  arg_total_blocks a <> 0 ->
  List.length (arg_data_shape a) <> 4%nat ->
  Forall (fun n => 0 < n) (arg_data_shape a) ->
  0 <= arg_n_classes a ->
  outcome (__init__ a)
  = Raise (match arg_data_shape a with [] => TypeError | _ => ValueError end).
Proof.
  intros Htb Hlen Hpos _. rewrite (init_nonzero a Htb).
  match goal with
  | |- outcome (TF.bind (_define_inputs ?s) _) = _ => set (s0 := s)
  end.
  assert (Hd : data_shape s0 = arg_data_shape a).
  { subst s0. cbv zeta. cbn [bc_mode new_self].
    destruct (arg_bc_mode a); reflexivity. }
  rewrite (outcome_bind _ _
             (set_inputs s0 (Some (None :: map Some (data_shape s0)))
                (Some [None; Some (n_classes s0)]) (Some []) (Some [])))
    by reflexivity.
  apply outcome_bind_raise. unfold _build_graph. cbv zeta.
  apply outcome_bind_raise. rewrite outcome_scope.
  apply outcome_bind_raise. cbn [videos set_inputs]. rewrite Hd.
  apply conv3d_other_rank; [assumption|assumption|discriminate].
Qed.

(** X5.  A constructed network has its inputs defined from the data shape
    and the number of classes, and its graph went through.  The nodes the
    constructor created are the four placeholders, then the nodes of
    [_build_graph], then the initialiser of the variables and the saver,
    which are created last and so cover every variable of the graph. *)
Theorem constructor_node_order (a : args) (net : self_t) (ns : list gnode) :
  __init__ a = (Ok net, ns) ->
  videos net = Some (None :: map Some (arg_data_shape a))
  /\ labels net = Some [None; Some (arg_n_classes a)]
  /\ outcome (_build_graph net) = Ok tt
  /\ ns = [Op (placeholder "input_videos" (None :: map Some (arg_data_shape a)));
           Op (placeholder "labels" [None; Some (arg_n_classes a)]);
           Op (placeholder "learning_rate" []);
           Op (placeholder "" [])]
          ++ nodes (_build_graph net)
          ++ [Op variables_initializer; Op train_saver].
Proof.
  intros H.
  assert (Hnz : arg_total_blocks a <> 0).
  { intros E. unfold __init__, floordiv in H. rewrite E in H. discriminate. }
  rewrite (init_nonzero a Hnz) in H.
  match type of H with
  | TF.bind (_define_inputs ?s) _ = _ => set (s0 := s) in H
  end.
  assert (Hd : data_shape s0 = arg_data_shape a
               /\ n_classes s0 = arg_n_classes a).
  { subst s0. cbv zeta. cbn [bc_mode new_self].
    destruct (arg_bc_mode a); split; reflexivity. }
  destruct Hd as [Hd Hn].
  apply bind_ok_inv in H as (s1 & ns1 & ns2 & Hm & Hk & ->).
  pose proof (define_inputs_inv _ _ _ Hm) as Hs1.
  assert (Hns1 : ns1 = nodes (_define_inputs s0)) by now rewrite Hm.
  rewrite define_inputs_nodes, Hd, Hn in Hns1.
  apply bind_ok_inv in Hk as ([] & ns3 & ns4 & Hb & Hk & ->).
  apply bind_ok_inv in Hk as ([] & ns5 & ns6 & Hi & Hk & ->).
  unfold TF.ret in Hk. inversion Hk; subst net ns6.
  unfold _initialize_session in Hi. rewrite bind_emit in Hi.
  cbn in Hi. inversion Hi; subst ns5. clear Hi Hk.
  rewrite Hb. cbn [outcome nodes fst snd]. rewrite List.app_nil_r.
  split; [rewrite Hs1; cbn [videos set_inputs]; now rewrite Hd|].
  split; [rewrite Hs1; cbn [labels set_inputs]; now rewrite Hn|].
  split; [reflexivity|]. now rewrite Hns1.
Qed.

End ConstructorEdges.

Lemma add_block_layout_witness :
  outcome (DenseNet3D.add_block Samples.net_dropout
             (Some (Layout.fmap None (Some 8) (Some 8) (Some 8) 24)) 12 3)
  = Ok (Some (Layout.fmap None (Some 8) (Some 8) (Some 8) 60))
  /\ Structure.scope_names
       (Structure.block_nodes Samples.net_dropout None (Some 8) (Some 8)
          (Some 8) 24 12 3)
     = ["layer_0"; "layer_1"; "layer_2"].
Proof.
  destruct (add_block_layout Samples.net_dropout None (Some 8) (Some 8)
              (Some 8) 24 12 3)
    as (H1 & H2 & _);
    [intros _; reflexivity | lia | lia | intros _; lia |].
  split; [rewrite H1; reflexivity | rewrite H2; reflexivity].
Defined.


Lemma build_graph_stages_witness :
  Structure.scope_names (nodes (DenseNet3D._build_graph Toy.net0))
  = ["Initial_convolution"; "Block_0"; "Transition_after_block_0"; "Block_1";
     "Transition_after_block_1"; "Block_2"; "Transition_to_classes"].
Proof.
  destruct (build_graph_stages Toy.net0) as (H & _ & _);
    [vm_compute; reflexivity|].
  exact H.
Defined.

Lemma constructor_rejects_other_ranks_witness :
  outcome (DenseNet3D.__init__
             {| DenseNet3D.arg_data_shape := [32; 32; 3];
                DenseNet3D.arg_n_classes := 2;
                DenseNet3D.arg_growth_rate := 12; DenseNet3D.arg_depth := 13;
                DenseNet3D.arg_total_blocks := 3;
                DenseNet3D.arg_keep_prob := float_one;
                DenseNet3D.arg_dataset := "UCF101";
                DenseNet3D.arg_weight_decay := float_zero;
                DenseNet3D.arg_nesterov_momentum := float_zero;
                DenseNet3D.arg_model_type := "DenseNet";
                DenseNet3D.arg_should_save_logs := true;
                DenseNet3D.arg_should_save_model := true;
                DenseNet3D.arg_renew_logs := false;
                DenseNet3D.arg_reduction := float_one;
                DenseNet3D.arg_bc_mode := false |})
  = Raise ValueError.
Proof.
  apply (constructor_rejects_other_ranks
           {| DenseNet3D.arg_data_shape := [32; 32; 3];
              DenseNet3D.arg_n_classes := 2;
              DenseNet3D.arg_growth_rate := 12; DenseNet3D.arg_depth := 13;
              DenseNet3D.arg_total_blocks := 3;
              DenseNet3D.arg_keep_prob := float_one;
              DenseNet3D.arg_dataset := "UCF101";
              DenseNet3D.arg_weight_decay := float_zero;
              DenseNet3D.arg_nesterov_momentum := float_zero;
              DenseNet3D.arg_model_type := "DenseNet";
              DenseNet3D.arg_should_save_logs := true;
              DenseNet3D.arg_should_save_model := true;
              DenseNet3D.arg_renew_logs := false;
              DenseNet3D.arg_reduction := float_one;
              DenseNet3D.arg_bc_mode := false |}); cbn;
    [lia | lia | repeat constructor | lia].
Defined.

Lemma constructor_node_order_witness :
  exists net ns,
    DenseNet3D.__init__ (DenseNet3D.example_args 13 3 false) = (Ok net, ns)
    /\ outcome (DenseNet3D._build_graph net) = Ok tt
    /\ last ns (Op variables_initializer) = Op train_saver.
Proof.
  eexists. eexists. split; [vm_compute; reflexivity|].
  destruct (constructor_node_order (DenseNet3D.example_args 13 3 false) _ _
              eq_refl) as (_ & _ & Hb & _).
  split; [exact Hb|reflexivity].
Defined.

(** ** Further properties of the training loop *)

Section TrainingEdges.

Import DenseNet3D Train Journal.
Context {R : Runtime}.

Variable self : self_t.

Lemma keeps_ret {A X} (f : world -> X) (a : A) : keeps f (Train.ret a).
Proof. intros w. reflexivity. Qed.

Lemma keeps_lift {A X} (f : world -> X) (r : result A) : keeps f (Train.lift r).
Proof. intros w. reflexivity. Qed.

Lemma keeps_get {X} (f : world -> X) : keeps f get.
Proof. intros w. reflexivity. Qed.

Lemma keeps_modify {X} (f : world -> X) (g : world -> world) :
  (forall w, f (g w) = f w) -> keeps f (modify g).
Proof. intros H w. apply H. Qed.

Lemma keeps_bind {A B X} (f : world -> X) (m : T A) (k : A -> T B) :
  keeps f m -> (forall a, keeps f (k a)) -> keeps f (Train.bind m k).
Proof.
  intros Hm Hk w. unfold Train.bind. specialize (Hm w).
  destruct (m w) as [[a|e] w1]; cbn [snd] in *.
  - rewrite (Hk a w1). exact Hm.
  - exact Hm.
Qed.

Lemma keeps_for_acc {A B X} (f : world -> X) (l : list A)
    (body : A -> B -> T B) (acc : B) :
  (forall x b, keeps f (body x b)) -> keeps f (for_acc l body acc).
Proof.
  intros H. revert acc. induction l as [|x l IH]; intros acc.
  - apply keeps_ret.
  - cbn [for_acc]. apply keeps_bind; [apply H|apply IH].
Qed.

Lemma keeps_for_each {A X} (f : world -> X) (l : list A) (body : A -> T unit) :
  (forall x, keeps f (body x)) -> keeps f (for_each l body).
Proof.
  intros H. induction l as [|x l IH].
  - apply keeps_ret.
  - cbn [for_each]. apply keeps_bind; [apply H|intros _; apply IH].
Qed.

(** One step through a computation of the training loop. *)
Ltac keeps_step :=
  match goal with
  | |- keeps _ (Train.bind _ _) => apply keeps_bind; [|intros ?]
  | |- keeps _ (Train.ret _) => apply keeps_ret
  | |- keeps _ (Train.lift _) => apply keeps_lift
  | |- keeps _ get => apply keeps_get
  | |- keeps _ (for_each _ _) => apply keeps_for_each; intros ?
  | |- keeps _ (for_acc _ _ _) => apply keeps_for_acc; intros ? ?
  | |- keeps _ (print _) => apply keeps_modify; intros ?; reflexivity
  | |- keeps _ (modify _) => apply keeps_modify; intros ?; reflexivity
  | |- keeps _ (if ?b then _ else _) => destruct b eqn:?; try congruence
  | |- keeps _ (match ?x with _ => _ end) => destruct x eqn:?; try congruence
  end.

Ltac keeps_all :=
  unfold train_all_epochs, load_model, restore, train_epoch,
    epoch_learning_rate, train_one_epoch, train_one_batch, test,
    test_one_batch, take_batch, log_loss_accuracy, save_model;
  repeat keeps_step.

(** X6.  Without a true ['validation_set'] entry in the training
    parameters, [train_all_epochs] never reads the validation split: its
    reading position is the same after the run, whether the run returns
    or raises. *)
Theorem validation_split_untouched (tp : train_params_t) (w : world) :
  validation_set tp <> Some true ->
  data_validation (snd (train_all_epochs self tp w)) = data_validation w.
Proof.
  intros H. revert w.
  change (keeps data_validation (train_all_epochs self tp)).
  keeps_all.
Qed.

(** X7.  With [should_save_model] false, [train_all_epochs] writes no
    checkpoint: the checkpoint state and the checkpoint files are the same
    after the run, whether the run returns or raises. *)
Theorem no_checkpoint_without_flag (tp : train_params_t) (w : world) :
  should_save_model self = false ->
  checkpoint_state (snd (train_all_epochs self tp w)) = checkpoint_state w
  /\ checkpoint_files (snd (train_all_epochs self tp w)) = checkpoint_files w.
Proof.
  intros H. split; revert w.
  - change (keeps checkpoint_state (train_all_epochs self tp)). keeps_all.
  - change (keeps checkpoint_files (train_all_epochs self tp)). keeps_all.
Qed.

(** X8.  With [should_save_logs] false, [train_all_epochs] hands nothing
    to the summary writer and does not count batches: the written
    summaries and [batches_step] are the same after the run, whether the
    run returns or raises. *)
Theorem no_summary_without_flag (tp : train_params_t) (w : world) :
  should_save_logs self = false ->
  summary_writer (snd (train_all_epochs self tp w)) = summary_writer w
  /\ batches_step (snd (train_all_epochs self tp w)) = batches_step w.
Proof.
  intros H. split; revert w.
  - change (keeps summary_writer (train_all_epochs self tp)). keeps_all.
  - change (keeps batches_step (train_all_epochs self tp)). keeps_all.
Qed.

Lemma per_batch_summaries_cons (first_step : Z) (v : float * float)
    (vs : list (float * float)) :
  per_batch_summaries first_step (v :: vs)
  = per_batch_summaries first_step [v]
    ++ per_batch_summaries (first_step + 1) vs.
Proof. destruct v. reflexivity. Qed.

(** One batch of [train_one_epoch], with what it logs. *)
Lemma train_one_batch_log (data : split_name) (batch_size : Z) (lr : float)
    (tl ta : list float) (w : world) :
  let b := fst (next_batch (data_of data w) batch_size) in
  let trained := run_train_step (sess w) b lr in
  exists w',
    train_one_batch self data batch_size lr (tl, ta) w
    = (Ok (tl ++ [fst (snd trained)], ta ++ [snd (snd trained)]), w')
    /\ sess w' = fst trained
    /\ data_of data w' = snd (next_batch (data_of data w) batch_size)
    /\ batches_step w'
       = (if should_save_logs self then batches_step w + 1 else batches_step w)
    /\ summary_writer w'
       = summary_writer w
         ++ (if should_save_logs self
             then per_batch_summaries (batches_step w + 1) [snd trained]
             else []).
Proof.
  intros b trained. unfold train_one_batch.
  rewrite (bind_run _ _ _ _ _ (take_batch_run data batch_size w)).
  unfold Train.bind at 1. unfold get at 1.
  replace (sess (set_data data (snd (next_batch (data_of data w) batch_size)) w))
    with (sess w) by (destruct data; reflexivity).
  fold b. fold trained. destruct trained as [p [loss accuracy]] eqn:Es.
  cbn [fst snd].
  destruct (should_save_logs self).
  - eexists. split; [reflexivity|]. cbn.
    split; [reflexivity|]. split; [destruct data; reflexivity|].
    split; reflexivity.
  - eexists. split; [reflexivity|]. cbn.
    split; [reflexivity|]. split; [destruct data; reflexivity|].
    split; [reflexivity|]. now rewrite List.app_nil_r.
Qed.

Lemma train_loop_log (data : split_name) (batch_size : Z) (lr : float)
    (l : list Z) (tl ta : list float) (w : world) :
  let drawn := draw_batches (data_of data w) batch_size (List.length l) in
  let trained := train_steps (sess w) (fst drawn) lr in
  exists w',
    for_acc l (fun _ => train_one_batch self data batch_size lr) (tl, ta) w
    = (Ok (tl ++ map fst (snd trained), ta ++ map snd (snd trained)), w')
    /\ batches_step w'
       = (if should_save_logs self
          then batches_step w + Z.of_nat (List.length l)
          else batches_step w)
    /\ summary_writer w'
       = summary_writer w
         ++ (if should_save_logs self
             then per_batch_summaries (batches_step w + 1) (snd trained)
             else []).
Proof.
  revert tl ta w. induction l as [|i l IH]; intros tl ta w.
  - cbn. exists w. rewrite !List.app_nil_r.
    destruct (should_save_logs self); repeat split;
      rewrite ?List.app_nil_r; try reflexivity; lia.
  - cbn [List.length for_acc].
    destruct (train_one_batch_log data batch_size lr tl ta w)
      as (w1 & H1 & Hs & Hd & Hb & Hl).
    rewrite (bind_run _ _ _ _ _ H1).
    destruct (IH (tl ++ [fst (snd (run_train_step (sess w)
                                     (fst (next_batch (data_of data w) batch_size))
                                     lr))])
                 (ta ++ [snd (snd (run_train_step (sess w)
                                     (fst (next_batch (data_of data w) batch_size))
                                     lr))]) w1)
      as (w2 & H2 & Hb2 & Hl2).
    exists w2. rewrite (draw_batches_succ batch_size). cbn [fst snd].
    rewrite train_steps_cons. cbn [fst snd map].
    rewrite Hs, Hd in H2, Hl2.
    rewrite H2, <- !app_assoc. cbn [app].
    split; [reflexivity|]. rewrite Hb2, Hl2, Hb, Hl.
    destruct (should_save_logs self).
    + split; [lia|]. rewrite <- app_assoc.
      now rewrite <- per_batch_summaries_cons.
    + split; [reflexivity|]. now rewrite !List.app_nil_r.
Qed.

(** X9.  With [should_save_logs] true, a training pass over [k] batches
    advances [batches_step] by [k] and writes, for every batch in turn, its
    loss and its accuracy under the tags [loss_per_batch] and
    [accuracy_per_batch] at the next step number: the numbering goes on
    from where the previous pass stopped.  With [should_save_logs] false it
    writes nothing and does not count. *)
Theorem train_one_epoch_logs_every_batch (data : split_name) (batch_size : Z)
    (lr : float) (w : world) :
  batch_size <> 0 ->
  let k := Z.to_nat (num_examples (data_of data w) / batch_size) in
  let drawn := draw_batches (data_of data w) batch_size k in
  let trained := train_steps (sess w) (fst drawn) lr in
  exists w',
    train_one_epoch self data batch_size lr w
    = (Ok (Np.mean (map fst (snd trained)), Np.mean (map snd (snd trained))),
       w')
    /\ batches_step w'
       = (if should_save_logs self then batches_step w + Z.of_nat k
          else batches_step w)
    /\ summary_writer w'
       = summary_writer w
         ++ (if should_save_logs self
             then per_batch_summaries (batches_step w + 1) (snd trained)
             else [])
    /\ List.length (snd trained) = k.
Proof.
  intros Hb k drawn trained.
  assert (Hrange : List.length
                     (range 0 (num_examples (data_of data w) / batch_size)) = k).
  { rewrite range_length. subst k. f_equal. lia. }
  unfold train_one_epoch. unfold Train.bind at 1. unfold get at 1.
  unfold floordiv. destruct (Z.eqb_spec batch_size 0) as [E|_]; [contradiction|].
  unfold Train.bind at 1. unfold lift at 1.
  destruct (train_loop_log data batch_size lr
              (range 0 (num_examples (data_of data w) / batch_size)) [] [] w)
    as (w' & Hloop & Hbs & Hl).
  rewrite (bind_run _ _ _ _ _ Hloop).
  rewrite Hrange in Hbs, Hl. exists w'.
  split; [unfold Train.ret; cbn [fst snd app]; rewrite Hrange; reflexivity|].
  split; [exact Hbs|]. split; [exact Hl|].
  subst trained drawn. clear.
  assert (Hlen : forall (bs : list batch) (ps : params),
             List.length (snd (train_steps ps bs lr)) = List.length bs).
  { induction bs as [|b bs IH]; intros ps; [reflexivity|].
    rewrite train_steps_cons. cbn [snd List.length]. now rewrite IH. }
  now rewrite Hlen, draw_batches_length.
Qed.

(** The learning rate of an epoch, with what is printed. *)
Lemma epoch_learning_rate_world (tp : train_params_t) (epoch : Z) (w : world) :
  exists msgs : list message,
    epoch_learning_rate tp epoch w
    = (Ok (scheduled_learning_rate tp epoch), set_stdout (stdout w ++ msgs) w)
    /\ epochs_run msgs = [].
Proof.
  unfold epoch_learning_rate, scheduled_learning_rate.
  destruct (Z.leb_spec (reduce_lr_epoch_1 tp) epoch);
    destruct (Z.ltb_spec epoch (reduce_lr_epoch_2 tp));
    destruct (Z.leb_spec (reduce_lr_epoch_2 tp) epoch);
    try lia; cbn [andb]; rewrite ?truediv_ten, ?truediv_hundred;
    first [ exists []; rewrite List.app_nil_r;
            split; [destruct w; reflexivity|reflexivity]
          | eexists [_]; split; reflexivity ].
Qed.

(** X10.  A batch size of 0 makes both passes raise [ZeroDivisionError]
    before anything is read or changed.  [train_all_epochs] then stops in
    its first epoch: after the header of that epoch (and the notice of a
    reduced learning rate) nothing but the console has changed, so no
    batch was drawn, no parameter updated and no checkpoint written. *)
Theorem zero_batch_size_stops_training (tp : train_params_t)
    (w w1 : world) (start_epoch : Z) :
  batch_size tp = 0 ->
  load_model self w = (Ok start_epoch, w1) ->
  start_epoch <= n_epochs tp ->
  (forall data lr w0,
      train_one_epoch self data 0 lr w0 = (Raise ZeroDivisionError, w0)
      /\ test self data 0 w0 = (Raise ZeroDivisionError, w0))
  /\ exists out : list message,
       train_all_epochs self tp w
       = (Raise ZeroDivisionError, set_stdout out w1)
       /\ epochs_run out = epochs_run (stdout w) ++ [start_epoch].
Proof.
  intros Hb Hload Hle. split; [intros data lr w0; split; reflexivity|].
  assert (Hepoch : exists out : list message,
             train_epoch self tp start_epoch w1
             = (Raise ZeroDivisionError, set_stdout out w1)
             /\ epochs_run out = epochs_run (stdout w1) ++ [start_epoch]).
  { unfold train_epoch.
    rewrite (bind_run _ _ _ _ _ (print_run (Msg_train_epoch start_epoch) w1)).
    destruct (epoch_learning_rate_world tp start_epoch
                (set_stdout (stdout w1 ++ [Msg_train_epoch start_epoch]) w1))
      as (msgs & Hlr & Hmsgs).
    rewrite (bind_run _ _ _ _ _ Hlr).
    match goal with
    | |- context [Train.bind (print Msg_training) ?k ?w0] =>
        rewrite (bind_run _ k _ _ _ (print_run Msg_training w0))
    end.
    rewrite Hb. cbn [stdout set_stdout].
    eexists. split; [reflexivity|].
    rewrite !epochs_run_app, Hmsgs. cbn. now rewrite !List.app_nil_r. }
  destruct Hepoch as (out & Hepoch & Hout). exists out.
  split; [|now rewrite Hout, (load_model_headers _ _ _ _ Hload)].
  unfold train_all_epochs. rewrite (bind_run _ _ _ _ _ Hload).
  rewrite range_cons by lia. cbn [for_each].
  now rewrite (bind_raise _ _ _ _ _ (bind_raise _ _ _ _ _ Hepoch)).
Qed.

(** Loading when the save directory names the checkpoint of epoch [e] as
    its latest and the file holds the parameters [p]. *)
Lemma load_model_found (e : Z) (p : params) (w : world) :
  0 <= e ->
  lookup (fst (save_path self)) (checkpoint_state w)
  = Some (snd (save_path self) ++ "-" ++ str e)%string ->
  lookup (snd (save_path self) ++ "-" ++ str e)%string (checkpoint_files w)
  = Some p ->
  load_model self w
  = (Ok (e + 1),
     set_stdout (stdout w ++ [Msg_loaded (fst (save_path self)) (e + 1)])
       (set_sess p w)).
Proof.
  intros He Hst Hfs. unfold load_model. unfold Train.bind at 1.
  unfold get at 1. rewrite Hst.
  rewrite checkpoint_name_not_empty. cbn [negb].
  unfold restore. unfold Train.bind at 1 2. unfold get at 1.
  rewrite Hfs.
  cbn [modify]. rewrite (checkpoint_name_epoch self e He).
  unfold Train.bind at 1. unfold Train.lift at 1.
  rewrite (int_of_str_str e He). reflexivity.
Qed.

(** Loading the most recent checkpoint, written for epoch [e]. *)
Lemma load_model_latest (e : Z) (p : params) (w : world)
    (st : list (string * string)) (fs : list (string * params)) :
  0 <= e ->
  checkpoint_state w
  = (fst (save_path self), (snd (save_path self) ++ "-" ++ str e)%string) :: st ->
  checkpoint_files w
  = ((snd (save_path self) ++ "-" ++ str e)%string, p) :: fs ->
  load_model self w
  = (Ok (e + 1),
     set_stdout (stdout w ++ [Msg_loaded (fst (save_path self)) (e + 1)])
       (set_sess p w)).
Proof.
  intros He Hst Hfs.
  apply load_model_found; [assumption| |]; rewrite ?Hst, ?Hfs;
    apply lookup_head.
Qed.

Lemma set_sess_same (w : world) : set_sess (sess w) w = w.
Proof. destruct w; reflexivity. Qed.

Lemma print_total_after (w : world) (msg : message) :
  print Msg_total_time (set_stdout (stdout w ++ [msg]) w)
  = (Ok tt, set_stdout (stdout w ++ [msg; Msg_total_time]) w).
Proof.
  rewrite print_run. f_equal. cbn [stdout set_stdout].
  rewrite <- app_assoc. reflexivity.
Qed.

(** X11.  Resuming a run that is already complete trains nothing, with
    any batch size and whatever the session holds: when the save directory
    names the checkpoint of an epoch [e >= n_epochs] as its latest, the
    file holds the parameters [p] and the total time can be printed,
    [train_all_epochs] puts [p] into the session, prints that it loaded
    the model and the total time, and changes nothing else. *)
Theorem complete_run_trains_nothing (tp : train_params_t) (w : world) (e : Z)
    (p : params) :
  0 <= e -> n_epochs tp <= e ->
  lookup (fst (save_path self)) (checkpoint_state w)
  = Some (snd (save_path self) ++ "-" ++ str e)%string ->
  lookup (snd (save_path self) ++ "-" ++ str e)%string (checkpoint_files w)
  = Some p ->
  timedelta_of_float total_seconds = Ok tt ->
  train_all_epochs self tp w
  = (Ok tt,
     set_stdout
       (stdout w ++ [Msg_loaded (fst (save_path self)) (e + 1); Msg_total_time])
       (set_sess p w)).
Proof.
  intros He Hn Hst Hfs Htotal. unfold train_all_epochs.
  rewrite (bind_run _ _ _ _ _ (load_model_found e p w He Hst Hfs)).
  rewrite range_empty by lia. cbn [for_each]. rewrite Htotal.
  unfold Train.bind, Train.ret, Train.lift.
  change (stdout w) with (stdout (set_sess p w)).
  apply print_total_after.
Qed.

(** X12.  A checkpoint saved without a step cannot be resumed from:
    [save_model()] names the file [model.chkpt], so [load_model] restores
    it and then fails with [ValueError] on [int('model.chkpt')], and
    [train_all_epochs] fails in the same way before its first epoch. *)
Theorem checkpoint_without_step_is_not_resumable (tp : train_params_t)
    (w : world) :
  let saved := snd (save_model self None w) in
  load_model self saved = (Raise ValueError, saved)
  /\ train_all_epochs self tp saved = (Raise ValueError, saved).
Proof.
  intros saved.
  assert (Hload : load_model self saved = (Raise ValueError, saved)).
  { unfold load_model. unfold Train.bind at 1. unfold get at 1.
    subst saved. cbn [save_model modify snd].
    cbn [checkpoint_state set_checkpoints]. rewrite lookup_head.
    assert (Hne : String.eqb (snd (save_path self)) "" = false) by reflexivity.
    rewrite Hne. cbn [negb].
    unfold restore. unfold Train.bind at 1 2. unfold get at 1.
    cbn [checkpoint_files set_checkpoints]. rewrite lookup_head.
    cbn [modify].
    assert (Hname : last_item (split "/" (snd (save_path self)))
                    = "model.chkpt").
    { unfold save_path. cbn [snd].
      change ("saves/" ++ model_identifier self ++ "/model.chkpt")%string
        with (("saves/" ++ model_identifier self)
              ++ String "/" "model.chkpt")%string.
      now apply last_item_after_sep. }
    rewrite Hname. unfold Train.bind at 1. unfold Train.lift at 1.
    cbn. destruct w; reflexivity. }
  split; [exact Hload|].
  unfold train_all_epochs. now rewrite (bind_raise _ _ _ _ _ Hload).
Qed.

(** X13.  When the checkpoint state of the save directory names a file
    that is not there, restoring fails: [load_model] raises, and
    [train_all_epochs] raises the same exception before its first epoch,
    with nothing printed and nothing changed. *)
Theorem missing_checkpoint_file_stops_training (tp : train_params_t)
    (w : world) (path : string) :
  lookup (fst (save_path self)) (checkpoint_state w) = Some path ->
  path <> "" ->
  lookup path (checkpoint_files w) = None ->
  exists e : exn,
    load_model self w = (Raise e, w)
    /\ train_all_epochs self tp w = (Raise e, w).
Proof.
  intros Hst Hne Hfs. exists NotFoundError.
  assert (Hload : load_model self w = (Raise NotFoundError, w)).
  { unfold load_model. unfold Train.bind at 1. unfold get at 1.
    rewrite Hst. destruct (String.eqb_spec path "") as [E|_]; [contradiction|].
    cbn [negb]. unfold restore. unfold Train.bind at 1 2. unfold get at 1.
    rewrite Hfs. reflexivity. }
  split; [exact Hload|].
  unfold train_all_epochs. now rewrite (bind_raise _ _ _ _ _ Hload).
Qed.

(** *** What a run executes *)

Lemma advances_ret {A} (a : A) :
  advances (Train.ret a) (fun s => s) (fun _ => True).
Proof. intros w. exists a, w. repeat split. Qed.

Lemma advances_lift_ok {A} (a : A) :
  advances (Train.lift (Ok a)) (fun s => s) (fun _ => True).
Proof. intros w. exists a, w. repeat split. Qed.

Lemma advances_bind {A B} (m : T A) (k : A -> T B)
    (f g : progress -> progress) (Q : A -> Prop) (Q' : B -> Prop) :
  advances m f Q -> (forall a, Q a -> advances (k a) g Q') ->
  advances (Train.bind m k) (fun s => g (f s)) Q'.
Proof.
  intros Hm Hk w. destruct (Hm w) as (a & w1 & H1 & Ha & P1 & E1).
  destruct (Hk a Ha w1) as (b & w2 & H2 & Hb & P2 & E2).
  exists b, w2. rewrite (bind_run _ _ _ _ _ H1).
  split; [assumption|]. split; [assumption|]. split; congruence.
Qed.

Lemma advances_print (msg : message) :
  epochs_run [msg] = [] ->
  advances (print msg) (fun s => s) (fun _ => True).
Proof.
  intros H w. exists tt, (set_stdout (stdout w ++ [msg]) w).
  split; [reflexivity|]. split; [exact I|]. split; [reflexivity|].
  cbn [stdout set_stdout]. now rewrite epochs_run_app, H, List.app_nil_r.
Qed.

Lemma advances_log_loss_accuracy (loss accuracy : float) (epoch : Z)
    (prefix : string) :
  advances (log_loss_accuracy self loss accuracy epoch prefix true)
    (fun s => s) (fun _ => True).
Proof.
  intros w. unfold log_loss_accuracy.
  rewrite (bind_run _ _ _ _ _ (print_run _ w)).
  eexists tt, _. split; [reflexivity|]. split; [exact I|].
  split; [reflexivity|]. cbn [stdout set_stdout set_summary_writer].
  now rewrite epochs_run_app, List.app_nil_r.
Qed.

Lemma advances_epoch_learning_rate (tp : train_params_t) (epoch : Z) :
  advances (epoch_learning_rate tp epoch) (fun s => s)
    (fun lr => lr = scheduled_learning_rate tp epoch).
Proof.
  intros w. destruct (epoch_learning_rate_world tp epoch w) as (msgs & H & E).
  eexists _, _. split; [exact H|]. split; [reflexivity|].
  split; [reflexivity|]. cbn [stdout set_stdout].
  now rewrite epochs_run_app, E, List.app_nil_r.
Qed.

(** A pass over the training split leaves the validation split alone. *)
Lemma train_one_epoch_keeps_validation (batch_size : Z) (lr : float) :
  keeps data_validation (train_one_epoch self train batch_size lr).
Proof.
  unfold train_one_epoch, train_one_batch, take_batch, log_loss_accuracy.
  repeat keeps_step.
Qed.

Lemma advances_train_one_epoch (batch_size : Z) (lr : float) :
  batch_size <> 0 ->
  advances (train_one_epoch self train batch_size lr)
    (train_pass batch_size lr) (fun _ => True).
Proof.
  intros Hb w.
  destruct (train_one_epoch_run self train batch_size lr w Hb)
    as (w' & H & Hs & Hd & Hq & Hst & Hfs).
  pose proof (train_one_epoch_keeps_validation batch_size lr w) as Hv.
  rewrite H in Hv. cbn [snd] in Hv. cbn [data_of] in Hd.
  eexists _, w'. split; [exact H|]. split; [exact I|].
  split; [|now rewrite Hq].
  unfold progress_of, train_pass, pass_batches. cbn [trained train_at valid_at
    saved_state saved_files]. now rewrite Hs, Hd, Hv, Hst, Hfs.
Qed.

Lemma advances_test (batch_size : Z) :
  batch_size <> 0 ->
  advances (test self validation batch_size) (validation_pass batch_size)
    (fun _ => True).
Proof.
  intros Hb w. eexists _, _.
  split; [exact (test_run self validation batch_size w Hb)|].
  repeat split.
Qed.

Lemma advances_save_model (epoch : Z) :
  advances (save_model self (Some epoch)) (checkpoint self epoch)
    (fun _ => True).
Proof. intros w. eexists tt, _. repeat split. Qed.

(** The evaluation of an epoch, when it is asked for. *)
Lemma advances_validation (tp : train_params_t) (epoch : Z) :
  batch_size tp <> 0 ->
  advances
    (match validation_set tp with
     | Some true =>
         Train.bind (print Msg_validation)
           (fun _ =>
              Train.bind (test self validation (batch_size tp))
                (fun res =>
                   if should_save_logs self then
                     log_loss_accuracy self (fst res) (snd res) epoch "valid"
                       true
                   else Train.ret tt))
     | _ => Train.ret tt
     end)
    (fun s =>
       match validation_set tp with
       | Some true => validation_pass (batch_size tp) s
       | _ => s
       end)
    (fun _ => True).
Proof.
  intros Hb. destruct (validation_set tp) as [[|]|]; try apply advances_ret.
  apply (advances_bind _ _ (fun s => s) _ _ _
           (advances_print Msg_validation eq_refl)).
  intros _ _.
  apply (advances_bind _ _ _ (fun s => s) _ _ (advances_test _ Hb)).
  intros res _.
  destruct (should_save_logs self);
    [apply advances_log_loss_accuracy|apply advances_ret].
Qed.

(** One epoch of the loop: it goes through, prints its header once, and
    trains, evaluates and saves as [epoch_effect] says. *)
Lemma train_epoch_effect (tp : train_params_t) (epoch : Z) (w : world) :
  batch_size tp <> 0 ->
  time_report (n_epochs tp) epoch (epoch_seconds epoch) = Ok tt ->
  exists w',
    train_epoch self tp epoch w = (Ok tt, w')
    /\ progress_of w' = epoch_effect self tp epoch (progress_of w)
    /\ epochs_run (stdout w') = epochs_run (stdout w) ++ [epoch].
Proof.
  intros Hb Htime. unfold train_epoch. rewrite Htime.
  rewrite (bind_run _ _ _ _ _ (print_run (Msg_train_epoch epoch) w)).
  match goal with
  | |- exists w', ?m ?w0 = _ /\ _ =>
      assert (Hs : advances m (epoch_effect self tp epoch) (fun _ => True))
  end.
  { apply (advances_bind _ _ (fun s => s) _ _ _
             (advances_epoch_learning_rate tp epoch)).
    intros lr ->.
    apply (advances_bind _ _ (fun s => s) _ _ _
             (advances_print Msg_training eq_refl)).
    intros _ _.
    apply (advances_bind _ _ _
             (fun s =>
                let s :=
                  match validation_set tp with
                  | Some true => validation_pass (batch_size tp) s
                  | _ => s
                  end in
                if should_save_model self then checkpoint self epoch s else s)
             _ _ (advances_train_one_epoch _ _ Hb)).
    intros res _.
    apply (advances_bind _ _ (fun s => s) _ (fun _ => True)).
    { destruct (should_save_logs self);
        [apply advances_log_loss_accuracy|apply advances_ret]. }
    intros _ _.
    apply (advances_bind _ _ _
             (fun s =>
                if should_save_model self then checkpoint self epoch s else s)
             _ _ (advances_validation tp epoch Hb)).
    intros _ _.
    apply (advances_bind _ _ (fun s => s) _ _ _ (advances_lift_ok tt)).
    intros _ _.
    apply (advances_bind _ _ (fun s => s) _ _ _
             (advances_print Msg_time_per_epoch eq_refl)).
    intros _ _.
    destruct (should_save_model self);
      [apply advances_save_model|apply advances_ret]. }
  destruct (Hs (set_stdout (stdout w ++ [Msg_train_epoch epoch]) w))
    as ([] & w' & H & _ & P & E).
  exists w'. split; [exact H|]. split; [exact P|].
  rewrite E. cbn [stdout set_stdout]. now rewrite epochs_run_app.
Qed.

(** The loop over a list of epochs. *)
Lemma epoch_loop_effect (tp : train_params_t) (l : list Z) (w : world) :
  batch_size tp <> 0 ->
  (forall e, In e l ->
             time_report (n_epochs tp) e (epoch_seconds e) = Ok tt) ->
  exists w',
    for_each l (train_epoch self tp) w = (Ok tt, w')
    /\ progress_of w' = epochs_effect self tp l (progress_of w)
    /\ epochs_run (stdout w') = epochs_run (stdout w) ++ l.
Proof.
  intros Hb. revert w. induction l as [|e l IH]; intros w Htime.
  - exists w. split; [reflexivity|]. split; [reflexivity|].
    now rewrite List.app_nil_r.
  - cbn [for_each].
    destruct (train_epoch_effect tp e w Hb (Htime e (or_introl eq_refl)))
      as (w1 & H1 & P1 & E1).
    rewrite (bind_run _ _ _ _ _ H1).
    destruct (IH w1 (fun e' H' => Htime e' (or_intror H')))
      as (w2 & H2 & P2 & E2).
    exists w2. split; [exact H2|]. split.
    + rewrite P2, P1. reflexivity.
    + rewrite E2, E1, <- app_assoc. reflexivity.
Qed.

(** C6.  The loop over epochs starts at the result of [load_model]:
    with no checkpoint state in the save directory (or one that names no
    file) that is 1, the notice "Training from scratch" is printed and
    nothing fails or changes; when the save directory names the checkpoint
    of epoch [e] as its latest, it is [e + 1] and the parameters of that
    file are put into the session, whatever it held.  With a non-zero
    batch size, and when the time reports can be printed, the run then
    executes the epochs [start .. n_epochs], each once and in order, and
    no other epoch: the parameters, the reading positions of both splits
    and the checkpoints it ends with are those that training, evaluating
    and saving these epochs in turn give, and the headers printed are
    theirs.  In particular nothing is trained, evaluated or saved when
    [start > n_epochs]. *)
Theorem resume_from_checkpoint (tp : train_params_t) (w : world) :
  (lookup (fst (save_path self)) (checkpoint_state w) = None
   \/ lookup (fst (save_path self)) (checkpoint_state w) = Some "" ->
   load_model self w
   = (Ok 1, set_stdout (stdout w ++ [Msg_training_from_scratch]) w))
  /\ (forall (e : Z) (p : params),
         0 <= e ->
         lookup (fst (save_path self)) (checkpoint_state w)
         = Some (snd (save_path self) ++ "-" ++ str e)%string ->
         lookup (snd (save_path self) ++ "-" ++ str e)%string
           (checkpoint_files w)
         = Some p ->
         load_model self w
         = (Ok (e + 1),
            set_stdout
              (stdout w ++ [Msg_loaded (fst (save_path self)) (e + 1)])
              (set_sess p w)))
  /\ (forall (start_epoch : Z) (w1 : world),
         load_model self w = (Ok start_epoch, w1) ->
         batch_size tp <> 0 ->
         (forall e, start_epoch <= e <= n_epochs tp ->
                    time_report (n_epochs tp) e (epoch_seconds e) = Ok tt) ->
         timedelta_of_float total_seconds = Ok tt ->
         exists w',
           train_all_epochs self tp w = (Ok tt, w')
           /\ progress_of w'
              = epochs_effect self tp (range start_epoch (n_epochs tp + 1))
                  (progress_of w1)
           /\ epochs_run (stdout w')
              = epochs_run (stdout w) ++ range start_epoch (n_epochs tp + 1)
           /\ (forall e, In e (range start_epoch (n_epochs tp + 1)) <->
                         start_epoch <= e <= n_epochs tp)
           /\ (n_epochs tp < start_epoch -> progress_of w' = progress_of w1)).
Proof.
  split; [|split].
  - intros Hnone. unfold load_model. unfold Train.bind at 1. unfold get at 1.
    destruct Hnone as [Hnone|Hnone]; rewrite Hnone; reflexivity.
  - intros e p. apply load_model_found.
  - intros s w1 Hload Hb Htime Htotal. unfold train_all_epochs.
    rewrite (bind_run _ _ _ _ _ Hload).
    destruct (epoch_loop_effect tp (range s (n_epochs tp + 1)) w1 Hb)
      as (w2 & Hloop & P2 & E2).
    { intros e He. apply Htime. apply in_range in He. lia. }
    rewrite (bind_run _ _ _ _ _ Hloop). rewrite Htotal.
    exists (set_stdout (stdout w2 ++ [Msg_total_time]) w2).
    split; [reflexivity|]. split; [exact P2|]. split; [|split].
    + cbn [stdout set_stdout].
      rewrite epochs_run_app, E2, (load_model_headers _ _ _ _ Hload).
      apply List.app_nil_r.
    + intros e. rewrite in_range. lia.
    + intros Hlt. change (progress_of (set_stdout (stdout w2 ++ [Msg_total_time]) w2))
        with (progress_of w2).
      rewrite P2, range_empty by lia. reflexivity.
Qed.

Lemma steady_succeeds {A} (m : T A) : steady m -> succeeds m.
Proof.
  intros H w. destruct (H w) as (a & w' & Hm & _). now exists a, w'.
Qed.

Lemma ends_with_save_bind {A} (e : Z) (m : T A) (k : A -> T unit) :
  succeeds m -> (forall a, ends_with_save self e (k a)) ->
  ends_with_save self e (Train.bind m k).
Proof.
  intros Hm Hk w. destruct (Hm w) as (a & w1 & H1).
  rewrite (bind_run _ _ _ _ _ H1). apply Hk.
Qed.

(** With [should_save_model], an epoch ends by writing its checkpoint. *)
Lemma train_epoch_saves (tp : train_params_t) (epoch : Z) :
  should_save_model self = true -> batch_size tp <> 0 ->
  time_report (n_epochs tp) epoch (epoch_seconds epoch) = Ok tt ->
  ends_with_save self epoch (train_epoch self tp epoch).
Proof.
  intros Hsave Hb Htime. unfold train_epoch. rewrite Hsave, Htime.
  apply ends_with_save_bind.
  { intros w. eexists _, _. apply print_run. }
  intros _. apply ends_with_save_bind.
  { apply steady_succeeds, steady_epoch_learning_rate. }
  intros lr. apply ends_with_save_bind.
  { intros w. eexists _, _. apply print_run. }
  intros _. apply ends_with_save_bind.
  { now apply steady_succeeds, steady_train_one_epoch. }
  intros res. apply ends_with_save_bind.
  { apply steady_succeeds.
    destruct (should_save_logs self);
      [apply steady_log_loss_accuracy|apply steady_ret]. }
  intros _. apply ends_with_save_bind.
  { apply steady_succeeds.
    destruct (validation_set tp) as [[|]|]; try apply steady_ret.
    apply steady_bind; [now apply steady_print|]. intros _.
    apply steady_bind; [now apply steady_test|]. intros res'.
    destruct (should_save_logs self);
      [apply steady_log_loss_accuracy|apply steady_ret]. }
  intros _. apply ends_with_save_bind.
  { apply steady_succeeds, steady_lift_ok. }
  intros _. apply ends_with_save_bind.
  { intros w. eexists _, _. apply print_run. }
  intros _ w. now exists w.
Qed.

Lemma for_each_app {A} (l1 l2 : list A) (body : A -> T unit) (w : world) :
  for_each (l1 ++ l2) body w
  = Train.bind (for_each l1 body) (fun _ => for_each l2 body) w.
Proof.
  revert w. induction l1 as [|x l1 IH]; intros w; [reflexivity|].
  cbn [app for_each]. unfold Train.bind.
  destruct (body x w) as [[[]|e] w1]; [|reflexivity].
  rewrite IH. reflexivity.
Qed.

(** X14.  With [should_save_model] and a non-zero batch size, a run of
    [train_all_epochs] that has an epoch to train and whose time reports
    can be printed ends with the checkpoint of epoch [n_epochs] on disk,
    holding the final parameters.  Calling [load_model] afterwards gives
    [n_epochs + 1] and leaves the parameters as they are, so a second
    [train_all_epochs] trains nothing. *)
Theorem trained_run_is_resumable (tp : train_params_t) (w w1 : world)
    (start_epoch : Z) :
  should_save_model self = true ->
  batch_size tp <> 0 ->
  load_model self w = (Ok start_epoch, w1) ->
  start_epoch <= n_epochs tp ->
  0 <= n_epochs tp ->
  (forall e, start_epoch <= e <= n_epochs tp ->
             time_report (n_epochs tp) e (epoch_seconds e) = Ok tt) ->
  timedelta_of_float total_seconds = Ok tt ->
  exists w',
    train_all_epochs self tp w = (Ok tt, w')
    /\ lookup (snd (save_path self) ++ "-" ++ str (n_epochs tp))%string
         (checkpoint_files w') = Some (sess w')
    /\ load_model self w'
       = (Ok (n_epochs tp + 1),
          set_stdout
            (stdout w'
             ++ [Msg_loaded (fst (save_path self)) (n_epochs tp + 1)]) w')
    /\ train_all_epochs self tp w'
       = (Ok tt,
          set_stdout
            (stdout w'
             ++ [Msg_loaded (fst (save_path self)) (n_epochs tp + 1);
                 Msg_total_time]) w').
Proof.
  intros Hsave Hb Hload Hle Hn Htime Htotal. unfold train_all_epochs at 1.
  rewrite (bind_run _ _ _ _ _ Hload).
  rewrite (range_snoc start_epoch (n_epochs tp) Hle).
  destruct (epoch_loop_effect tp (range start_epoch (n_epochs tp)) w1 Hb)
    as (w2 & Hloop & _).
  { intros e He. apply Htime. apply in_range in He. lia. }
  destruct (train_epoch_saves tp (n_epochs tp) Hsave Hb
              (Htime (n_epochs tp) ltac:(lia)) w2) as (w3 & Hlast).
  assert (Hrun : for_each (range start_epoch (n_epochs tp) ++ [n_epochs tp])
                   (train_epoch self tp) w1
                 = (Ok tt, snd (save_model self (Some (n_epochs tp)) w3))).
  { rewrite for_each_app, (bind_run _ _ _ _ _ Hloop). cbn [for_each].
    now rewrite (bind_run _ _ _ _ _ Hlast). }
  rewrite (bind_run _ _ _ _ _ Hrun), Htotal.
  unfold Train.bind at 1. unfold Train.lift at 1. rewrite print_run.
  set (w' := set_stdout _ _).
  assert (Hload' : load_model self w'
                   = (Ok (n_epochs tp + 1),
                      set_stdout
                        (stdout w'
                         ++ [Msg_loaded (fst (save_path self)) (n_epochs tp + 1)])
                        w')).
  { rewrite <- (set_sess_same w') at 3.
    apply (load_model_latest (n_epochs tp) (sess w') w'
             (checkpoint_state w3) (checkpoint_files w3) Hn); reflexivity. }
  exists w'. split; [reflexivity|].
  split; [subst w'; cbn [checkpoint_files set_stdout save_model modify snd
                           set_checkpoints sess]; apply lookup_head|].
  split; [exact Hload'|].
  unfold train_all_epochs. rewrite (bind_run _ _ _ _ _ Hload').
  rewrite range_empty by lia. cbn [for_each]. rewrite Htotal.
  unfold Train.bind, Train.ret, Train.lift. apply print_total_after.
Qed.

End TrainingEdges.

Lemma validation_split_untouched_witness :
  Train.data_validation
    (snd (Train.train_all_epochs (R := Toy.runtime) Toy.net0
            (Samples.params_train_only 2 4) (Toy.world0 10 3)))
  = Train.data_validation (Toy.world0 10 3).
Proof.
  apply (validation_split_untouched (R := Toy.runtime) Toy.net0
           (Samples.params_train_only 2 4) (Toy.world0 10 3)).
  discriminate.
Defined.

Lemma no_checkpoint_without_flag_witness :
  Train.checkpoint_files
    (snd (Train.train_all_epochs (R := Toy.runtime) Samples.net_quiet
            (Toy.params0 2 5 7 4) (Toy.world0 10 3)))
  = [].
Proof.
  destruct (no_checkpoint_without_flag (R := Toy.runtime) Samples.net_quiet
              (Toy.params0 2 5 7 4) (Toy.world0 10 3) eq_refl) as [_ H].
  exact H.
Defined.

Lemma no_summary_without_flag_witness :
  Train.summary_writer
    (snd (Train.train_all_epochs (R := Toy.runtime) Samples.net_quiet
            (Toy.params0 2 5 7 4) (Toy.world0 10 3)))
  = []
  /\ Train.batches_step
       (snd (Train.train_all_epochs (R := Toy.runtime) Samples.net_quiet
               (Toy.params0 2 5 7 4) (Toy.world0 10 3)))
     = 0.
Proof.
  exact (no_summary_without_flag (R := Toy.runtime) Samples.net_quiet
           (Toy.params0 2 5 7 4) (Toy.world0 10 3) eq_refl).
Defined.

Lemma train_one_epoch_logs_every_batch_witness :
  exists w' : Train.world (R := Toy.runtime),
    snd (Train.train_one_epoch (R := Toy.runtime) Toy.net0 Train.train 4
           Toy.tenth (Toy.world0 10 3)) = w'
    /\ Train.batches_step w' = 2
    /\ map Train.step (Train.summary_writer w') = [1; 1; 2; 2].
Proof.
  destruct (train_one_epoch_logs_every_batch (R := Toy.runtime) Toy.net0
              Train.train 4 Toy.tenth (Toy.world0 10 3))
    as (w' & H & Hb & Hl & _); [discriminate|].
  exists w'. split; [now rewrite H|]. split; [exact Hb|].
  rewrite Hl. reflexivity.
Defined.

Lemma zero_batch_size_stops_training_witness :
  fst (Train.train_all_epochs (R := Toy.runtime) Toy.net0
         (Toy.params0 5 2 3 0) (Toy.world0 10 3))
  = Raise ZeroDivisionError.
Proof.
  destruct (zero_batch_size_stops_training (R := Toy.runtime) Toy.net0
              (Toy.params0 5 2 3 0) (Toy.world0 10 3)
              (Train.set_stdout [Train.Msg_training_from_scratch]
                 (Toy.world0 10 3)) 1 eq_refl eq_refl)
    as (_ & out & H & _); [cbn; lia|].
  now rewrite H.
Defined.

Lemma complete_run_trains_nothing_witness :
  exists w' : Train.world (R := Toy.runtime),
    Train.train_all_epochs (R := Toy.runtime) Toy.net0 (Toy.params0 5 2 3 0)
      (Samples.world_saved 10 3 5 [(0, 4)])
    = (Ok tt, w')
    /\ Train.sess w' = [(0, 4)]
    /\ Train.data_train w' = (10, 0)
    /\ List.length (Train.stdout w') = 2%nat.
Proof.
  eexists. split.
  - apply (complete_run_trains_nothing (R := Toy.runtime) Toy.net0
             (Toy.params0 5 2 3 0) (Samples.world_saved 10 3 5 [(0, 4)]) 5
             [(0, 4)]);
      [lia | cbn; lia | reflexivity | reflexivity | reflexivity].
  - repeat split.
Defined.

Lemma resume_from_checkpoint_witness :
  Train.load_model (R := Toy.runtime) Toy.net0 (Toy.world0 10 9)
  = (Ok 1,
     Train.set_stdout [Train.Msg_training_from_scratch] (Toy.world0 10 9))
  /\ (exists w1 : Train.world (R := Toy.runtime),
         Train.load_model (R := Toy.runtime) Toy.net0
           (Samples.world_saved 10 9 3 [(0, 4)])
         = (Ok 4, w1)
         /\ Train.sess w1 = [(0, 4)])
  /\ exists w' : Train.world (R := Toy.runtime),
       Train.train_all_epochs (R := Toy.runtime) Toy.net0 (Toy.params0 5 2 3 4)
         (Samples.world_saved 10 9 3 [(0, 4)])
       = (Ok tt, w')
       /\ Train.epochs_run (Train.stdout w') = [4; 5]
       /\ Train.sess w' = [(12, 4); (8, 4); (4, 4); (0, 4); (0, 4)]
       /\ Train.data_train w' = (10, 16)
       /\ Train.data_validation w' = (9, 16)
       /\ map snd (Train.checkpoint_files w')
          = [[(12, 4); (8, 4); (4, 4); (0, 4); (0, 4)];
             [(4, 4); (0, 4); (0, 4)];
             [(0, 4)]].
Proof.
  destruct (resume_from_checkpoint (R := Toy.runtime) Toy.net0
              (Toy.params0 5 2 3 4) (Toy.world0 10 9)) as (H1 & _ & _).
  destruct (resume_from_checkpoint (R := Toy.runtime) Toy.net0
              (Toy.params0 5 2 3 4) (Samples.world_saved 10 9 3 [(0, 4)]))
    as (_ & H2 & H3).
  split; [apply H1; left; reflexivity|].
  pose proof (H2 3 ([(0, 4)] : @params Toy.runtime) ltac:(lia)
                ltac:(reflexivity) ltac:(reflexivity)) as Hload.
  split; [eexists; split; [exact Hload|reflexivity]|].
  destruct (H3 4 _ Hload ltac:(discriminate))
    as (w' & Hrun & Hp & Hep & _);
    [intros e He; cbn in He;
     assert (E : e = 4 \/ e = 5) by lia; destruct E; subst e; reflexivity
    | reflexivity |].
  exists w'. split; [exact Hrun|]. split; [rewrite Hep; reflexivity|].
  pose proof (f_equal Train.trained Hp) as Hs.
  pose proof (f_equal Train.train_at Hp) as Ht.
  pose proof (f_equal Train.valid_at Hp) as Hv.
  pose proof (f_equal Train.saved_files Hp) as Hf.
  cbn [Train.progress_of Train.trained Train.train_at Train.valid_at
         Train.saved_files] in Hs, Ht, Hv, Hf.
  rewrite Hs, Ht, Hv, Hf. repeat split.
Defined.

Lemma missing_checkpoint_file_stops_training_witness :
  exists e : exn,
    Train.train_all_epochs (R := Toy.runtime) Toy.net0 (Toy.params0 5 2 3 4)
      Samples.world_dangling
    = (Raise e, Samples.world_dangling).
Proof.
  destruct (missing_checkpoint_file_stops_training (R := Toy.runtime) Toy.net0
              (Toy.params0 5 2 3 4) Samples.world_dangling
              "saves/lost/model.chkpt-3")
    as (e & _ & H); [reflexivity|discriminate|reflexivity|].
  exists e. exact H.
Defined.

Lemma trained_run_is_resumable_witness :
  exists w' : Train.world (R := Toy.runtime),
    Train.train_all_epochs (R := Toy.runtime) Toy.net0 (Toy.params0 2 5 7 4)
      (Toy.world0 10 3) = (Ok tt, w')
    /\ fst (Train.load_model Toy.net0 w') = Ok 3.
Proof.
  destruct (trained_run_is_resumable (R := Toy.runtime) Toy.net0
              (Toy.params0 2 5 7 4) (Toy.world0 10 3)
              (Train.set_stdout [Train.Msg_training_from_scratch]
                 (Toy.world0 10 3)) 1 eq_refl)
    as (w' & H & _ & Hload & _);
    [discriminate | reflexivity | cbn; lia | cbn; lia
    | intros e He; cbn in He;
      assert (E : e = 1 \/ e = 2) by lia; destruct E; subst e; reflexivity
    | reflexivity |].
  exists w'. split; [exact H|]. now rewrite Hload.
Defined.

(** ** Optional arguments of [pool]; the save directory *)

Section PoolArguments.

Import DenseNet3D Layout Structure.
Local Open Scope graph_scope.

Variable self : self_t.

Lemma or_default_omit_zero (x : option Z) (dflt : Z) :
  or_default (omit_zero x) dflt = or_default x dflt.
Proof. destruct x as [[|p|p]|]; reflexivity. Qed.

Lemma or_default_not_zero (x : option Z) (dflt : Z) :
  dflt <> 0 -> or_default x dflt <> 0.
Proof.
  intros H. destruct x as [n|]; [|exact H]. unfold or_default, falsy.
  destruct (Z.eqb_spec n 0); assumption.
Qed.

(** X15.  In [pool] an optional argument given as 0 is treated as omitted
    ([not 0] is true), whatever string object the type is, so no call can
    ask for a zero stride or a zero window width through them: with [k]
    and [d] other than 0, every entry of the window and of the strides
    handed to the pooling primitive, which is called when the type is the
    literal ['avg'] or the literal ['max'], is non-zero. *)
Theorem pool_zero_argument_is_omitted (v : value) (k d : Z)
    (width_k k_stride d_stride k_stride_width : option Z) (type : str_obj) :
  pool self v k d width_k type k_stride d_stride k_stride_width
  = pool self v k d (omit_zero width_k) type (omit_zero k_stride)
      (omit_zero d_stride) (omit_zero k_stride_width)
  /\ (k <> 0 -> d <> 0 ->
      forall x : shape,
      exists ksize strides : list Z,
        Forall (fun z => z <> 0) (ksize ++ strides)
        /\ pool self (Some x) k d width_k (Interned "avg") k_stride d_stride
             k_stride_width
           = (pooled x ksize strides, [Op (nn_avg_pool3d x ksize strides SAME)])
        /\ pool self (Some x) k d width_k (Interned "max") k_stride d_stride
             k_stride_width
           = (pooled x ksize strides, [Op (nn_max_pool3d x ksize strides SAME)])).
Proof.
  split.
  - unfold pool. now rewrite !or_default_omit_zero.
  - intros Hk Hd x.
    exists [1; d; k; or_default width_k k; 1],
      [1; or_default d_stride d; or_default k_stride k;
       or_default k_stride_width (or_default k_stride k); 1].
    split; [|split; [apply pool_avg|apply pool_max]].
    cbn [app]. repeat constructor; try assumption; try discriminate;
      repeat apply or_default_not_zero; assumption.
Qed.

End PoolArguments.

Section SaveDirectory.

Import DenseNet3D Train.

(** A numeral in front of an underscore is determined by the whole. *)
Lemma numeral_prefix_inj (s s' r r' : string) :
  contains "_" s = false -> contains "_" s' = false ->
  (s ++ String "_" r)%string = (s' ++ String "_" r')%string ->
  s = s' /\ r = r'.
Proof.
  revert s'. induction s as [|c s IH]; intros [|c' s'] Hs Hs' H;
    cbn [String.append contains] in *.
  - inversion H. auto.
  - inversion H; subst c'. cbn in Hs'. discriminate.
  - inversion H; subst c. cbn in Hs. discriminate.
  - inversion H; subst c'.
    apply orb_false_iff in Hs as [_ Hs]. apply orb_false_iff in Hs' as [_ Hs'].
    destruct (IH s' Hs Hs' H2) as [-> ->]. auto.
Qed.

Lemma str_prefix_inj (n n' : Z) (r r' : string) :
  0 <= n -> 0 <= n' ->
  (str n ++ String "_" r)%string = (str n' ++ String "_" r')%string ->
  n = n' /\ r = r'.
Proof.
  intros Hn Hn' H.
  apply numeral_prefix_inj in H as [Hs Hr];
    [|now apply str_no_char|now apply str_no_char].
  split; [now apply str_inj_nonneg|assumption].
Qed.

(** X16.  Checkpoints and logs are filed under [model_identifier], which
    holds the model type, the growth rate, the depth, the dataset name and
    the number of blocks, and nothing else.  For two networks of the same
    model type on the same dataset (with non-negative growth rate, depth
    and block count) the save directory is the same exactly when these
    three numbers agree: networks that differ only in other settings
    (keep probability, reduction, number of classes, ...) share their
    checkpoint directory. *)
Theorem save_path_shared_iff (a b : self_t) :
  model_type a = model_type b ->
  dataset_name a = dataset_name b ->
  0 <= growth_rate a -> 0 <= growth_rate b ->
  0 <= depth a -> 0 <= depth b ->
  0 <= total_blocks a -> 0 <= total_blocks b ->
  (save_path a = save_path b
   <-> growth_rate a = growth_rate b /\ depth a = depth b
       /\ total_blocks a = total_blocks b).
Proof.
  intros Hm Hd Hga Hgb Hda Hdb Hta Htb. split.
  - intros H. apply (f_equal fst) in H. unfold save_path in H. cbn [fst] in H.
    apply append_inj_r in H. unfold model_identifier in H.
    rewrite Hm, Hd in H. apply append_inj_r in H.
    change ("_growth_rate=" ++ ?x)%string with ("_growth_rate=" ++ x)%string in H.
    apply (append_inj_r "_growth_rate=") in H.
    change ("_depth=" ++ ?x)%string
      with (String "_" ("depth=" ++ x))%string in H.
    apply str_prefix_inj in H as [Hg H]; [|assumption|assumption].
    apply (append_inj_r "depth=") in H.
    change ("_dataset_" ++ ?x)%string
      with (String "_" ("dataset_" ++ x))%string in H.
    apply str_prefix_inj in H as [Hdp H]; [|assumption|assumption].
    apply (append_inj_r "dataset_") in H.
    apply append_inj_r in H. apply (append_inj_r "_total_block=") in H.
    apply str_inj_nonneg in H; auto.
  - intros (Hg & Hdp & Ht). unfold save_path, model_identifier.
    now rewrite Hm, Hd, Hg, Hdp, Ht.
Qed.

End SaveDirectory.

Lemma pool_zero_argument_is_omitted_witness :
  DenseNet3D.pool Toy.net0 (Some [None; Some 8; Some 16; Some 16; Some 24])
    2 2 (Some 0) (Interned "avg") (Some 0) None None
  = DenseNet3D.pool Toy.net0 (Some [None; Some 8; Some 16; Some 16; Some 24])
      2 2 None (Interned "avg") None None None
  /\ exists ksize strides : list Z,
       Forall (fun z => z <> 0) (ksize ++ strides)
       /\ DenseNet3D.pool Toy.net0
            (Some [None; Some 8; Some 16; Some 16; Some 24])
            2 2 (Some 0) (Interned "avg") (Some 0) None None
          = (Layout.pooled [None; Some 8; Some 16; Some 16; Some 24]
               ksize strides,
             [Op (nn_avg_pool3d [None; Some 8; Some 16; Some 16; Some 24]
                    ksize strides SAME)]).
Proof.
  destruct (pool_zero_argument_is_omitted Toy.net0
              (Some [None; Some 8; Some 16; Some 16; Some 24])
              2 2 (Some 0) (Some 0) None None (Interned "avg")) as [H1 H2].
  split; [exact H1|].
  destruct (H2 ltac:(discriminate) ltac:(discriminate)
              [None; Some 8; Some 16; Some 16; Some 24])
    as (ksize & strides & Hnz & Havg & _).
  exists ksize, strides. split; assumption.
Defined.

Lemma save_path_shared_iff_witness :
  Train.save_path Toy.net0 = Train.save_path Samples.net_quiet
  /\ Train.save_path Toy.net0 <> Train.save_path Samples.net_deeper.
Proof.
  split.
  - apply (save_path_shared_iff Toy.net0 Samples.net_quiet);
      cbn; try reflexivity; try lia.
  - intros H.
    apply (save_path_shared_iff Toy.net0 Samples.net_deeper) in H;
      cbn; try reflexivity; try lia.
    destruct H as (_ & H & _). discriminate H.
Defined.

(** ** Floats: a product by a factor of (0, 1] does not grow *)

Section FloatOrder.

Import FloatBounds.

Lemma shr_1_exact (r : shr_record) (q : Z) :
  shr_r r = false -> shr_s r = false -> shr_m r = q * 2 -> 0 <= q ->
  shr_r (shr_1 r) = false /\ shr_s (shr_1 r) = false /\ shr_m (shr_1 r) = q.
Proof.
  destruct r as [m r s]. cbn [shr_m shr_r shr_s]. intros -> -> Hm Hq.
  destruct m as [|[p|p|]|p]; cbn; repeat split; lia.
Qed.

Lemma iter_shr_exact (p : positive) (r : shr_record) (q : Z) :
  shr_r r = false -> shr_s r = false -> shr_m r = q * 2 ^ Zpos p -> 0 <= q ->
  shr_r (iter_pos shr_1 p r) = false /\ shr_s (iter_pos shr_1 p r) = false
  /\ shr_m (iter_pos shr_1 p r) = q.
Proof.
  revert r q. induction p as [p IH|p IH|]; intros r q Hr Hs Hm Hq;
    cbn [iter_pos].
  - assert (Hp : 0 < 2 ^ Zpos p) by (apply Z.pow_pos_nonneg; lia).
    destruct (shr_1_exact r (q * 2 ^ Zpos p * 2 ^ Zpos p) Hr Hs)
      as (Hr1 & Hs1 & Hm1); [|nia|].
    { rewrite Hm. replace (Zpos p~1) with (Zpos p + Zpos p + 1) by lia.
      rewrite !Z.pow_add_r by lia. change (2 ^ 1) with 2. ring. }
    destruct (IH _ (q * 2 ^ Zpos p) Hr1 Hs1 Hm1 ltac:(nia))
      as (Hr2 & Hs2 & Hm2).
    exact (IH _ q Hr2 Hs2 Hm2 Hq).
  - assert (Hp : 0 < 2 ^ Zpos p) by (apply Z.pow_pos_nonneg; lia).
    destruct (IH r (q * 2 ^ Zpos p) Hr Hs) as (Hr2 & Hs2 & Hm2); [|nia|].
    { rewrite Hm. replace (Zpos p~0) with (Zpos p + Zpos p) by lia.
      rewrite !Z.pow_add_r by lia. ring. }
    exact (IH _ q Hr2 Hs2 Hm2 Hq).
  - apply shr_1_exact; assumption.
Qed.

(** Shifting out zeros only is exact. *)
Lemma shr_exact (m e n q : Z) :
  0 <= q -> m = q * 2 ^ Z.max 0 n ->
  loc_of_shr_record (fst (shr (shr_record_of_loc m loc_Exact) e n)) = loc_Exact.
Proof.
  intros Hq Hm. destruct n as [|p|p]; cbn [shr fst]; try reflexivity.
  destruct (iter_shr_exact p (shr_record_of_loc m loc_Exact) q)
    as (Hr & Hs & _); try reflexivity; try assumption.
  destruct (iter_pos shr_1 p _) as [m' r' s']. cbn [shr_r shr_s] in *.
  subst. reflexivity.
Qed.

Lemma Zdigits2_below (x k : Z) : 0 <= x < 2 ^ k -> 0 <= k -> Zdigits2 x <= k.
Proof.
  intros Hx Hk. destruct (Z.eq_dec x 0) as [->|Hne]; [cbn; lia|].
  rewrite Zdigits2_log2 by lia.
  assert (Z.log2 x < k) by (apply Z.log2_lt_pow2; lia). lia.
Qed.

(** One rounding step on an exactly known mantissa stays between the
    integers that enclose the value. *)
Lemma shr_fexp_between (m e lo hi : Z) :
  0 <= m -> e <= 0 -> 0 <= lo -> hi < 2 ^ 53 ->
  lo * 2 ^ (- e) <= m <= hi * 2 ^ (- e) ->
  let r := shr_fexp prec64 emax64 m e loc_Exact in
  let m' := round_nearest_even (shr_m (fst r)) (loc_of_shr_record (fst r)) in
  snd r <= 0
  /\ lo * 2 ^ (- snd r) <= m' <= hi * 2 ^ (- snd r).
Proof.
  intros Hm He Hlo Hhi Hb r m'. subst m' r. unfold shr_fexp.
  assert (Hpe : 0 < 2 ^ (- e)) by (apply Z.pow_pos_nonneg; lia).
  assert (Hdig : Zdigits2 m + e <= 53).
  { assert (Zdigits2 m <= 53 - e); [|lia].
    apply Zdigits2_below; [|lia]. split; [lia|].
    replace (53 - e) with (53 + - e) by lia. rewrite Z.pow_add_r by lia. nia. }
  set (f := fexp prec64 emax64 (Zdigits2 m + e)).
  assert (Hf : f <= 0) by (subst f; unfold fexp, emin, prec64, emax64; lia).
  destruct (shr_spec (shr_record_of_loc m loc_Exact) e (f - e)) as [Hsm Hse].
  { exact Hm. }
  rewrite shr_record_of_loc_m in Hsm.
  set (n := Z.max 0 (f - e)) in *.
  assert (Hn : 0 <= n) by lia.
  assert (Hpn : 0 < 2 ^ n) by (apply Z.pow_pos_nonneg; lia).
  assert (He1 : e + n <= 0) by lia.
  assert (Hpe1 : 0 < 2 ^ (- (e + n))) by (apply Z.pow_pos_nonneg; lia).
  assert (Hsplit : 2 ^ (- e) = 2 ^ (- (e + n)) * 2 ^ n).
  { rewrite <- Z.pow_add_r by lia. f_equal. lia. }
  rewrite Hse. split; [exact He1|].
  rewrite Hsplit in Hb.
  pose proof (round_nearest_even_range
                (shr_m (fst (shr (shr_record_of_loc m loc_Exact) e (f - e))))
                (loc_of_shr_record
                   (fst (shr (shr_record_of_loc m loc_Exact) e (f - e)))))
    as Hround.
  rewrite Hsm in Hround |- *.
  assert (Hlow : lo * 2 ^ (- (e + n)) <= m / 2 ^ n).
  { apply Z.div_le_lower_bound; [lia|]. nia. }
  assert (Hup : m / 2 ^ n <= hi * 2 ^ (- (e + n))).
  { apply Z.div_le_upper_bound; [lia|]. nia. }
  split; [lia|].
  destruct (Z.eq_dec (m / 2 ^ n) (hi * 2 ^ (- (e + n)))) as [Heq|Hne]; [|lia].
  assert (Hexact : m = hi * 2 ^ (- (e + n)) * 2 ^ n).
  { pose proof (Z.mul_div_le m (2 ^ n) Hpn). nia. }
  rewrite (shr_exact m e (f - e) (hi * 2 ^ (- (e + n)))).
  - cbn [round_nearest_even]. lia.
  - rewrite <- Heq. apply Z.div_pos; lia.
  - exact Hexact.
Qed.

(** Rounding to a double stays between the integers below [2 ^ 53] that
    enclose the value. *)
Lemma binary_round_aux_between (m : positive) (e lo hi : Z) :
  e <= 0 -> 0 <= lo -> hi < 2 ^ 53 ->
  lo * 2 ^ (- e) <= Zpos m <= hi * 2 ^ (- e) ->
  between (binary_round_aux prec64 emax64 false (Zpos m) e loc_Exact) lo hi.
Proof.
  intros He Hlo Hhi Hb. unfold binary_round_aux.
  pose proof (shr_fexp_between (Zpos m) e lo hi ltac:(lia) He Hlo Hhi Hb)
    as [He1 Hb1]. cbv zeta in He1, Hb1.
  destruct (shr_fexp prec64 emax64 (Zpos m) e loc_Exact) as [mrs' e'] eqn:E1.
  cbn [fst snd] in *.
  set (m1 := round_nearest_even (shr_m mrs') (loc_of_shr_record mrs')) in *.
  assert (Hpe1 : 0 < 2 ^ (- e')) by (apply Z.pow_pos_nonneg; lia).
  assert (Hm1 : 0 <= m1) by nia.
  unfold shr_fexp.
  assert (Hdig : Zdigits2 m1 + e' <= 53).
  { assert (Zdigits2 m1 <= 53 - e'); [|lia].
    apply Zdigits2_below; [|lia]. split; [lia|].
    replace (53 - e') with (53 + - e') by lia. rewrite Z.pow_add_r by lia. nia. }
  set (f := fexp prec64 emax64 (Zdigits2 m1 + e')).
  assert (Hf : f <= 0) by (subst f; unfold fexp, emin, prec64, emax64; lia).
  destruct (shr_spec (shr_record_of_loc m1 loc_Exact) e' (f - e')) as [Hsm Hse].
  { exact Hm1. }
  rewrite shr_record_of_loc_m in Hsm.
  destruct (shr (shr_record_of_loc m1 loc_Exact) e' (f - e')) as [mrs'' e''].
  cbn [fst snd] in *.
  set (n := Z.max 0 (f - e')) in *.
  assert (Hpn : 0 < 2 ^ n) by (apply Z.pow_pos_nonneg; lia).
  assert (He2 : e'' <= 0) by lia.
  assert (Hpe2 : 0 < 2 ^ (- e'')) by (apply Z.pow_pos_nonneg; lia).
  assert (Hsplit : 2 ^ (- e') = 2 ^ (- e'') * 2 ^ n).
  { rewrite <- Z.pow_add_r by lia. f_equal. lia. }
  rewrite Hsplit in Hb1.
  assert (Hlow : lo * 2 ^ (- e'') <= m1 / 2 ^ n).
  { apply Z.div_le_lower_bound; [lia|]. nia. }
  assert (Hup : m1 / 2 ^ n <= hi * 2 ^ (- e'')).
  { apply Z.div_le_upper_bound; [lia|]. nia. }
  rewrite Hsm.
  destruct (m1 / 2 ^ n) as [|m2|m2] eqn:E2.
  - cbn [between]. nia.
  - unfold emax64, prec64. destruct (Z.leb_spec e'' (1024 - 53)); [|lia].
    cbn [between]. repeat split; lia.
  - nia.
Qed.

Lemma iter_xO_value (p d : positive) :
  Zpos (Pos.iter xO p d) = Zpos p * 2 ^ Zpos d.
Proof.
  apply (Pos.iter_ind positive xO p
           (fun d q => Zpos q = Zpos p * 2 ^ Zpos d)).
  - change (2 ^ 1) with 2. lia.
  - intros d' q IH. rewrite Pos2Z.inj_succ, Z.pow_succ_r by lia. lia.
Qed.

(** Conversion of an integer below [2 ^ 53] is exact. *)
Lemma float_of_int_between (c : Z) :
  0 <= c < 2 ^ 53 ->
  exists x, float_of_int c = Ok x /\ between x c c.
Proof.
  intros Hc. unfold float_of_int, binary_normalize.
  destruct c as [|p|p]; [| |lia].
  - exists (S754_zero false). split; [reflexivity|]. cbn. lia.
  - unfold binary_round.
    assert (Hdig : Zpos (digits2_pos p) <= 53).
    { change (Zpos (digits2_pos p)) with (Zdigits2 (Zpos p)).
      apply Zdigits2_below; lia. }
    set (f := fexp prec64 emax64 (Zpos (digits2_pos p) + 0)).
    assert (Hf : f <= 0) by (subst f; unfold fexp, emin, prec64, emax64; lia).
    assert (Hal : exists mz ez,
               shl_align p 0 f = (mz, ez) /\ ez <= 0
               /\ Zpos mz = Zpos p * 2 ^ (- ez)).
    { unfold shl_align. destruct (f - 0) as [|q|q] eqn:E.
      - exists p, 0. repeat split; lia.
      - lia.
      - exists (Pos.iter xO p q), f. split; [reflexivity|]. split; [lia|].
        rewrite iter_xO_value. do 2 f_equal. lia. }
    destruct Hal as (mz & ez & -> & Hez & Hmz).
    pose proof (binary_round_aux_between mz ez (Zpos p) (Zpos p) Hez
                  ltac:(lia) ltac:(lia) ltac:(lia)) as Hbt.
    destruct (binary_round_aux prec64 emax64 false (Zpos mz) ez loc_Exact)
      as [s'|s'| |s' m' e'] eqn:E; try contradiction;
      eexists; (split; [reflexivity|exact Hbt]).
Qed.

(** The product with a positive float of value at most 1: it is at least
    [lo'] when [lo] times the value of the float is. *)
Lemma SFmul_between (x : float) (mr : positive) (er lo hi lo' : Z) :
  between x lo hi -> 0 <= lo -> hi < 2 ^ 53 ->
  er <= 0 -> Zpos mr <= 2 ^ (- er) ->
  0 <= lo' -> lo' * 2 ^ (- er) <= lo * Zpos mr ->
  between (SFmul prec64 emax64 x (S754_finite false mr er)) lo' hi.
Proof.
  intros Hx Hlo Hhi Her Hmr Hlo' Hlow.
  assert (Hpr0 : 0 < 2 ^ (- er)) by (apply Z.pow_pos_nonneg; lia).
  destruct x as [s|s| |s mx ex]; cbn [between] in Hx; try contradiction.
  - cbn [SFmul between]. split; [|lia].
    assert (lo' * 2 ^ (- er) <= 0) by nia. nia.
  - destruct Hx as (-> & Hex & Hb). cbn [SFmul xorb].
    assert (Hpx : 0 < 2 ^ (- ex)) by (apply Z.pow_pos_nonneg; lia).
    assert (Hpr : 0 < 2 ^ (- er)) by (apply Z.pow_pos_nonneg; lia).
    assert (Hsplit : 2 ^ (- (ex + er)) = 2 ^ (- ex) * 2 ^ (- er)).
    { rewrite <- Z.pow_add_r by lia. f_equal. lia. }
    apply binary_round_aux_between; try lia.
    rewrite Hsplit, Pos2Z.inj_mul.
    set (A := 2 ^ (- ex)) in *. set (B := 2 ^ (- er)) in *. split.
    + apply Z.le_trans with (lo * Zpos mr * A); [|nia].
      replace (lo' * (A * B)) with (lo' * B * A) by ring.
      apply Z.mul_le_mono_nonneg_r; lia.
    + apply Z.le_trans with (hi * A * Zpos mr); nia.
Qed.

(** [int(x)] of a float between two integers lies between them. *)
Lemma int_of_float_between (x : float) (lo hi : Z) :
  between x lo hi ->
  exists n, int_of_float x = Ok n /\ lo <= n <= hi.
Proof.
  destruct x as [s|s| |s m e]; cbn [between]; try contradiction.
  - intros H. exists 0. split; [reflexivity|lia].
  - intros (-> & He & Hb). eexists. split; [reflexivity|].
    unfold trunc_magnitude. destruct e as [|p|p]; [|lia|].
    + change (2 ^ (- 0)) with 1 in Hb. lia.
    + change (- Zneg p) with (Zpos p) in Hb.
      assert (Hp : 0 < 2 ^ Zpos p) by (apply Z.pow_pos_nonneg; lia).
      split; [apply Z.div_le_lower_bound; lia
             |apply Z.div_le_upper_bound; lia].
Qed.

(** Comparison of two positive floats of the same exponent. *)
Lemma SFleb_same_exponent (m q : positive) (e : Z) :
  SFleb (S754_finite false m e) (S754_finite false q e) = true ->
  (m <= q)%positive.
Proof.
  unfold SFleb, SFcompare. rewrite Z.compare_refl.
  change (Pos.compare_cont Eq m q) with (Pos.compare m q).
  destruct (Pos.compare_spec m q) as [Heq|Hlt|Hgt]; intros H.
  - subst m. apply Pos.le_refl.
  - now apply Pos.lt_le_incl.
  - discriminate H.
Qed.

Lemma leb_same_exponent (m q : positive) (e : Z) (y : float) :
  y = S754_finite false q e ->
  leb (S754_finite false m e) y = true -> (m <= q)%positive.
Proof. intros ->. unfold leb. apply SFleb_same_exponent. Qed.

(** A valid float of (0, 1] has a value of at most 1. *)
Lemma unit_interval_value (r : float) :
  valid_binary prec64 emax64 r = true ->
  ltb float_zero r = true -> leb r float_one = true ->
  exists m e, r = S754_finite false m e /\ e <= 0 /\ Zpos m <= 2 ^ (- e).
Proof.
  intros Hv Hlt Hle.
  destruct (unit_interval_float r Hv Hlt Hle) as (m & e & -> & He & Hd).
  exists m, e. split; [reflexivity|]. split; [lia|].
  destruct (Z.eq_dec e (-52)) as [->|Hne].
  - change (2 ^ (- -52)) with (Zpos 4503599627370496).
    apply Pos2Z.pos_le_pos.
    exact (leb_same_exponent m 4503599627370496 (-52) float_one eq_refl Hle).
  - clear Hle Hv Hlt.
    assert (Hm : Zpos m < 2 ^ 53).
    { change (Zpos (digits2_pos m)) with (Zdigits2 (Zpos m)) in Hd.
      rewrite Zdigits2_log2 in Hd by lia.
      apply Z.log2_lt_pow2; lia. }
    assert (2 ^ 53 <= 2 ^ (- e)) by (apply Z.pow_le_mono_r; lia). lia.
Qed.

(** [int(c * reduction)] for a reduction of (0, 1]: at most [c], [c]
    itself when the reduction is 1.0, and at least 1 when the reduction
    keeps a channel of [lo <= c]. *)
Lemma scaled_features (c : Z) (r : float) :
  0 <= c < 2 ^ 53 ->
  valid_binary prec64 emax64 r = true ->
  ltb float_zero r = true -> leb r float_one = true ->
  exists (scaled : float) (n : Z),
    mul_int_float c r = Ok scaled /\ int_of_float scaled = Ok n
    /\ 0 <= n <= c /\ (r = float_one -> n = c)
    /\ (forall lo, lo <= c -> Layout.keeps_a_channel lo r = true -> 1 <= n).
Proof.
  intros Hc Hv Hlt Hle.
  destruct (float_of_int_between c Hc) as (x & Hx & Hbx).
  destruct (unit_interval_value r Hv Hlt Hle) as (mr & er & -> & Her & Hmr).
  unfold mul_int_float. rewrite Hx.
  assert (Hpr : 0 < 2 ^ (- er)) by (apply Z.pow_pos_nonneg; lia).
  pose proof (SFmul_between x mr er c c 0 Hbx ltac:(lia) ltac:(lia) Her Hmr
                ltac:(lia) ltac:(lia)) as Hb0.
  destruct (int_of_float_between _ _ _ Hb0) as (n & Hn & Hbn).
  exists (SFmul prec64 emax64 x (S754_finite false mr er)), n.
  split; [reflexivity|]. split; [exact Hn|]. split; [exact Hbn|]. split.
  - intros Hone. unfold float_one in Hone. inversion Hone; subst mr er.
    pose proof (SFmul_between x 4503599627370496 (-52) c c c Hbx ltac:(lia)
                  ltac:(lia) ltac:(lia) ltac:(reflexivity)
                  ltac:(lia) ltac:(reflexivity)) as Hb1.
    destruct (int_of_float_between _ _ _ Hb1) as (n' & Hn' & Hbn').
    rewrite Hn in Hn'. inversion Hn'. lia.
  - intros lo Hlo Hkeep. unfold Layout.keeps_a_channel in Hkeep.
    apply Z.leb_le in Hkeep.
    rewrite (Z.max_r 0 (- er)), (Z.max_l 0 er) in Hkeep by lia.
    change (2 ^ 0) with 1 in Hkeep. rewrite Z.mul_1_r in Hkeep.
    assert (Hlow : 1 * 2 ^ (- er) <= c * Zpos mr) by nia.
    pose proof (SFmul_between x mr er c c 1 Hbx ltac:(lia) ltac:(lia) Her Hmr
                  ltac:(lia) Hlow) as Hb1.
    destruct (int_of_float_between _ _ _ Hb1) as (n' & Hn' & Hbn').
    rewrite Hn in Hn'. inversion Hn'. lia.
Qed.

End FloatOrder.

(** ** Transitions never widen; well-formed networks are built *)

Section WholeGraph.

Import DenseNet3D Layout Structure.
Local Open Scope graph_scope.

Variable self : self_t.

Hypothesis keep_prob_valid : valid_keep_prob self.
Hypothesis reduction_valid : valid_binary prec64 emax64 (reduction self) = true.
Hypothesis reduction_positive : ltb float_zero (reduction self) = true.
Hypothesis reduction_at_most_one : leb (reduction self) float_one = true.

(** [transition_layer] with the number of features it keeps. *)
Lemma transition_run (b d h w : dim) (c pool_depth : Z) :
  0 < c < 2 ^ 53 -> 0 < pool_depth ->
  exists n : Z,
    0 <= n <= c
    /\ (reduction self = float_one -> n = c)
    /\ (forall lo, lo <= c -> keeps_a_channel lo (reduction self) = true ->
                   1 <= n)
    /\ transition_layer self (Some (fmap b d h w c)) pool_depth
       = (Ok (Some (fmap b (strided d pool_depth) (strided h 2) (strided w 2) n)),
          composite_nodes self b d h w c n 1
          ++ [Scope "pooling"
                [Op (nn_avg_pool3d (fmap b d h w n)
                       [1; pool_depth; 2; 2; 1] [1; pool_depth; 2; 2; 1]
                       SAME)]]).
Proof.
  intros Hc Hp.
  destruct (scaled_features c (reduction self) ltac:(lia) reduction_valid
              reduction_positive reduction_at_most_one)
    as (scaled & n & Hmul & Hint & Hn & Hone & Hlow).
  exists n. split; [exact Hn|]. split; [exact Hone|]. split; [exact Hlow|].
  rewrite (transition_layer_unfold self b d h w c pool_depth n scaled
             keep_prob_valid ltac:(lia) ltac:(lia) Hmul Hint).
  now rewrite transition_pool_shape.
Qed.

(** X17.  With a reduction in (0, 1] and a keep probability that dropout
    accepts, a transition layer never widens the feature map: on [c > 0]
    channels (below [2 ^ 53]) it keeps [n = int(c * reduction)] channels
    with [0 <= n <= c], and with the default reduction 1.0 it keeps all
    [c], the product being exact.  The height and the width are halved
    and the depth divided by [pool_depth], all rounded up. *)
Theorem transition_never_widens (b d h w : dim) (c pool_depth : Z) :
  0 < c < 2 ^ 53 -> 0 < pool_depth ->
  exists n : Z,
    outcome (transition_layer self (Some (fmap b d h w c)) pool_depth)
    = Ok (Some [b; strided d pool_depth; strided h 2; strided w 2; Some n])
    /\ 0 <= n <= c
    /\ (reduction self = float_one -> n = c).
Proof.
  intros Hc Hp.
  destruct (transition_run b d h w c pool_depth Hc Hp)
    as (n & Hn & Hone & _ & Hrun).
  exists n. rewrite Hrun. repeat split; try assumption; apply Hn.
Qed.













End WholeGraph.

Section WellFormed.

Import DenseNet3D Layout Structure.
Local Open Scope graph_scope.




End WellFormed.

Lemma transition_never_widens_witness :
  exists n : Z,
    outcome (DenseNet3D.transition_layer Samples.net_dropout
               (Some (Layout.fmap None (Some 8) (Some 8) (Some 8) 60)) 2)
    = Ok (Some [None; Some 4; Some 4; Some 4; Some n])
    /\ 0 <= n <= 60.
Proof.
  destruct (transition_never_widens Samples.net_dropout
              ltac:(intros _; reflexivity) eq_refl eq_refl eq_refl
              None (Some 8) (Some 8) (Some 8) 60 2)
    as (n & H & Hn & _); [lia|lia|].
  exists n. split; [exact H|exact Hn].
Defined.



(** ** Configurations on which graph construction stops *)

Section ConstructionFailures.

Import DenseNet3D Layout.
Local Open Scope graph_scope.

Variable self : self_t.
Variables b d h w : dim.

Lemma msra_negative (s : list Z) (name : string) :
  existsb (fun n => n <? 0) s = true ->
  weight_variable_msra s name = (Raise ValueError, []).
Proof. intros H. unfold weight_variable_msra. now rewrite H. Qed.

Lemma msra_no_fan_in (s : list Z) (name : string) :
  existsb (fun n => n <? 0) s = false -> fan_in s = 0 ->
  weight_variable_msra s name = (Raise ZeroDivisionError, []).
Proof.
  intros Hneg Hfan. unfold weight_variable_msra. now rewrite Hneg, Hfan.
Qed.

(** A convolution whose kernel cannot be created. *)
Lemma conv3d_kernel_fails (c k out : Z) (strides : list Z) (p : padding)
    (e : exn) :
  weight_variable_msra [k; k; k; c; out] "kernel" = (Raise e, []) ->
  conv3d self (Some (fmap b d h w c)) out k strides p = (Raise e, []).
Proof.
  intros H. unfold conv3d, tensor_of.
  rewrite bind_ret, get_channels, bind_lift_ok. unfold int_of_dim.
  rewrite bind_lift_ok, H. reflexivity.
Qed.

(** Batch normalisation and ReLU in front of a convolution whose kernel
    cannot be created. *)
Lemma bn_relu_conv_fails (c k out : Z) (p : padding) (e : exn) :
  weight_variable_msra [k; k; k; c; out] "kernel" = (Raise e, []) ->
  outcome
    (output <- batch_norm self (Some (fmap b d h w c)) ;;
     output <- relu output ;;
     output <- conv3d self output out k [1; 1; 1; 1; 1] p ;;
     output <- dropout self output ;;
     TF.ret output)
  = Raise e.
Proof.
  intros H. rewrite batch_norm_ok, bind_pair. cbv beta.
  rewrite relu_ok, bind_pair. cbv beta.
  rewrite (conv3d_kernel_fails _ _ _ _ _ _ H). reflexivity.
Qed.

Lemma add_internal_layer_kernel_fails (c g : Z) (e : exn) :
  (forall k out, (k = 3 /\ out = g) \/ (k = 1 /\ out = g * 4) ->
                 weight_variable_msra [k; k; k; c; out] "kernel"
                 = (Raise e, [])) ->
  outcome (add_internal_layer self (Some (fmap b d h w c)) g) = Raise e.
Proof.
  intros H. unfold add_internal_layer.
  destruct (bc_mode self); cbn [negb]; cbv iota.
  - do 2 apply outcome_bind_raise. unfold bottleneck. rewrite outcome_scope.
    cbv zeta. apply bn_relu_conv_fails. apply H. right. split; reflexivity.
  - apply outcome_bind_raise. unfold composite_function.
    rewrite outcome_scope. apply bn_relu_conv_fails. apply H. left.
    split; reflexivity.
Qed.

(** X20.  An internal layer cannot be built on a feature map without
    channels, nor with a negative growth rate: the first kernel it asks
    for has no fan-in ([ZeroDivisionError] from the initialiser) or a
    negative dimension ([ValueError]), with and without [bc_mode].  A
    block of at least one layer fails in the same way. *)
Theorem internal_layer_needs_channels (c g n : Z) :
  (c = 0 -> 0 <= g ->
   outcome (add_internal_layer self (Some (fmap b d h w c)) g)
   = Raise ZeroDivisionError
   /\ (0 < n ->
       outcome (add_block self (Some (fmap b d h w c)) g n)
       = Raise ZeroDivisionError))
  /\ (g < 0 ->
      outcome (add_internal_layer self (Some (fmap b d h w c)) g)
      = Raise ValueError
      /\ (0 < n ->
          outcome (add_block self (Some (fmap b d h w c)) g n)
          = Raise ValueError)).
Proof.
  assert (Hblock : forall e,
             outcome (add_internal_layer self (Some (fmap b d h w c)) g)
             = Raise e ->
             0 < n ->
             outcome (add_block self (Some (fmap b d h w c)) g n) = Raise e).
  { intros e He Hn. unfold add_block. rewrite range_cons by lia.
    cbn [TF.for_acc]. apply outcome_bind_raise. now rewrite outcome_scope. }
  split.
  - intros -> Hg.
    assert (H : outcome (add_internal_layer self (Some (fmap b d h w 0)) g)
                = Raise ZeroDivisionError).
    { apply add_internal_layer_kernel_fails. intros k out Hk.
      apply msra_no_fan_in.
      - cbn [existsb]. destruct Hk as [[-> ->]|[-> ->]]; cbn [Z.ltb Z.compare];
          cbn [orb]; rewrite orb_false_r; apply Z.ltb_ge; lia.
      - unfold fan_in. cbn [rev app fold_right]. lia. }
    split; [exact H|]. now apply Hblock.
  - intros Hg.
    assert (H : outcome (add_internal_layer self (Some (fmap b d h w c)) g)
                = Raise ValueError).
    { apply add_internal_layer_kernel_fails. intros k out Hk.
      apply msra_negative. cbn [existsb].
      assert (Hout : (out <? 0) = true)
        by (apply Z.ltb_lt; destruct Hk as [[_ ->]|[_ ->]]; lia).
      rewrite Hout. now rewrite !orb_true_r. }
    split; [exact H|]. now apply Hblock.
Qed.

(** X21.  Dropout is built only for a keep probability below 1, and then
    the keep probability must be positive: with [keep_prob <= 0] the
    dropout node cannot be created ([ValueError]), and the first
    composite function of the graph fails with it; with [keep_prob >= 1]
    no node is created and the input is returned. *)
Theorem dropout_needs_positive_keep_prob (s : shape) (c out k : Z) :
  (ltb (keep_prob self) float_one = true ->
   ltb float_zero (keep_prob self) = false ->
   outcome (dropout self (Some s)) = Raise ValueError
   /\ (0 < k -> 0 < c -> 0 <= out ->
       outcome (composite_function self (Some (fmap b d h w c)) out k)
       = Raise ValueError))
  /\ (ltb (keep_prob self) float_one = false ->
      dropout self (Some s) = (Ok (Some s), []))
  /\ (ltb (keep_prob self) float_one = true ->
      ltb float_zero (keep_prob self) = true ->
      dropout self (Some s)
      = (Ok (Some s), [Scope "dropout" [Op (cond_dropout s (keep_prob self))]])).
Proof.
  split; [|split].
  - intros Hlt Hpos.
    assert (Hd : forall s', outcome (dropout self (Some s')) = Raise ValueError).
    { intros s'. unfold dropout, tensor_of. rewrite Hlt, outcome_scope.
      rewrite bind_ret, Hpos. reflexivity. }
    split; [apply Hd|]. intros Hk Hc Hout.
    unfold composite_function. rewrite outcome_scope.
    rewrite batch_norm_ok, bind_pair. cbv beta.
    rewrite relu_ok, bind_pair. cbv beta.
    rewrite (conv3d_stride_1 self b d h w c k out SAME Hk Hc Hout
               (conv3d_shape_same b d h w c k out)), bind_pair.
    cbv beta. cbn [outcome fst]. apply outcome_bind_raise. apply Hd.
  - intros Hge. unfold dropout. now rewrite Hge.
  - intros Hlt Hpos. unfold dropout, tensor_of, scope.
    rewrite Hlt, bind_ret, Hpos. reflexivity.
Qed.

End ConstructionFailures.

Lemma internal_layer_needs_channels_witness :
  outcome (DenseNet3D.add_block Toy.net0
             (Some (Layout.fmap None (Some 8) (Some 8) (Some 8) 0)) 12 3)
  = Raise ZeroDivisionError
  /\ outcome (DenseNet3D.add_internal_layer Toy.net_bc
                (Some (Layout.fmap None (Some 8) (Some 8) (Some 8) 24)) (-12))
     = Raise ValueError.
Proof.
  destruct (internal_layer_needs_channels Toy.net0 None (Some 8) (Some 8)
              (Some 8) 0 12 3) as [H0 _].
  destruct (internal_layer_needs_channels Toy.net_bc None (Some 8) (Some 8)
              (Some 8) 24 (-12) 3) as [_ Hneg].
  split.
  - exact (proj2 (H0 eq_refl ltac:(lia)) ltac:(lia)).
  - exact (proj1 (Hneg ltac:(lia))).
Defined.

Lemma dropout_needs_positive_keep_prob_witness :
  outcome (DenseNet3D.composite_function Samples.net_no_keep
             (Some (Layout.fmap None (Some 8) (Some 8) (Some 8) 24)) 12 3)
  = Raise ValueError
  /\ DenseNet3D.dropout Samples.net_dropout (Some [None; Some 8])
     = (Ok (Some [None; Some 8]),
        [Scope "dropout" [Op (cond_dropout [None; Some 8] Toy.half)]]).
Proof.
  destruct (dropout_needs_positive_keep_prob Samples.net_no_keep None (Some 8)
              (Some 8) (Some 8) [None; Some 8] 24 12 3) as (H0 & _).
  destruct (dropout_needs_positive_keep_prob Samples.net_dropout None (Some 8)
              (Some 8) (Some 8) [None; Some 8] 24 12 3) as (_ & _ & H1).
  split.
  - exact (proj2 (H0 eq_refl eq_refl) ltac:(lia) ltac:(lia) ltac:(lia)).
  - exact (H1 eq_refl eq_refl).
Defined.

(** ** A time report that cannot be printed *)

Section TimeReport.

Import DenseNet3D Train.
Context {R : Runtime}.

Variable self : self_t.

Lemma stops_bind {A B} (m : T A) (k : A -> T B) (f g : progress -> progress)
    (Q : A -> Prop) (x : exn) :
  advances m f Q -> (forall a, Q a -> stops (k a) g x) ->
  stops (Train.bind m k) (fun s => g (f s)) x.
Proof.
  intros Hm Hk w. destruct (Hm w) as (a & w1 & H1 & Ha & P1 & _).
  destruct (Hk a Ha w1) as (w2 & H2 & P2).
  exists w2. rewrite (bind_run _ _ _ _ _ H1).
  split; [assumption|congruence].
Qed.

Lemma stops_lift {A B} (k : A -> T B) (x : exn) :
  stops (Train.bind (Train.lift (Raise x)) k) (fun s => s) x.
Proof. intros w. exists w. split; reflexivity. Qed.

(** An epoch whose time report raises: it is trained and evaluated, and
    not saved. *)
Lemma train_epoch_stops (tp : train_params_t) (epoch : Z) (x : exn) (w : world) :
  batch_size tp <> 0 ->
  time_report (n_epochs tp) epoch (epoch_seconds epoch) = Raise x ->
  exists w',
    train_epoch self tp epoch w = (Raise x, w')
    /\ progress_of w'
       = (let s :=
            train_pass (batch_size tp) (scheduled_learning_rate tp epoch)
              (progress_of w) in
          match validation_set tp with
          | Some true => validation_pass (batch_size tp) s
          | _ => s
          end).
Proof.
  intros Hb Htime. unfold train_epoch. rewrite Htime.
  rewrite (bind_run _ _ _ _ _ (print_run (Msg_train_epoch epoch) w)).
  match goal with
  | |- exists w', ?m ?w0 = _ /\ _ =>
      assert (Hs : stops m
                     (fun s =>
                        let s :=
                          train_pass (batch_size tp)
                            (scheduled_learning_rate tp epoch) s in
                        match validation_set tp with
                        | Some true => validation_pass (batch_size tp) s
                        | _ => s
                        end) x)
  end.
  { apply (stops_bind _ _ (fun s => s) _ _ _
             (advances_epoch_learning_rate tp epoch)).
    intros lr ->.
    apply (stops_bind _ _ (fun s => s) _ _ _
             (advances_print Msg_training eq_refl)).
    intros _ _.
    apply (stops_bind _ _ _
             (fun s =>
                match validation_set tp with
                | Some true => validation_pass (batch_size tp) s
                | _ => s
                end)
             _ _ (advances_train_one_epoch self _ _ Hb)).
    intros res _.
    apply (stops_bind _ _ (fun s => s) _ (fun _ => True)).
    { destruct (should_save_logs self);
        [apply advances_log_loss_accuracy|apply advances_ret]. }
    intros _ _.
    apply (stops_bind _ _ _ (fun s => s) _ _
             (advances_validation self tp epoch Hb)).
    intros _ _. apply stops_lift. }
  destruct (Hs (set_stdout (stdout w ++ [Msg_train_epoch epoch]) w))
    as (w' & H & P).
  exists w'. split; [exact H|exact P].
Qed.

(** The seconds left after an epoch that took one second. *)
Lemma seconds_left_of_one (k : Z) :
  0 <= k < 2 ^ 53 ->
  exists scaled,
    mul_int_float k float_one = Ok scaled /\ int_of_float scaled = Ok k.
Proof.
  intros Hk.
  destruct (scaled_features k float_one Hk eq_refl eq_refl eq_refl)
    as (scaled & n & Hmul & Hint & _ & Hone & _).
  exists scaled. split; [exact Hmul|]. now rewrite Hint, (Hone eq_refl).
Qed.

(** X22.  The time report can stop a run.  When the report of the first
    epoch to train raises, [train_all_epochs] raises the same exception
    after that epoch was trained (and evaluated, when asked for) and
    before its checkpoint is written; no later epoch is run.  The report
    raises [OverflowError] when the estimated time left is beyond the
    range of [timedelta]: with epochs of one second, when
    [86400000000000] epochs or more are left. *)
Theorem time_report_can_stop_training (tp : train_params_t) (w w1 : world)
    (start_epoch : Z) (x : exn) :
  batch_size tp <> 0 ->
  load_model self w = (Ok start_epoch, w1) ->
  start_epoch <= n_epochs tp ->
  time_report (n_epochs tp) start_epoch (epoch_seconds start_epoch) = Raise x ->
  (exists w',
      train_all_epochs self tp w = (Raise x, w')
      /\ progress_of w'
         = (let s :=
              train_pass (batch_size tp)
                (scheduled_learning_rate tp start_epoch) (progress_of w1) in
            match validation_set tp with
            | Some true => validation_pass (batch_size tp) s
            | _ => s
            end)
      /\ checkpoint_files w' = checkpoint_files w1)
  /\ (forall n e : Z,
         86400000000000 <= n - e < 2 ^ 53 ->
         time_report n e float_one = Raise OverflowError)
  /\ (forall n e : Z,
         0 <= n - e < 86400000000000 ->
         time_report n e float_one = Ok tt).
Proof.
  intros Hb Hload Hle Htime. split; [|split].
  - destruct (train_epoch_stops tp start_epoch x w1 Hb Htime)
      as (w' & Hrun & P).
    exists w'. split; [|split; [exact P|]].
    + unfold train_all_epochs. rewrite (bind_run _ _ _ _ _ Hload).
      rewrite range_cons by lia. cbn [for_each].
      now rewrite (bind_raise _ _ _ _ _ (bind_raise _ _ _ _ _ Hrun)).
    + pose proof (f_equal saved_files P) as Hf. cbv zeta in Hf.
      destruct (validation_set tp) as [[|]|]; exact Hf.
  - intros n e Hk.
    destruct (seconds_left_of_one (n - e) ltac:(lia)) as (scaled & Hmul & Hint).
    unfold time_report. rewrite Hmul, Hint.
    change (timedelta_of_float float_one) with (Ok tt).
    unfold timedelta_of_int.
    destruct (Z.ltb_spec (n - e) 86400000000000); [lia|].
    now rewrite andb_false_r.
  - intros n e Hk.
    destruct (seconds_left_of_one (n - e) ltac:(lia)) as (scaled & Hmul & Hint).
    unfold time_report. rewrite Hmul, Hint.
    change (timedelta_of_float float_one) with (Ok tt).
    unfold timedelta_of_int.
    destruct (Z.ltb_spec (n - e) 86400000000000); [|lia].
    destruct (Z.leb_spec (-86399999913600) (n - e)); [reflexivity|lia].
Qed.

End TimeReport.

Lemma time_report_can_stop_training_witness :
  exists w' : Train.world (R := Toy.runtime),
    Train.train_all_epochs (R := Toy.runtime) Toy.net0
      (Toy.params0 1000000000000000 2 3 4) (Toy.world0 10 9)
    = (Raise OverflowError, w')
    /\ Train.sess w' = [(4, 4); (0, 4)]
    /\ Train.data_validation w' = (9, 8)
    /\ Train.checkpoint_files w' = [].
Proof.
  destruct (time_report_can_stop_training (R := Toy.runtime) Toy.net0
              (Toy.params0 1000000000000000 2 3 4) (Toy.world0 10 9)
              (Train.set_stdout [Train.Msg_training_from_scratch]
                 (Toy.world0 10 9)) 1 OverflowError)
    as ((w' & Hrun & P & Hf) & _);
    [discriminate | reflexivity | cbn; lia | vm_compute; reflexivity |].
  exists w'. split; [exact Hrun|].
  pose proof (f_equal Train.trained P) as Hs.
  pose proof (f_equal Train.valid_at P) as Hv.
  cbn [Train.progress_of Train.trained Train.valid_at] in Hs, Hv.
  rewrite Hs, Hv, Hf. repeat split.
Defined.
